(** * Jet_Reconstruction: stage gating, histogram filling and plotting

    A shallow embedding of the four programs of the repository
    ([jetRecoExp.cpp], [jetRecoGroom.cpp] and their two [_plots]
    companions) together with the statements of their specification.

    Conventions of the embedding.
    - The numbers of the C++ code are exact rationals [Q]: the rounding
      of a [float] or [double] and the saturation of an [int] cell are
      not represented.  Where the plotting code scales a histogram its
      cells are [double]s with the special values of IEEE 754, so that
      [1./0.] is [+inf] and the run goes on, as the programs do.
    - A pointer is an [option]: [None] is [nullptr]; dereferencing it is
      the fault [NullDeref].  [std::vector::at] out of range is the fault
      [OutOfRange] (an uncaught [std::out_of_range]).
    - The ROOT collaborators (histograms, trees, files, canvas) are
      modelled by the observable behaviour the programs rely on. *)

From Stdlib Require Import QArith ZArith String Ascii List Lia Qround Sorted.
From stdpp Require Import gmap strings list.
Import ListNotations.

Local Open Scope string_scope.
Local Open Scope list_scope.
Local Open Scope Z_scope.

(* ===================================================================== *)
(** ** The C library: [atol] and the narrowing to [int] *)
(* ===================================================================== *)

Module Libc.

Definition isspace (c : ascii) : bool :=
  let n := Z.of_nat (nat_of_ascii c) in
  (n =? 32) || ((9 <=? n) && (n <=? 13)).

Definition isdigit (c : ascii) : bool :=
  let n := Z.of_nat (nat_of_ascii c) in
  (48 <=? n) && (n <=? 57).

Definition digit_value (c : ascii) : Z := Z.of_nat (nat_of_ascii c) - 48.

Fixpoint skip_space (s : string) : string :=
  match s with
  | String c s' => if isspace c then skip_space s' else s
  | EmptyString => s
  end.

(** The longest prefix of decimal digits, accumulated in base ten. *)
Fixpoint digits (acc : Z) (s : string) : Z :=
  match s with
  | String c s' => if isdigit c then digits (10 * acc + digit_value c) s' else acc
  | EmptyString => acc
  end.

Definition LONG_MAX : Z := 2 ^ 63 - 1.
Definition LONG_MIN : Z := - 2 ^ 63.

Definition clamp_long (z : Z) : Z := Z.max LONG_MIN (Z.min LONG_MAX z).

(** [atol(s)] is [strtol(s, NULL, 10)]: white space, an optional sign,
    then digits; the value is 0 when no digit follows, and is clamped to
    the range of [long] as [strtol] does. *)
Definition atol (s : string) : Z :=
  match skip_space s with
  | String "-"%char s' => clamp_long (- digits 0 s')
  | String "+"%char s' => clamp_long (digits 0 s')
  | s' => clamp_long (digits 0 s')
  end.

(** [const int stepNum = atol(...)]: the [long] is narrowed to a 32-bit
    [int], keeping the low 32 bits in two's complement. *)
Definition to_int (z : Z) : Z := (z + 2 ^ 31) mod 2 ^ 32 - 2 ^ 31.

(** No conversion can be performed: after the white space and the
    optional sign the string does not start with a digit. *)
Definition starts_with_digit (s : string) : bool :=
  match s with
  | String c _ => isdigit c
  | EmptyString => false
  end.

Definition no_conversion (s : string) : bool :=
  match skip_space s with
  | String "-"%char s' => negb (starts_with_digit s')
  | String "+"%char s' => negb (starts_with_digit s')
  | s' => negb (starts_with_digit s')
  end.

End Libc.

(* ===================================================================== *)
(** ** The histogram library, as the programs use it *)
(* ===================================================================== *)

Module Root.

Inductive TClass := TH1I | TH1F | TH2I | TProfile2D.

#[global] Instance TClass_eq_dec : EqDecision TClass.
Proof. solve_decision. Defined.

#[global] Instance Q_eq_dec : EqDecision Q.
Proof. solve_decision. Defined.

Record TAxis := mkAxis { fNbins : nat; fXmin : Q; fXmax : Q }.

#[global] Instance TAxis_eq_dec : EqDecision TAxis.
Proof. solve_decision. Defined.

(** A histogram: its class, its key in a file, one or two axes and the
    array of bin contents, under- and overflow cells included.  The
    cells of the histograms that are filled, written and read are
    numbers ([TH1]); those of a histogram that has been scaled are
    doubles with their special values (below). *)
Record Histogram (C : Type) := mkTH1 {
  fClass : TClass;
  fName  : string;
  fXaxis : TAxis;
  fYaxis : option TAxis;
  fArray : list C
}.

Arguments mkTH1 {C} _ _ _ _ _.
Arguments fClass {C} _.
Arguments fName {C} _.
Arguments fXaxis {C} _.
Arguments fYaxis {C} _.
Arguments fArray {C} _.

Abbreviation TH1 := (Histogram Q).

#[global] Instance TH1_eq_dec : EqDecision TH1.
Proof. solve_decision. Defined.

Definition Qltb (x y : Q) : bool := negb (Qle_bool y x).

(** [TAxis::FindBin] for fixed-width bins: 0 is the underflow cell and
    [fNbins + 1] the overflow cell.  The quotient is exact, where the
    library computes it in [double]s. *)
Definition FindBin (a : TAxis) (x : Q) : nat :=
  if Qltb x (fXmin a) then 0%nat
  else if negb (Qltb x (fXmax a)) then (fNbins a + 1)%nat
  else (1 + Z.to_nat (Qfloor (inject_Z (Z.of_nat (fNbins a)) * (x - fXmin a)
                               / (fXmax a - fXmin a))))%nat.

Definition ncells (a : TAxis) : nat := (fNbins a + 2)%nat.

Definition new1 (c : TClass) (name : string) (n : nat) (lo hi : Q) : TH1 :=
  let ax := mkAxis n lo hi in
  mkTH1 c name ax None (repeat 0%Q (ncells ax)).

Definition new2 (c : TClass) (name : string)
    (nx : nat) (xlo xhi : Q) (ny : nat) (ylo yhi : Q) : TH1 :=
  let ax := mkAxis nx xlo xhi in
  let ay := mkAxis ny ylo yhi in
  mkTH1 c name ax (Some ay) (repeat 0%Q (ncells ax * ncells ay)).

(** The cell gets [w] more.  The sum is exact: a [TH1F] cell rounds it
    to a [float] and a [TH1I] cell stops at [INT_MAX], which is left
    out here. *)
Definition AddBinContent (bin : nat) (w : Q) (h : TH1) : TH1 :=
  mkTH1 (fClass h) (fName h) (fXaxis h) (fYaxis h)
        (alter (fun c => (c + w)%Q) bin (fArray h)).

(** The three overloads the programs call. *)
Inductive FillArgs :=
| FillX  (x : Q)          (* [h.Fill(x)]: weight one *)
| FillXW (x w : Q)        (* [h.Fill(x,w)] on a one-dimensional histogram *)
| FillXY (x y : Q).       (* [h.Fill(x,y)] on a two-dimensional histogram *)

Definition bin2 (h : TH1) (x y : Q) : nat :=
  match fYaxis h with
  | Some ay => (FindBin (fXaxis h) x + ncells (fXaxis h) * FindBin ay y)%nat
  | None => FindBin (fXaxis h) x
  end.

Definition Fill (a : FillArgs) (h : TH1) : TH1 :=
  match a with
  | FillX x    => AddBinContent (FindBin (fXaxis h) x) 1 h
  | FillXW x w => AddBinContent (FindBin (fXaxis h) x) w h
  | FillXY x y => AddBinContent (bin2 h x y) 1 h
  end.

Definition Qsum (l : list Q) : Q := fold_right Qplus 0%Q l.

(** [TH1::Integral()]: the cells 1 .. fNbins, without under/overflow. *)
Definition Integral (h : TH1) : Q :=
  Qsum (take (fNbins (fXaxis h)) (drop 1 (fArray h))).


(** [TAxis::SetLimits(xmin,xmax)] on the x axis: the bounds only. *)
Definition SetLimits {C} (lo hi : Q) (h : Histogram C) : Histogram C :=
  mkTH1 (fClass h) (fName h)
        (mkAxis (fNbins (fXaxis h)) lo hi) (fYaxis h) (fArray h).

Definition GetBinContent (h : TH1) (bin : nat) : Q :=
  default 0%Q (fArray h !! bin).

(** A [double] as the plotting code meets it: a number, an infinity
    (with its sign) or not-a-number.  Numbers are added and multiplied
    exactly; the special values follow IEEE 754. *)
Inductive double :=
| Num (q : Q)
| Inf (negative : bool)
| NaN.


Definition dadd (x y : double) : double :=
  match x, y with
  | Num a, Num b => Num (a + b)
  | Num _, Inf s => Inf s
  | Inf s, Num _ => Inf s
  | Inf s, Inf s' => if Bool.eqb s s' then Inf s else NaN
  | _, _ => NaN
  end.

Definition dmul (x y : double) : double :=
  match x, y with
  | Num a, Num b => Num (a * b)
  | Num a, Inf s => if Qeq_bool a 0 then NaN else Inf (xorb s (Qltb a 0))
  | Inf s, Num a => if Qeq_bool a 0 then NaN else Inf (xorb s (Qltb a 0))
  | Inf s, Inf s' => Inf (xorb s s')
  | _, _ => NaN
  end.

(** [1./x]: the quotient by zero is [+inf]. *)
Definition recip (x : double) : double :=
  match x with
  | Num a => if Qeq_bool a 0 then Inf false else Num (1 / a)
  | Inf _ => Num 0
  | NaN => NaN
  end.

Definition dsum (l : list double) : double := fold_right dadd (Num 0) l.

(** [TH1::Integral()] and [TH1::Scale(c)] on a histogram in memory. *)
Definition dIntegral (h : Histogram double) : double :=
  dsum (take (fNbins (fXaxis h)) (drop 1 (fArray h))).

Definition dScale (c : double) (h : Histogram double) : Histogram double :=
  mkTH1 (fClass h) (fName h) (fXaxis h) (fYaxis h)
        (map (fun v => dmul c v) (fArray h)).

(** The object a file holds, once read into memory. *)
Definition in_memory (h : TH1) : Histogram double :=
  mkTH1 (fClass h) (fName h) (fXaxis h) (fYaxis h) (map Num (fArray h)).

(** [TString::EndsWith] *)
Definition EndsWith (s suffix : string) : bool :=
  let n := String.length s in
  let m := String.length suffix in
  (m <=? n)%nat && String.eqb (substring (n - m) m s) suffix.

(** The object stored under a name among those written, as
    [TFile::Get] finds it. *)
Definition find_hist (name : string) (l : list TH1) : option TH1 :=
  List.find (fun h => String.eqb (fName h) name) l.

End Root.

(* ===================================================================== *)
(** ** What the four programs share *)
(* ===================================================================== *)

Module Prog.
Import Root.

Inductive fault :=
| NullDeref      (* a method called through [nullptr] *)
| OutOfRange.    (* [std::vector::at] past the end *)

Inductive status :=
| Exit (code : Z)      (* [return code;] from [main] *)
| Abort (f : fault).   (* the process dies inside [main] *)

(** The lines the programs print, by content. *)
Inductive msg :=
| MsgUsage
| MsgInvalidStep (stepNum : Z)
| MsgBadPdfName (name : string)
| MsgBadRootName (name : string)
| MsgOpenFailed (file : string)
| MsgNoTree (tree : string)
| MsgProgress (iEvent numEvents : Z)
| MsgMissingHist (histName : string)
| MsgUnknownBranch (branch : string).  (* printed by the tree itself *)

(** [!stepNum || stepNum >= k] *)
Definition gate (stepNum k : Z) : bool := (stepNum =? 0) || (stepNum >=? k).

(** [stepNum < 0 || stepNum > 5] *)
Definition invalid_step (stepNum : Z) : bool := (stepNum <? 0) || (stepNum >? 5).

Definition stages : list Z := [1; 2; 3; 4; 5].

(** The specification's reading of the gate. *)
Definition selected (stepNum k : Z) : Prop := stepNum = 0 \/ stepNum >= k.

#[global] Instance selected_dec s k : Decision (selected s k).
Proof. unfold selected. apply _. Defined.

Definition selected_stages (stepNum : Z) : list Z :=
  filter (selected stepNum) stages.

(** *** Fills issued while one event is processed

    A computation records the [Fill] calls it makes and either returns
    or stops at a fault; the calls made before the fault stay recorded. *)

Abbreviation fill := (string * FillArgs)%type.

Definition W (A : Type) : Type := (list fill * (fault + A))%type.

Definition ret {A} (a : A) : W A := ([], inr a).

Definition bind {A B} (m : W A) (f : A -> W B) : W B :=
  match m with
  | (l, inl e) => (l, inl e)
  | (l, inr a) => let '(l', r) := f a in (l ++ l', r)
  end.

#[global] Instance W_ret : MRet W := @ret.
#[global] Instance W_bind : MBind W := fun A B f m => bind m f.

Definition throw {A} (e : fault) : W A := ([], inl e).

Definition emit (h : string) (a : FillArgs) : W unit := ([(h, a)], inr tt).

Definition when (b : bool) (m : W unit) : W unit := if b then m else ret tt.

Definition log {A} (m : W A) : list fill := fst m.

(** The fills a histogram received, and the histograms filled, in order. *)
Definition fills_to (h : string) (l : list fill) : list fill :=
  filter (fun f => fst f = h) l.

Definition names {A} (m : W A) : list string := map fst (log m).

(** A histogram of the "no weight" kind, by its name. *)
Definition unweighted (name : string) : bool := EndsWith name "_noweight".

(** A fill with its weight forgotten. *)
Definition erase_weight (f : fill) : fill :=
  match snd f with
  | FillXW x _ => (fst f, FillXW x 0)
  | _ => f
  end.

Definition faulted {A} (m : W A) : option fault :=
  match snd m with inl e => Some e | inr _ => None end.

(** The blocks of the given stages, one after the other. *)
Definition blocks {V} (stage_fill : Z -> V -> W unit) (ks : list Z) (v : V) : W unit :=
  foldr (fun k m => stage_fill k v;; m) (mret tt) ks.

(** A [std::vector<float>*] variable. *)
Abbreviation vec := (option (list Q)).

(** [p->size()] *)
Definition size (p : vec) : W nat :=
  match p with
  | None => throw NullDeref
  | Some l => ret (length l)
  end.

(** [p->at(i)] *)
Definition at_ (p : vec) (i : nat) : W Q :=
  match p with
  | None => throw NullDeref
  | Some l => match l !! i with
              | Some x => ret x
              | None => throw OutOfRange
              end
  end.

(** The histogram objects of a run, by name, and a [Fill] on one. *)
Definition apply_fill (hs : gmap string TH1) (f : fill) : gmap string TH1 :=
  alter (Fill (snd f)) (fst f) hs.

Definition apply_fills (hs : gmap string TH1) (l : list fill) : gmap string TH1 :=
  foldl apply_fill hs l.

Definition declare (decls : list TH1) : gmap string TH1 :=
  list_to_map (map (fun h => (fName h, h)) decls).

(** *** The tree reader *)

Record Reader := mkReader {
  active    : gset string;   (* branches whose status is 1 *)
  bound     : gset string;   (* branches with an address set *)
  requested : list string;   (* names passed to [SetBranchStatus(..,1)] *)
  complaints : list msg      (* what the tree printed *)
}.

Definition SetBranchStatusAllOff (r : Reader) : Reader :=
  mkReader ∅ (bound r) (requested r) (complaints r).

(** An unknown name is reported by the tree and otherwise ignored. *)
Definition SetBranchStatusOn (branches : list string) (r : Reader) (n : string) : Reader :=
  if bool_decide (n ∈ branches)
  then mkReader ({[n]} ∪ active r) (bound r) (requested r ++ [n]) (complaints r)
  else mkReader (active r) (bound r) (requested r ++ [n])
                (complaints r ++ [MsgUnknownBranch n]).

Definition SetBranchAddress (branches : list string) (r : Reader) (n : string) : Reader :=
  if bool_decide (n ∈ branches)
  then mkReader (active r) ({[n]} ∪ bound r) (requested r) (complaints r)
  else mkReader (active r) (bound r) (requested r)
                (complaints r ++ [MsgUnknownBranch n]).

(** One stage's wiring: the status calls, then the address calls. *)
Definition wire (branches : list string) (names : list string) (r : Reader) : Reader :=
  foldl (SetBranchAddress branches) (foldl (SetBranchStatusOn branches) r names) names.

Definition reads (r : Reader) (n : string) : bool :=
  bool_decide (n ∈ active r) && bool_decide (n ∈ bound r).

Definition load {A} (r : Reader) (n : string) (new old : A) : A :=
  if reads r n then new else old.


(** *** The skeleton of the two reconstruction programs

    [jetRecoExp.cpp] and [jetRecoGroom.cpp] have the same [main] around
    their own branches, histograms and event-loop body. *)

(** A tree: the names of the branches it stores, and its entries.  The
    fields of an entry that belong to a branch the tree does not store
    are never looked at. *)
Record TTree (Event : Type) := mkTree {
  tBranches : list string;
  tEntries : list Event
}.
Arguments mkTree {Event} _ _.
Arguments tBranches {Event} _.
Arguments tEntries {Event} _.

(** What a run leaves behind. *)
Record Run := mkRun {
  exit_status : status;
  stdout : list msg;
  reader : option Reader;           (* the wiring, once the tree is open *)
  out_file : option string;         (* the output file, once created *)
  created : list TH1;               (* histogram objects constructed *)
  fills : list (list fill);         (* the fills of each event entered *)
  written : list TH1                (* objects written to the output file *)
}.

Definition stop (out : list msg) : Run :=
  mkRun (Exit 1) out None None [] [] [].

Definition arg (argv : list string) (i : nat) : string := nth i argv "".

(** What is left of the stages beyond step [s] in a run: their histograms
    are constructed but not written, and a branch only they need is
    neither switched on nor read. *)
Definition later_stages_frame (stage_branches : Z -> list string)
    (stage_decls : Z -> list TH1) (s : Z) (run : Run) : Prop :=
  created run = flat_map stage_decls stages
  /\ (forall k n, k ∈ stages -> s < k -> n ∈ map fName (stage_decls k) ->
        n ∈ map fName (created run) /\ n ∉ map fName (written run))
  /\ (forall k b, k ∈ stages -> s < k -> b ∈ stage_branches k ->
        (forall j, j <= s -> b ∉ stage_branches j) ->
        exists r, reader run = Some r /\ reads r b = false /\ b ∉ requested r)
  /\ map fName (written run)
     = match exit_status run with
       | Exit _ => flat_map (fun k => map fName (stage_decls k))
                            (filter (fun k => k <= s) stages)
       | Abort _ => []
       end.

Section Reco.
Context {Event Vars : Type}.
Variable vars0 : Vars.                          (* the variables' initial values *)
Variable stage_branches : Z -> list string.     (* the branches a stage wires *)
Variable GetEntry : Reader -> Event -> Vars -> Vars.
Variable event_body : Z -> Vars -> W unit.      (* the loop body after [GetEntry] *)
Variable stage_decls : Z -> list TH1.           (* the histograms of a stage *)

(** "Specify the input branches that we want to read": stage 1 first
    switches every branch off; a stage without branches has no block. *)
Definition wire_stage (stepNum : Z) (branches : list string) (r : Reader) (k : Z) : Reader :=
  if gate stepNum k then wire branches (stage_branches k) r else r.

Definition wire_branches (stepNum : Z) (t : TTree Event) : Reader :=
  let r0 := mkReader (list_to_set (tBranches t)) ∅ [] [] in
  let r1 := if gate stepNum 1
            then wire (tBranches t) (stage_branches 1) (SetBranchStatusAllOff r0)
            else r0 in
  foldl (wire_stage stepNum (tBranches t)) r1 [2; 3; 4; 5].

(** "Prepare the output file and histograms": every histogram of every
    stage is constructed, whatever the step number. *)
Definition all_decls : list TH1 := flat_map stage_decls stages.

(** The loop's state when it stops: the histograms, what was printed,
    the fills of each event it entered, and the fault that ended it. *)
Fixpoint event_loop (stepNum : Z) (r : Reader) (numEvents iEvent : Z)
    (es : list Event) (v : Vars) (hs : gmap string TH1)
    : gmap string TH1 * list msg * list (list fill) * option fault :=
  match es with
  | [] => (hs, [], [], None)
  | e :: es' =>
      let progress := if (iEvent mod 10000 =? 0)
                      then [MsgProgress iEvent numEvents] else [] in
      let v' := GetEntry r e v in
      let m := event_body stepNum v' in
      let hs' := apply_fills hs (log m) in
      match faulted m with
      | Some f => (hs', progress, [log m], Some f)
      | None =>
          let '(hs'', out, fl, d) :=
            event_loop stepNum r numEvents (iEvent + 1) es' v' hs' in
          (hs'', progress ++ out, log m :: fl, d)
      end
  end.

(** "Save the results to the output file": a stage writes the
    histograms it declares, in the order of their declaration. *)
Definition stage_writes (k : Z) : list string := map fName (stage_decls k).

Definition write_stage (stepNum : Z) (hs : gmap string TH1) (k : Z) : list TH1 :=
  if gate stepNum k then omap (fun n => hs !! n) (stage_writes k) else [].

Definition main (disk : gmap string (gmap string (TTree Event)))
    (argv : list string) : Run :=
  if (length argv <? 5)%nat then stop [MsgUsage] else
  let outFileName := arg argv 1 in
  let stepNum     := Libc.to_int (Libc.atol (arg argv 2)) in
  let inTreeName  := arg argv 3 in
  let inFileName  := arg argv 4 in
  if invalid_step stepNum then stop [MsgInvalidStep stepNum] else
  match disk !! inFileName with
  | None => stop [MsgOpenFailed inFileName]
  | Some inFile =>
  match inFile !! inTreeName with
  | None => stop [MsgNoTree inTreeName]
  | Some inTree =>
      let r := wire_branches stepNum inTree in
      let hs0 := declare all_decls in
      let numEvents := Z.of_nat (length (tEntries inTree)) in
      let '(hs, out, fl, d) :=
        event_loop stepNum r numEvents 0 (tEntries inTree) vars0 hs0 in
      match d with
      | Some f => mkRun (Abort f) out (Some r) (Some outFileName) all_decls fl []
      | None =>
          mkRun (Exit 0) out (Some r) (Some outFileName) all_decls fl
                (flat_map (write_stage stepNum hs) stages)
      end
  end
  end.

End Reco.

End Prog.

(* ===================================================================== *)
(** ** jetRecoExp.cpp: the base-jets reconstruction program *)
(* ===================================================================== *)

Module JetRecoExp.
Import Root Prog.

(** One entry of the input tree, column by column.  Momenta are in MeV. *)
Record Event := mkEvent {
  ev_mu_average : Q;
  ev_NPV : Z;
  ev_EventWeight : Q;
  ev_RecoJets_R4_pt  : list Q;
  ev_RecoJets_R4_eta : list Q;
  ev_RecoJets_R4_phi : list Q;
  ev_RecoJets_R4_m   : list Q;
  ev_TruthJets_R4_pt  : list Q;
  ev_TruthJets_R4_eta : list Q;
  ev_TruthJets_R4_phi : list Q;
  ev_TruthJets_R4_m   : list Q;
  ev_RecoJets_R4_jvf : list Q;
  ev_TrackJets_R4_pt  : list Q;
  ev_TrackJets_R4_eta : list Q;
  ev_TrackJets_R4_phi : list Q;
  ev_TrackJets_R4_m   : list Q
}.

(** The local variables the branches are read into. *)
Record Vars := mkVars {
  mu_average : Q;
  NPV : Z;
  EventWeight : Q;
  RecoJet_pt  : vec;
  RecoJet_eta : vec;
  RecoJet_phi : vec;
  RecoJet_m   : vec;
  TruthJet_pt  : vec;
  TruthJet_eta : vec;
  TruthJet_phi : vec;
  TruthJet_m   : vec;
  RecoJet_jvf : vec;
  TrackJet_pt  : vec;
  TrackJet_eta : vec;
  TrackJet_phi : vec;
  TrackJet_m   : vec
}.

(** Their initial values: [0] and [nullptr]. *)
Definition vars0 : Vars :=
  mkVars 0 0 0 None None None None None None None None None None None None None.

(** The branches each stage switches on and binds, in source order. *)
Definition stage_branches (k : Z) : list string :=
  match k with
  | 1 => ["mu_average"; "NPV"]
  | 2 => ["EventWeight";
          "RecoJets_R4_pt"; "RecoJets_R4_eta"; "RecoJets_R4_phi"; "RecoJets_R4_m";
          "TruthJets_R4_pt"; "TruthJets_R4_eta"; "TruthJets_R4_phi"; "TruthJets_R4_m"]
  | 4 => ["RecoJets_R4_jvf";
          "TrackJets_R4_pt"; "TrackJets_R4_eta"; "TrackJets_R4_phi"; "TrackJets_R4_m"]
  | _ => []
  end.

(** [inTree->GetEntry(iEvent)]: every active branch with an address
    is copied into its variable; the other variables keep their value. *)
Definition GetEntry (r : Reader) (e : Event) (v : Vars) : Vars :=
  {| mu_average  := load r "mu_average" (ev_mu_average e) (mu_average v);
     NPV         := load r "NPV" (ev_NPV e) (NPV v);
     EventWeight := load r "EventWeight" (ev_EventWeight e) (EventWeight v);
     RecoJet_pt  := load r "RecoJets_R4_pt"  (Some (ev_RecoJets_R4_pt e))  (RecoJet_pt v);
     RecoJet_eta := load r "RecoJets_R4_eta" (Some (ev_RecoJets_R4_eta e)) (RecoJet_eta v);
     RecoJet_phi := load r "RecoJets_R4_phi" (Some (ev_RecoJets_R4_phi e)) (RecoJet_phi v);
     RecoJet_m   := load r "RecoJets_R4_m"   (Some (ev_RecoJets_R4_m e))   (RecoJet_m v);
     TruthJet_pt  := load r "TruthJets_R4_pt"  (Some (ev_TruthJets_R4_pt e))  (TruthJet_pt v);
     TruthJet_eta := load r "TruthJets_R4_eta" (Some (ev_TruthJets_R4_eta e)) (TruthJet_eta v);
     TruthJet_phi := load r "TruthJets_R4_phi" (Some (ev_TruthJets_R4_phi e)) (TruthJet_phi v);
     TruthJet_m   := load r "TruthJets_R4_m"   (Some (ev_TruthJets_R4_m e))   (TruthJet_m v);
     RecoJet_jvf := load r "RecoJets_R4_jvf" (Some (ev_RecoJets_R4_jvf e)) (RecoJet_jvf v);
     TrackJet_pt  := load r "TrackJets_R4_pt"  (Some (ev_TrackJets_R4_pt e))  (TrackJet_pt v);
     TrackJet_eta := load r "TrackJets_R4_eta" (Some (ev_TrackJets_R4_eta e)) (TrackJet_eta v);
     TrackJet_phi := load r "TrackJets_R4_phi" (Some (ev_TrackJets_R4_phi e)) (TrackJet_phi v);
     TrackJet_m   := load r "TrackJets_R4_m"   (Some (ev_TrackJets_R4_m e))   (TrackJet_m v) |}.

(** The histograms, stage by stage, in the order of their declaration. *)
Definition stage_decls (k : Z) : list TH1 :=
  match k with
  | 1 => [ new1 TH1I "Step1_mu" 90 0 90;
           new1 TH1I "Step1_npv" 60 0 60;
           new2 TH2I "Step1_mu_npv" 90 0 90 60 0 60 ]
  | 2 => [ new1 TH1F "Step2_RecoJet_pt_noweight" 199 10000 2000000;
           new1 TH1F "Step2_RecoJet_pt" 199 10000 2000000;
           new1 TH1F "Step2_TruthJet_pt_noweight" 199 10000 2000000;
           new1 TH1F "Step2_TruthJet_pt" 199 10000 2000000 ]
  | 3 => [ new1 TH1F "Step3_RecoJet_njets_lowmu" 15 0 30;
           new1 TH1F "Step3_RecoJet_njets_midmu" 15 0 30;
           new1 TH1F "Step3_RecoJet_njets_highmu" 15 0 30;
           new1 TH1F "Step3_TruthJet_njets_lowmu" 15 0 30;
           new1 TH1F "Step3_TruthJet_njets_midmu" 15 0 30;
           new1 TH1F "Step3_TruthJet_njets_highmu" 15 0 30;
           new2 TProfile2D "Step3_RecoJets_njets_2D" 90 0 90 60 0 60;
           new2 TProfile2D "Step3_TruthJets_njets_2D" 90 0 90 60 0 60 ]
  | 4 => [ new1 TH1F "Step4_RecoJet_jvf_pt20" 44 (-11 # 10) (11 # 10);
           new1 TH1F "Step4_RecoJet_jvf_pt60" 44 (-11 # 10) (11 # 10);
           new1 TH1F "Step4_RecoJet_jvf_pt100" 44 (-11 # 10) (11 # 10);
           new1 TH1F "Step4_RecoJet_pt_jvf" 199 10000 2000000;
           new1 TH1F "Step4_TrackJet_pt" 199 10000 2000000;
           new1 TH1F "Step4_TrackJet_njets_lowmu" 15 0 30;
           new1 TH1F "Step4_TrackJet_njets_midmu" 15 0 30;
           new1 TH1F "Step4_TrackJet_njets_highmu" 15 0 30;
           new2 TProfile2D "Step4_TrackJets_njets_2D" 90 0 90 60 0 60 ]
  | 5 => [ new1 TH1F "Step5_DRtruth_reco" 10 0 1;
           new1 TH1F "Step5_DRtruth_reco_jvf" 10 0 1;
           new1 TH1F "Step5_DRtruth_track" 10 0 1;
           new1 TH1F "Step5_response_reco_pt20" 100 0 2;
           new1 TH1F "Step5_response_reco_pt100" 100 0 2;
           new1 TH1F "Step5_response_reco_pt1000" 100 0 2;
           new1 TH1F "Step5_response_track_pt20" 100 0 2;
           new1 TH1F "Step5_response_track_pt100" 100 0 2;
           new1 TH1F "Step5_response_track_pt1000" 100 0 2 ]
  | _ => []
  end.

(** The names of the objects the fills address. *)
Definition hist_mu          : string := "Step1_mu".
Definition hist_npv         : string := "Step1_npv".
Definition hist_mu_npv      : string := "Step1_mu_npv".
Definition hist_reco_pt_nw  : string := "Step2_RecoJet_pt_noweight".
Definition hist_reco_pt     : string := "Step2_RecoJet_pt".
Definition hist_truth_pt_nw : string := "Step2_TruthJet_pt_noweight".
Definition hist_truth_pt    : string := "Step2_TruthJet_pt".

(** The body of each stage's block in the event loop. *)
Definition stage1_fill (v : Vars) : W unit :=
  emit hist_mu (FillX (mu_average v));;
  emit hist_npv (FillX (inject_Z (NPV v)));;
  emit hist_mu_npv (FillXY (mu_average v) (inject_Z (NPV v))).

Definition stage2_fill (v : Vars) : W unit :=
  n ← size (RecoJet_pt v);
  when (negb (n =? 0)%nat)
    (x ← at_ (RecoJet_pt v) 0;
     emit hist_reco_pt_nw (FillX x);;
     y ← at_ (RecoJet_pt v) 0;
     emit hist_reco_pt (FillXW y (EventWeight v)));;
  n' ← size (TruthJet_pt v);
  when (negb (n' =? 0)%nat)
    (x ← at_ (TruthJet_pt v) 0;
     emit hist_truth_pt_nw (FillX x);;
     y ← at_ (TruthJet_pt v) 0;
     emit hist_truth_pt (FillXW y (EventWeight v))).

(** Stages 3, 4 and 5 are exercise stubs: their blocks hold a comment. *)
Definition stage3_fill (v : Vars) : W unit := mret tt.
Definition stage4_fill (v : Vars) : W unit := mret tt.
Definition stage5_fill (v : Vars) : W unit := mret tt.

Definition stage_fill (k : Z) (v : Vars) : W unit :=
  match k with
  | 1 => stage1_fill v
  | 2 => stage2_fill v
  | 3 => stage3_fill v
  | 4 => stage4_fill v
  | 5 => stage5_fill v
  | _ => mret tt
  end.

(** The body of the event loop, after [GetEntry]. *)
Definition event_body (stepNum : Z) (v : Vars) : W unit :=
  when (gate stepNum 1) (stage1_fill v);;
  when (gate stepNum 2) (stage2_fill v);;
  when (gate stepNum 3) (stage3_fill v);;
  when (gate stepNum 4) (stage4_fill v);;
  when (gate stepNum 5) (stage5_fill v).

Definition main : gmap string (gmap string (TTree Event)) -> list string -> Run :=
  Prog.main vars0 stage_branches GetEntry event_body stage_decls.

(** The same entry, or the same variables, with another event weight. *)
Definition with_weight (w : Q) (e : Event) : Event :=
  mkEvent (ev_mu_average e) (ev_NPV e) w
    (ev_RecoJets_R4_pt e) (ev_RecoJets_R4_eta e) (ev_RecoJets_R4_phi e)
    (ev_RecoJets_R4_m e)
    (ev_TruthJets_R4_pt e) (ev_TruthJets_R4_eta e) (ev_TruthJets_R4_phi e)
    (ev_TruthJets_R4_m e)
    (ev_RecoJets_R4_jvf e)
    (ev_TrackJets_R4_pt e) (ev_TrackJets_R4_eta e) (ev_TrackJets_R4_phi e)
    (ev_TrackJets_R4_m e).

Definition set_weight (w : Q) (v : Vars) : Vars :=
  mkVars (mu_average v) (NPV v) w
    (RecoJet_pt v) (RecoJet_eta v) (RecoJet_phi v) (RecoJet_m v)
    (TruthJet_pt v) (TruthJet_eta v) (TruthJet_phi v) (TruthJet_m v)
    (RecoJet_jvf v)
    (TrackJet_pt v) (TrackJet_eta v) (TrackJet_phi v) (TrackJet_m v).

(** The leading-jet histograms, each with the collection it is filled
    from. *)
Definition leading_jet_sources (v : Vars) : list (string * list vec) :=
  [ (hist_reco_pt_nw, [RecoJet_pt v]); (hist_reco_pt, [RecoJet_pt v]);
    (hist_truth_pt_nw, [TruthJet_pt v]); (hist_truth_pt, [TruthJet_pt v]) ].

End JetRecoExp.

(* ===================================================================== *)
(** ** jetRecoGroom.cpp: the large-radius reconstruction program *)
(* ===================================================================== *)

Module JetRecoGroom.
Import Root Prog.

Record Event := mkEvent {
  ev_mu_average : Q;
  ev_NPV : Z;
  ev_EventWeight : Q;
  ev_R10_pt : list Q;
  ev_R10_m  : list Q;
  ev_R10_Trimmed_pt : list Q;
  ev_R10_Trimmed_m  : list Q;
  ev_input_pt  : list Q;
  ev_input_eta : list Q;
  ev_input_phi : list Q;
  ev_input_m   : list Q
}.

Record Vars := mkVars {
  mu_average : Q;
  NPV : Z;
  EventWeight : Q;
  jet_R10_ungroom_pt : vec;
  jet_R10_ungroom_m  : vec;
  jet_R10_trimmed_pt : vec;
  jet_R10_trimmed_m  : vec;
  cluster_pt  : vec;
  cluster_eta : vec;
  cluster_phi : vec;
  cluster_m   : vec
}.

Definition vars0 : Vars := mkVars 0 0 0 None None None None None None None None.

Definition isTruth : bool := false.
Definition jetTypeString : string := if negb isTruth then "RecoJets" else "TruthJets".
Definition inputTypeString : string := if negb isTruth then "Clusters" else "Particles".

Definition stage_branches (k : Z) : list string :=
  match k with
  | 1 => ["mu_average"; "NPV"]
  | 2 => ["EventWeight";
          jetTypeString +:+ "_R10_pt"; jetTypeString +:+ "_R10_m";
          jetTypeString +:+ "_R10_Trimmed_pt"; jetTypeString +:+ "_R10_Trimmed_m"]
  | 3 => [inputTypeString +:+ "_pt"; inputTypeString +:+ "_eta";
          inputTypeString +:+ "_phi"; inputTypeString +:+ "_m"]
  | _ => []
  end.

Definition GetEntry (r : Reader) (e : Event) (v : Vars) : Vars :=
  {| mu_average  := load r "mu_average" (ev_mu_average e) (mu_average v);
     NPV         := load r "NPV" (ev_NPV e) (NPV v);
     EventWeight := load r "EventWeight" (ev_EventWeight e) (EventWeight v);
     jet_R10_ungroom_pt := load r (jetTypeString +:+ "_R10_pt")
                             (Some (ev_R10_pt e)) (jet_R10_ungroom_pt v);
     jet_R10_ungroom_m  := load r (jetTypeString +:+ "_R10_m")
                             (Some (ev_R10_m e)) (jet_R10_ungroom_m v);
     jet_R10_trimmed_pt := load r (jetTypeString +:+ "_R10_Trimmed_pt")
                             (Some (ev_R10_Trimmed_pt e)) (jet_R10_trimmed_pt v);
     jet_R10_trimmed_m  := load r (jetTypeString +:+ "_R10_Trimmed_m")
                             (Some (ev_R10_Trimmed_m e)) (jet_R10_trimmed_m v);
     cluster_pt  := load r (inputTypeString +:+ "_pt")  (Some (ev_input_pt e))  (cluster_pt v);
     cluster_eta := load r (inputTypeString +:+ "_eta") (Some (ev_input_eta e)) (cluster_eta v);
     cluster_phi := load r (inputTypeString +:+ "_phi") (Some (ev_input_phi e)) (cluster_phi v);
     cluster_m   := load r (inputTypeString +:+ "_m")   (Some (ev_input_m e))   (cluster_m v) |}.

Definition stage_decls (k : Z) : list TH1 :=
  match k with
  | 1 => [ new1 TH1I "Step1_mu" 100 0 100;
           new1 TH1I "Step1_npv" 50 0 50 ]
  | 2 => [ new1 TH1F "Step2_UngroomPt_noweight" 215 50000 2200000;
           new1 TH1F "Step2_UngroomPt" 215 50000 2200000;
           new1 TH1F "Step2_TrimmedPt" 215 50000 2200000;
           new1 TH1F "Step2_UngroomMass" 99 10000 1000000;
           new1 TH1F "Step2_TrimmedMass" 99 10000 1000000 ]
  | 3 => [ new1 TH1F "Step3_MyUngroomPt_noweight" 215 50000 2200000;
           new1 TH1F "Step3_MyUngroomPt" 215 50000 2200000;
           new1 TH1F "Step3_MyTrimmedPt_noweight" 215 50000 2200000;
           new1 TH1F "Step3_MyTrimmedPt" 215 50000 2200000 ]
  | 4 => [ new1 TH1F "Step4_MyPrunedPt" 215 50000 2200000;
           new1 TH1F "Step4_MyPrunedMass" 215 10000 1000000;
           new1 TH1F "Step4_MySDPt" 215 50000 2200000;
           new1 TH1F "Step4_MySDMass" 99 10000 1000000;
           new1 TH1F "Step4_MyRSDPt" 215 50000 2200000;
           new1 TH1F "Step4_MyRSDMass" 99 10000 1000000;
           new1 TH1F "Step4_MyBUSDPt" 215 50000 2200000;
           new1 TH1F "Step4_MyBUSDMass" 99 10000 1000000;
           new1 TH1F "Step4_MyBUSDTPt" 215 50000 2200000;
           new1 TH1F "Step4_MyBUSDTMass" 99 10000 1000000 ]
  | 5 => [ new1 TH1F "Step5_Ungroomed_D2" 20 0 5;
           new1 TH1F "Step5_Ungroomed_Tau32" 20 0 1;
           new1 TH1F "Step5_Trimmed_D2" 20 0 5;
           new1 TH1F "Step5_Trimmed_Tau32" 20 0 1;
           new1 TH1F "Step5_Pruned_D2" 20 0 5;
           new1 TH1F "Step5_Pruned_Tau32" 20 0 1;
           new1 TH1F "Step5_SD_D2" 20 0 5;
           new1 TH1F "Step5_SD_Tau32" 20 0 1;
           new1 TH1F "Step5_RSD_D2" 20 0 5;
           new1 TH1F "Step5_RSD_Tau32" 20 0 1;
           new1 TH1F "Step5_BUSD_D2" 20 0 5;
           new1 TH1F "Step5_BUSD_Tau32" 20 0 1;
           new1 TH1F "Step5_BUSDT_D2" 20 0 5;
           new1 TH1F "Step5_BUSDT_Tau32" 20 0 1 ]
  | _ => []
  end.

Definition hist_mu              : string := "Step1_mu".
Definition hist_npv             : string := "Step1_npv".
Definition hist_ungroom_pt_nw   : string := "Step2_UngroomPt_noweight".
Definition hist_ungroom_pt      : string := "Step2_UngroomPt".
Definition hist_trimmed_pt      : string := "Step2_TrimmedPt".
Definition hist_ungroom_m       : string := "Step2_UngroomMass".
Definition hist_trimmed_m       : string := "Step2_TrimmedMass".
Definition hist_myungroom_pt_nw : string := "Step3_MyUngroomPt_noweight".
Definition hist_myungroom_pt    : string := "Step3_MyUngroomPt".
Definition hist_mytrimmed_pt_nw : string := "Step3_MyTrimmedPt_noweight".
Definition hist_mytrimmed_pt    : string := "Step3_MyTrimmedPt".

Definition stage1_fill (v : Vars) : W unit :=
  emit hist_mu (FillX (mu_average v));;
  emit hist_npv (FillX (inject_Z (NPV v))).

(** The trimmed jet is read inside the test on the ungroomed
    collection; the two mass fills are behind [pt > 400.e3]. *)
Definition stage2_fill (v : Vars) : W unit :=
  n ← size (jet_R10_ungroom_pt v);
  when (negb (n =? 0)%nat)
    (x ← at_ (jet_R10_ungroom_pt v) 0;
     emit hist_ungroom_pt_nw (FillX x);;
     y ← at_ (jet_R10_ungroom_pt v) 0;
     emit hist_ungroom_pt (FillXW y (EventWeight v));;
     t ← at_ (jet_R10_trimmed_pt v) 0;
     emit hist_trimmed_pt (FillXW t (EventWeight v));;
     p ← at_ (jet_R10_ungroom_pt v) 0;
     when (Qltb 400000 p)
       (m ← at_ (jet_R10_ungroom_m v) 0;
        emit hist_ungroom_m (FillXW m (EventWeight v)));;
     q ← at_ (jet_R10_trimmed_pt v) 0;
     when (Qltb 400000 q)
       (m ← at_ (jet_R10_trimmed_m v) 0;
        emit hist_trimmed_m (FillXW m (EventWeight v)))).

(** The same entry, or the same variables, with another event weight. *)
Definition with_weight (w : Q) (e : Event) : Event :=
  mkEvent (ev_mu_average e) (ev_NPV e) w
    (ev_R10_pt e) (ev_R10_m e) (ev_R10_Trimmed_pt e) (ev_R10_Trimmed_m e)
    (ev_input_pt e) (ev_input_eta e) (ev_input_phi e) (ev_input_m e).

Definition set_weight (w : Q) (v : Vars) : Vars :=
  mkVars (mu_average v) (NPV v) w
    (jet_R10_ungroom_pt v) (jet_R10_ungroom_m v)
    (jet_R10_trimmed_pt v) (jet_R10_trimmed_m v)
    (cluster_pt v) (cluster_eta v) (cluster_phi v) (cluster_m v).

(** The leading-jet histograms of stage 2, each with the vectors of the
    collection it is filled from. *)
Definition leading_jet_sources (v : Vars) : list (string * list vec) :=
  [ (hist_ungroom_pt_nw, [jet_R10_ungroom_pt v]);
    (hist_ungroom_pt, [jet_R10_ungroom_pt v]);
    (hist_trimmed_pt, [jet_R10_trimmed_pt v]);
    (hist_ungroom_m, [jet_R10_ungroom_pt v; jet_R10_ungroom_m v]);
    (hist_trimmed_m, [jet_R10_trimmed_pt v; jet_R10_trimmed_m v]) ].

(** The histograms of the rebuilt jets of stage 3. *)
Definition rebuilt_jet_hists : list string :=
  [ hist_myungroom_pt_nw; hist_myungroom_pt; hist_mytrimmed_pt_nw; hist_mytrimmed_pt ].

Section FastJet.
(** The clustering library: its four-vector, the conversion
    [SetPtEtaPhiM] / [PseudoJet(px,py,pz,E)], the [akt10] cluster
    sequence with [sorted_by_pt(inclusive_jets())], the trimmer and
    [PseudoJet::pt]. *)
Context {PseudoJet : Type}.
Variable make_pseudojet : Q -> Q -> Q -> Q -> PseudoJet.
Variable akt10_jets : list PseudoJet -> list PseudoJet.
Variable trimmer : PseudoJet -> PseudoJet.
Variable pt : PseudoJet -> Q.

(** [for (iClus = 0; iClus < cluster_pt->size(); ++iClus)]; the last
    read is the argument of the [printf] in the loop. *)
Fixpoint convert_clusters (todo iClus : nat) (v : Vars)
    (clusters : list PseudoJet) : W (list PseudoJet) :=
  match todo with
  | O => mret clusters
  | S todo' =>
      p ← at_ (cluster_pt v) iClus;
      e ← at_ (cluster_eta v) iClus;
      f ← at_ (cluster_phi v) iClus;
      m ← at_ (cluster_m v) iClus;
      _ ← at_ (cluster_pt v) iClus;
      convert_clusters todo' (S iClus) v (clusters ++ [make_pseudojet p e f m])
  end.

Definition stage3_fill (v : Vars) : W unit :=
  _ ← size (cluster_pt v);
  n ← size (cluster_pt v);
  clusters ← convert_clusters n 0 v [];
  let jets_a10_clusters := akt10_jets clusters in
  match jets_a10_clusters with
  | [] => mret tt
  | ungroomed :: _ =>
      let trimmed := trimmer ungroomed in
      emit hist_myungroom_pt_nw (FillX (pt ungroomed));;
      emit hist_myungroom_pt (FillXW (pt ungroomed) (EventWeight v));;
      emit hist_mytrimmed_pt_nw (FillX (pt trimmed));;
      emit hist_mytrimmed_pt (FillXW (pt trimmed) (EventWeight v))
  end.

(** The jets rebuilt from the clusters of the event, when the
    conversion of the clusters goes through. *)
Definition rebuilt_jets (v : Vars) : option (list PseudoJet) :=
  match snd (n ← size (cluster_pt v); convert_clusters n 0 v []) with
  | inr clusters => Some (akt10_jets clusters)
  | inl _ => None
  end.

(** Stages 4 and 5 are exercise stubs. *)
Definition stage4_fill (v : Vars) : W unit := mret tt.
Definition stage5_fill (v : Vars) : W unit := mret tt.

Definition stage_fill (k : Z) (v : Vars) : W unit :=
  match k with
  | 1 => stage1_fill v
  | 2 => stage2_fill v
  | 3 => stage3_fill v
  | 4 => stage4_fill v
  | 5 => stage5_fill v
  | _ => mret tt
  end.

(** The block of stage 4 sits inside the block of stage 3, and the
    block of stage 5 inside that of stage 4. *)
Definition event_body (stepNum : Z) (v : Vars) : W unit :=
  when (gate stepNum 1) (stage1_fill v);;
  when (gate stepNum 2) (stage2_fill v);;
  when (gate stepNum 3)
    (stage3_fill v;;
     when (gate stepNum 4)
       (stage4_fill v;;
        when (gate stepNum 5) (stage5_fill v))).

Definition main : gmap string (gmap string (TTree Event)) -> list string -> Run :=
  Prog.main vars0 stage_branches GetEntry event_body stage_decls.

End FastJet.

End JetRecoGroom.

(* ===================================================================== *)
(** ** What the two plotting programs share *)
(* ===================================================================== *)

Module Plots.
Import Root Prog.

(** [getHist<C>(inFile, histName)]: the object under that key, if there
    is one of class [C]; otherwise the two lines naming the histogram
    are printed and [nullptr] is returned. *)
Definition getHist (C : TClass) (inFile : gmap string TH1) (histName : string)
    : option TH1 * list msg :=
  match inFile !! histName with
  | Some hist =>
      if bool_decide (fClass hist = C) then (Some hist, [])
      else (None, [MsgMissingHist histName])
  | None => (None, [MsgMissingHist histName])
  end.

Definition scaleMeVToGeV {C} (hist : Histogram C) : Histogram C :=
  let xmin := fXmin (fXaxis hist) in
  let xmax := fXmax (fXaxis hist) in
  SetLimits (xmin / 1000)%Q (xmax / 1000)%Q hist.

(** [hist->Scale(1./hist->Integral())].  Nothing tests the integral:
    where it is zero the factor is [+inf], and the cells become
    infinities and not-a-number. *)
Definition normalise (hist : Histogram double) : Histogram double :=
  dScale (recip (dIntegral hist)) hist.

(** The state of the plotting part: the histogram each pointer variable
    points to (a variable without entry is [nullptr]; every variable has
    an object of its own), what is drawn on the canvas, and the pages
    printed so far. *)
Record State := mkState {
  ptrs  : gmap string (Histogram double);
  pad   : list string;
  pages : list (list (Histogram double))
}.

Inductive outcome :=
| Ok (s : State)
| Dead (s : State) (f : fault).

Definition action := State -> outcome.

Definition through (v : string) (k : Histogram double -> State -> outcome) : action :=
  fun s => match ptrs s !! v with
           | None => Dead s NullDeref
           | Some h => k h s
           end.

(** Cosmetic calls through a pointer: colours, titles, ranges, fits. *)
Definition Style (v : string) : action := through v (fun _ s => Ok s).

Definition ScaleMeVToGeV (v : string) : action :=
  through v (fun h s =>
    Ok (mkState (<[v := scaleMeVToGeV h]> (ptrs s)) (pad s) (pages s))).

Definition Normalise (v : string) : action :=
  through v (fun h s =>
    Ok (mkState (<[v := normalise h]> (ptrs s)) (pad s) (pages s))).

(** [v->Draw()] and [v->Draw("same")] *)
Definition Draw (v : string) : action :=
  through v (fun _ s => Ok (mkState (ptrs s) [v] (pages s))).

Definition DrawSame (v : string) : action :=
  through v (fun _ s => Ok (mkState (ptrs s) (pad s ++ [v]) (pages s))).

(** [canvas.Print(outFileName)]: one more page, showing the canvas. *)
Definition Print : action :=
  fun s => Ok (mkState (ptrs s) (pad s)
                       (pages s ++ [omap (fun v => ptrs s !! v) (pad s)])).

Fixpoint run (l : list action) (s : State) : outcome :=
  match l with
  | [] => Ok s
  | a :: l' => match a s with
               | Ok s' => run l' s'
               | Dead s' f => Dead s' f
               end
  end.

(** What a run of a plotting program leaves behind. *)
Record Run := mkRun {
  exit_status : status;
  stdout : list msg;
  pdf : option (list (list (Histogram double)));
                                    (* the document's pages, once it is opened *)
  final : gmap string (Histogram double)
                                    (* the histograms as last displayed *)
}.

Definition stop (out : list msg) : Run := mkRun (Exit 1) out None ∅.

Section Program.
(** Per stage: the retrievals [(variable, class, key)], the variables
    whose pointer is tested after them, and the plotting statements. *)
Variable gets : Z -> list (string * TClass * string).
Variable checked : Z -> list string.
Variable plot_stage : Z -> list action.

Definition get_one (inFile : gmap string TH1)
    (st : gmap string TH1 * list msg) (g : string * TClass * string)
    : gmap string TH1 * list msg :=
  let '(v, C, histName) := g in
  let '(h, out) := getHist C inFile histName in
  (match h with Some h => <[v := h]> (fst st) | None => fst st end,
   snd st ++ out).

Definition is_null (p : gmap string TH1) (v : string) : bool :=
  match p !! v with None => true | Some _ => false end.

(** "Get the input histograms": stage by stage, [return 1] as soon as
    one of the tested pointers is null. *)
Fixpoint retrieve (stepNum : Z) (inFile : gmap string TH1) (ks : list Z)
    (st : gmap string TH1 * list msg) : list msg + gmap string TH1 * list msg :=
  match ks with
  | [] => inr st
  | k :: ks' =>
      if gate stepNum k then
        let st' := foldl (get_one inFile) st (gets k) in
        if existsb (is_null (fst st')) (checked k) then inl (snd st')
        else retrieve stepNum inFile ks' st'
      else retrieve stepNum inFile ks' st
  end.

(** "Make the plots" *)
Fixpoint plot (stepNum : Z) (ks : list Z) (s : State) : outcome :=
  match ks with
  | [] => Ok s
  | k :: ks' =>
      if gate stepNum k then
        match run (plot_stage k) s with
        | Ok s' => plot stepNum ks' s'
        | Dead s' f => Dead s' f
        end
      else plot stepNum ks' s
  end.

(** [main]: the checks of the arguments, the retrievals, and the plots,
    which work on the retrieved objects as they are in memory. *)
Definition main (disk : gmap string (gmap string TH1)) (argv : list string) : Run :=
  if (length argv <? 4)%nat then stop [MsgUsage] else
  let outFileName := arg argv 1 in
  let stepNum     := Libc.to_int (Libc.atol (arg argv 2)) in
  let inFileName  := arg argv 3 in
  if negb (EndsWith outFileName ".pdf") then stop [MsgBadPdfName outFileName] else
  if negb (EndsWith inFileName ".root") then stop [MsgBadRootName inFileName] else
  if invalid_step stepNum then stop [MsgInvalidStep stepNum] else
  match disk !! inFileName with
  | None => stop [MsgOpenFailed inFileName]
  | Some inFile =>
      match retrieve stepNum inFile stages (∅, []) with
      | inl out => stop out
      | inr (p, out) =>
          match plot stepNum stages (mkState (in_memory <$> p) [] []) with
          | Ok s => mkRun (Exit 0) out (Some (pages s)) (ptrs s)
          | Dead s f => mkRun (Abort f) out (Some (pages s)) (ptrs s)
          end
      end
  end.

End Program.

End Plots.

(* ===================================================================== *)
(** ** jetRecoExp_plots.cpp *)
(* ===================================================================== *)

Module JetRecoExpPlots.
Import Root Prog Plots.

Definition gets (k : Z) : list (string * TClass * string) :=
  match k with
  | 1 => [ ("hist_mu", TH1I, "Step1_mu");
           ("hist_npv", TH1I, "Step1_npv");
           ("hist_mu_npv", TH2I, "Step1_mu_npv") ]
  | 2 => [ ("hist_reco_pt_nw", TH1F, "Step2_RecoJet_pt_noweight");
           ("hist_reco_pt", TH1F, "Step2_RecoJet_pt");
           ("hist_truth_pt_nw", TH1F, "Step2_TruthJet_pt_noweight");
           ("hist_truth_pt", TH1F, "Step2_TruthJet_pt") ]
  | 3 => [ ("hist_reco_njets_lowmu", TH1F, "Step3_RecoJet_njets_lowmu");
           ("hist_reco_njets_midmu", TH1F, "Step3_RecoJet_njets_midmu");
           ("hist_reco_njets_highmu", TH1F, "Step3_RecoJet_njets_highmu");
           ("hist_truth_njets_lowmu", TH1F, "Step3_TruthJet_njets_lowmu");
           ("hist_truth_njets_midmu", TH1F, "Step3_TruthJet_njets_midmu");
           ("hist_truth_njets_highmu", TH1F, "Step3_TruthJet_njets_highmu");
           ("hist_reco_njets_mu_npv", TProfile2D, "Step3_RecoJets_njets_2D");
           ("hist_truth_njets_mu_npv", TProfile2D, "Step3_TruthJets_njets_2D") ]
  | 4 => [ ("hist_reco_jvf_pt20", TH1F, "Step4_RecoJet_jvf_pt20");
           ("hist_reco_jvf_pt60", TH1F, "Step4_RecoJet_jvf_pt60");
           ("hist_reco_jvf_pt100", TH1F, "Step4_RecoJet_jvf_pt100");
           ("hist_reco_pt_jvf", TH1F, "Step4_RecoJet_pt_jvf");
           ("hist_track_pt", TH1F, "Step4_TrackJet_pt");
           ("hist_track_njets_lowmu", TH1F, "Step4_TrackJet_njets_lowmu");
           ("hist_track_njets_midmu", TH1F, "Step4_TrackJet_njets_midmu");
           ("hist_track_njets_highmu", TH1F, "Step4_TrackJet_njets_highmu");
           ("hist_track_njets_mu_npv", TProfile2D, "Step4_TrackJets_njets_2D") ]
  | 5 => [ ("hist_DRtruth_reco", TH1F, "Step5_DRtruth_reco");
           ("hist_DRtruth_reco_jvf", TH1F, "Step5_DRtruth_reco_jvf");
           ("hist_DRtruth_track", TH1F, "Step5_DRtruth_track");
           ("hist_response_reco_pt20", TH1F, "Step5_response_reco_pt20");
           ("hist_response_reco_pt100", TH1F, "Step5_response_reco_pt100");
           ("hist_response_reco_pt1000", TH1F, "Step5_response_reco_pt1000");
           ("hist_response_track_pt20", TH1F, "Step5_response_track_pt20");
           ("hist_response_track_pt100", TH1F, "Step5_response_track_pt100");
           ("hist_response_track_pt1000", TH1F, "Step5_response_track_pt1000") ]
  | _ => []
  end.

Definition checked (k : Z) : list string :=
  match k with
  | 1 => [ "hist_mu"; "hist_npv"; "hist_mu_npv" ]
  | 2 => [ "hist_reco_pt_nw"; "hist_reco_pt"; "hist_truth_pt_nw"; "hist_truth_pt" ]
  | 3 => [ "hist_reco_njets_lowmu"; "hist_reco_njets_midmu";
           "hist_reco_njets_highmu"; "hist_truth_njets_lowmu";
           "hist_truth_njets_midmu"; "hist_truth_njets_highmu";
           "hist_reco_njets_mu_npv"; "hist_truth_njets_mu_npv" ]
  | 4 => [ "hist_reco_jvf_pt20"; "hist_reco_jvf_pt60"; "hist_reco_jvf_pt100";
           "hist_track_njets_lowmu"; "hist_track_njets_midmu";
           "hist_track_njets_highmu"; "hist_truth_pt"; "hist_track_njets_mu_npv" ]
  | 5 => [ "hist_DRtruth_reco"; "hist_DRtruth_reco_jvf"; "hist_DRtruth_track";
           "hist_response_reco_pt20"; "hist_response_reco_pt100";
           "hist_response_reco_pt1000"; "hist_response_track_pt20";
           "hist_response_track_pt100"; "hist_response_track_pt1000" ]
  | _ => []
  end.

Definition plot_stage (k : Z) : list action :=
  match k with
  | 1 => [ Style "hist_mu"; Draw "hist_mu"; Print;
           Style "hist_npv"; Draw "hist_npv"; Print;
           Style "hist_mu_npv"; Draw "hist_mu_npv"; Print ]
  | 2 => [ Style "hist_truth_pt_nw"; ScaleMeVToGeV "hist_truth_pt_nw";
           Style "hist_truth_pt_nw"; Draw "hist_truth_pt_nw";
           Style "hist_reco_pt_nw"; ScaleMeVToGeV "hist_reco_pt_nw";
           DrawSame "hist_reco_pt_nw"; Print;
           Style "hist_truth_pt"; ScaleMeVToGeV "hist_truth_pt";
           Style "hist_truth_pt"; Draw "hist_truth_pt"; Style "hist_reco_pt";
           ScaleMeVToGeV "hist_reco_pt"; DrawSame "hist_reco_pt"; Print ]
  | 3 => [ Normalise "hist_reco_njets_highmu"; Style "hist_reco_njets_highmu";
           Draw "hist_reco_njets_highmu"; Normalise "hist_reco_njets_midmu";
           Style "hist_reco_njets_midmu"; DrawSame "hist_reco_njets_midmu";
           Normalise "hist_reco_njets_lowmu"; Style "hist_reco_njets_lowmu";
           DrawSame "hist_reco_njets_lowmu"; Print;
           Normalise "hist_truth_njets_highmu"; Style "hist_truth_njets_highmu";
           Draw "hist_truth_njets_highmu"; Normalise "hist_truth_njets_midmu";
           Style "hist_truth_njets_midmu"; DrawSame "hist_truth_njets_midmu";
           Normalise "hist_truth_njets_lowmu"; Style "hist_truth_njets_lowmu";
           DrawSame "hist_truth_njets_lowmu"; Print;
           Style "hist_reco_njets_mu_npv"; Draw "hist_reco_njets_mu_npv"; Print;
           Style "hist_truth_njets_mu_npv"; Draw "hist_truth_njets_mu_npv"; Print ]
  | 4 => [ Normalise "hist_reco_jvf_pt20"; Style "hist_reco_jvf_pt20";
           Draw "hist_reco_jvf_pt20"; Normalise "hist_reco_jvf_pt60";
           Style "hist_reco_jvf_pt60"; DrawSame "hist_reco_jvf_pt60";
           Normalise "hist_reco_jvf_pt100"; Style "hist_reco_jvf_pt100";
           DrawSame "hist_reco_jvf_pt100"; Print;
           Style "hist_truth_pt"; Draw "hist_truth_pt"; DrawSame "hist_reco_pt";
           Style "hist_reco_pt_jvf"; ScaleMeVToGeV "hist_reco_pt_jvf";
           DrawSame "hist_reco_pt_jvf"; Print;
           Normalise "hist_track_njets_highmu"; Style "hist_track_njets_highmu";
           Draw "hist_track_njets_highmu"; Normalise "hist_track_njets_midmu";
           Style "hist_track_njets_midmu"; DrawSame "hist_track_njets_midmu";
           Normalise "hist_track_njets_lowmu"; Style "hist_track_njets_lowmu";
           DrawSame "hist_track_njets_lowmu"; Print;
           Style "hist_track_njets_mu_npv"; Draw "hist_track_njets_mu_npv"; Print;
           Style "hist_truth_pt"; Draw "hist_truth_pt"; DrawSame "hist_reco_pt_jvf";
           Style "hist_track_pt"; ScaleMeVToGeV "hist_track_pt";
           DrawSame "hist_track_pt"; Print ]
  | 5 => [ Normalise "hist_DRtruth_reco"; Style "hist_DRtruth_reco";
           Draw "hist_DRtruth_reco"; Normalise "hist_DRtruth_reco_jvf";
           Style "hist_DRtruth_reco_jvf"; DrawSame "hist_DRtruth_reco_jvf";
           Normalise "hist_DRtruth_track"; Style "hist_DRtruth_track";
           DrawSame "hist_DRtruth_track"; Print;
           Normalise "hist_response_reco_pt20"; Style "hist_response_reco_pt20";
           Normalise "hist_response_reco_pt100"; Style "hist_response_reco_pt100";
           Normalise "hist_response_reco_pt1000"; Style "hist_response_reco_pt1000";
           Style "hist_response_reco_pt20"; Draw "hist_response_reco_pt20";
           DrawSame "hist_response_reco_pt100";
           DrawSame "hist_response_reco_pt1000"; Print;
           Normalise "hist_response_track_pt20"; Style "hist_response_track_pt20";
           Normalise "hist_response_track_pt100"; Style "hist_response_track_pt100";
           Normalise "hist_response_track_pt1000";
           Style "hist_response_track_pt1000"; Style "hist_response_track_pt20";
           Draw "hist_response_track_pt20"; DrawSame "hist_response_track_pt100";
           DrawSame "hist_response_track_pt1000"; Print ]
  | _ => []
  end.

Definition main : gmap string (gmap string TH1) -> list string -> Run :=
  Plots.main gets checked plot_stage.

(** The pointer variables whose histogram a stage normalises to unit
    integral, in source order. *)
Definition normalised (k : Z) : list string :=
  match k with
  | 3 => [ "hist_reco_njets_highmu"; "hist_reco_njets_midmu";
           "hist_reco_njets_lowmu"; "hist_truth_njets_highmu";
           "hist_truth_njets_midmu"; "hist_truth_njets_lowmu" ]
  | 4 => [ "hist_reco_jvf_pt20"; "hist_reco_jvf_pt60"; "hist_reco_jvf_pt100";
           "hist_track_njets_highmu"; "hist_track_njets_midmu";
           "hist_track_njets_lowmu" ]
  | 5 => [ "hist_DRtruth_reco"; "hist_DRtruth_reco_jvf"; "hist_DRtruth_track";
           "hist_response_reco_pt20"; "hist_response_reco_pt100";
           "hist_response_reco_pt1000"; "hist_response_track_pt20";
           "hist_response_track_pt100"; "hist_response_track_pt1000" ]
  | _ => []
  end.

End JetRecoExpPlots.

(* ===================================================================== *)
(** ** jetRecoGroom_plots.cpp *)
(* ===================================================================== *)

Module JetRecoGroomPlots.
Import Root Prog Plots.

Definition gets (k : Z) : list (string * TClass * string) :=
  match k with
  | 1 => [ ("hist_mu", TH1I, "Step1_mu");
           ("hist_npv", TH1I, "Step1_npv") ]
  | 2 => [ ("hist_ungroom_pt_nw", TH1F, "Step2_UngroomPt_noweight");
           ("hist_ungroom_pt", TH1F, "Step2_UngroomPt");
           ("hist_trimmed_pt", TH1F, "Step2_TrimmedPt");
           ("hist_ungroom_m", TH1F, "Step2_UngroomMass");
           ("hist_trimmed_m", TH1F, "Step2_TrimmedMass") ]
  | 3 => [ ("hist_myungroom_pt_nw", TH1F, "Step3_MyUngroomPt_noweight");
           ("hist_myungroom_pt", TH1F, "Step3_MyUngroomPt");
           ("hist_mytrimmed_pt_nw", TH1F, "Step3_MyTrimmedPt_noweight");
           ("hist_mytrimmed_pt", TH1F, "Step3_MyTrimmedPt") ]
  | 4 => [ ("hist_mypruned_pt", TH1F, "Step4_MyPrunedPt");
           ("hist_mypruned_m", TH1F, "Step4_MyPrunedMass");
           ("hist_mySD_pt", TH1F, "Step4_MySDPt");
           ("hist_mySD_m", TH1F, "Step4_MySDMass");
           ("hist_myRSD_pt", TH1F, "Step4_MyRSDPt");
           ("hist_myRSD_m", TH1F, "Step4_MyRSDMass");
           ("hist_myBUSD_pt", TH1F, "Step4_MyBUSDPt");
           ("hist_myBUSD_m", TH1F, "Step4_MyBUSDMass");
           ("hist_myBUSDT_pt", TH1F, "Step4_MyBUSDTPt");
           ("hist_myBUSDT_m", TH1F, "Step4_MyBUSDTMass") ]
  | 5 => [ ("hist_ungroom_D2", TH1F, "Step5_Ungroomed_D2");
           ("hist_ungroom_tau32", TH1F, "Step5_Ungroomed_Tau32");
           ("hist_trimmed_D2", TH1F, "Step5_Trimmed_D2");
           ("hist_trimmed_tau32", TH1F, "Step5_Trimmed_Tau32");
           ("hist_pruned_D2", TH1F, "Step5_Pruned_D2");
           ("hist_pruned_tau32", TH1F, "Step5_Pruned_Tau32");
           ("hist_SD_D2", TH1F, "Step5_SD_D2");
           ("hist_SD_tau32", TH1F, "Step5_SD_Tau32");
           ("hist_RSD_D2", TH1F, "Step5_RSD_D2");
           ("hist_RSD_tau32", TH1F, "Step5_RSD_Tau32");
           ("hist_BUSD_D2", TH1F, "Step5_BUSD_D2");
           ("hist_BUSD_tau32", TH1F, "Step5_BUSD_Tau32");
           ("hist_BUSDT_D2", TH1F, "Step5_BUSDT_D2");
           ("hist_BUSDT_tau32", TH1F, "Step5_BUSDT_Tau32") ]
  | _ => []
  end.

Definition checked (k : Z) : list string :=
  match k with
  | 1 => [ "hist_mu"; "hist_npv" ]
  | 2 => [ "hist_ungroom_pt_nw"; "hist_ungroom_pt"; "hist_trimmed_pt";
           "hist_ungroom_m"; "hist_trimmed_m" ]
  | 3 => [ "hist_myungroom_pt_nw"; "hist_myungroom_pt"; "hist_mytrimmed_pt_nw";
           "hist_mytrimmed_pt" ]
  | 4 => [ "hist_mypruned_pt"; "hist_mypruned_m"; "hist_mySD_pt"; "hist_mySD_m";
           "hist_myRSD_pt"; "hist_myRSD_m"; "hist_myBUSD_pt"; "hist_myBUSD_m";
           "hist_myBUSDT_pt"; "hist_myBUSDT_m" ]
  | 5 => [ "hist_ungroom_D2"; "hist_ungroom_tau32"; "hist_trimmed_D2";
           "hist_trimmed_tau32"; "hist_pruned_D2"; "hist_pruned_tau32";
           "hist_SD_D2"; "hist_SD_tau32"; "hist_RSD_D2"; "hist_RSD_tau32";
           "hist_BUSD_D2"; "hist_BUSD_tau32"; "hist_BUSDT_D2"; "hist_BUSDT_tau32" ]
  | _ => []
  end.

Definition plot_stage (k : Z) : list action :=
  match k with
  | 1 => [ Style "hist_mu"; Draw "hist_mu"; Print;
           Style "hist_npv"; Draw "hist_npv"; Print ]
  | 2 => [ Style "hist_ungroom_pt_nw"; ScaleMeVToGeV "hist_ungroom_pt_nw";
           Style "hist_ungroom_pt_nw"; Draw "hist_ungroom_pt_nw"; Print;
           Style "hist_ungroom_pt"; ScaleMeVToGeV "hist_ungroom_pt";
           Style "hist_ungroom_pt"; Draw "hist_ungroom_pt"; Style "hist_trimmed_pt";
           ScaleMeVToGeV "hist_trimmed_pt"; DrawSame "hist_trimmed_pt"; Print;
           Style "hist_ungroom_m"; ScaleMeVToGeV "hist_ungroom_m";
           Style "hist_ungroom_m"; Draw "hist_ungroom_m"; Style "hist_trimmed_m";
           ScaleMeVToGeV "hist_trimmed_m"; DrawSame "hist_trimmed_m"; Print ]
  | 3 => [ Style "hist_myungroom_pt_nw"; ScaleMeVToGeV "hist_myungroom_pt_nw";
           Style "hist_myungroom_pt_nw"; Draw "hist_myungroom_pt_nw";
           DrawSame "hist_ungroom_pt_nw"; Print;
           Style "hist_myungroom_pt"; ScaleMeVToGeV "hist_myungroom_pt";
           Style "hist_myungroom_pt"; Draw "hist_myungroom_pt";
           DrawSame "hist_ungroom_pt"; Print;
           Style "hist_mytrimmed_pt"; ScaleMeVToGeV "hist_mytrimmed_pt";
           Style "hist_mytrimmed_pt"; Draw "hist_mytrimmed_pt";
           Style "hist_trimmed_pt"; DrawSame "hist_trimmed_pt"; Print ]
  | 4 => [ Style "hist_myungroom_pt"; Draw "hist_myungroom_pt";
           Style "hist_mytrimmed_pt"; DrawSame "hist_mytrimmed_pt";
           Style "hist_mypruned_pt"; ScaleMeVToGeV "hist_mypruned_pt";
           Style "hist_mypruned_pt"; DrawSame "hist_mypruned_pt";
           Style "hist_mySD_pt"; ScaleMeVToGeV "hist_mySD_pt"; Style "hist_mySD_pt";
           DrawSame "hist_mySD_pt"; Style "hist_myRSD_pt";
           ScaleMeVToGeV "hist_myRSD_pt"; Style "hist_myRSD_pt";
           DrawSame "hist_myRSD_pt"; Style "hist_myBUSD_pt";
           ScaleMeVToGeV "hist_myBUSD_pt"; Style "hist_myBUSD_pt";
           DrawSame "hist_myBUSD_pt"; Style "hist_myBUSDT_pt";
           ScaleMeVToGeV "hist_myBUSDT_pt"; Style "hist_myBUSDT_pt";
           DrawSame "hist_myBUSDT_pt"; Print;
           Normalise "hist_ungroom_m"; Style "hist_ungroom_m";
           Draw "hist_ungroom_m"; Normalise "hist_trimmed_m";
           Style "hist_trimmed_m"; DrawSame "hist_trimmed_m";
           Normalise "hist_mypruned_m"; Style "hist_mypruned_m";
           ScaleMeVToGeV "hist_mypruned_m"; Style "hist_mypruned_m";
           DrawSame "hist_mypruned_m"; Normalise "hist_mySD_m"; Style "hist_mySD_m";
           ScaleMeVToGeV "hist_mySD_m"; Style "hist_mySD_m"; DrawSame "hist_mySD_m";
           Normalise "hist_myRSD_m"; Style "hist_myRSD_m";
           ScaleMeVToGeV "hist_myRSD_m"; Style "hist_myRSD_m";
           DrawSame "hist_myRSD_m"; Normalise "hist_myBUSD_m";
           Style "hist_myBUSD_m"; ScaleMeVToGeV "hist_myBUSD_m";
           Style "hist_myBUSD_m"; DrawSame "hist_myBUSD_m";
           Normalise "hist_myBUSDT_m"; Style "hist_myBUSDT_m";
           ScaleMeVToGeV "hist_myBUSDT_m"; Style "hist_myBUSDT_m";
           DrawSame "hist_myBUSDT_m"; Print ]
  | 5 => [ Normalise "hist_ungroom_D2"; Style "hist_ungroom_D2";
           Draw "hist_ungroom_D2"; Normalise "hist_trimmed_D2";
           Style "hist_trimmed_D2"; DrawSame "hist_trimmed_D2";
           Normalise "hist_pruned_D2"; Style "hist_pruned_D2";
           DrawSame "hist_pruned_D2"; Normalise "hist_SD_D2"; Style "hist_SD_D2";
           DrawSame "hist_SD_D2"; Normalise "hist_RSD_D2"; Style "hist_RSD_D2";
           DrawSame "hist_RSD_D2"; Normalise "hist_BUSD_D2"; Style "hist_BUSD_D2";
           DrawSame "hist_BUSD_D2"; Normalise "hist_BUSDT_D2";
           Style "hist_BUSDT_D2"; DrawSame "hist_BUSDT_D2"; Print;
           Normalise "hist_ungroom_tau32"; Style "hist_ungroom_tau32";
           Draw "hist_ungroom_tau32"; Normalise "hist_trimmed_tau32";
           Style "hist_trimmed_tau32"; DrawSame "hist_trimmed_tau32";
           Normalise "hist_pruned_tau32"; Style "hist_pruned_tau32";
           DrawSame "hist_pruned_tau32"; Normalise "hist_SD_tau32";
           Style "hist_SD_tau32"; DrawSame "hist_SD_tau32";
           Normalise "hist_RSD_tau32"; Style "hist_RSD_tau32";
           DrawSame "hist_RSD_tau32"; Normalise "hist_BUSD_tau32";
           Style "hist_BUSD_tau32"; DrawSame "hist_BUSD_tau32";
           Normalise "hist_BUSDT_tau32"; Style "hist_BUSDT_tau32";
           DrawSame "hist_BUSDT_tau32"; Print ]
  | _ => []
  end.

Definition main : gmap string (gmap string TH1) -> list string -> Run :=
  Plots.main gets checked plot_stage.

(** The pointer variables whose histogram a stage normalises to unit
    integral, in source order. *)
Definition normalised (k : Z) : list string :=
  match k with
  | 4 => [ "hist_ungroom_m"; "hist_trimmed_m"; "hist_mypruned_m"; "hist_mySD_m";
           "hist_myRSD_m"; "hist_myBUSD_m"; "hist_myBUSDT_m" ]
  | 5 => [ "hist_ungroom_D2"; "hist_trimmed_D2"; "hist_pruned_D2"; "hist_SD_D2";
           "hist_RSD_D2"; "hist_BUSD_D2"; "hist_BUSDT_D2"; "hist_ungroom_tau32";
           "hist_trimmed_tau32"; "hist_pruned_tau32"; "hist_SD_tau32";
           "hist_RSD_tau32"; "hist_BUSD_tau32"; "hist_BUSDT_tau32" ]
  | _ => []
  end.

End JetRecoGroomPlots.

(* ===================================================================== *)
(** * Properties *)
(* ===================================================================== *)

(** ** The gate, the fill log and the skeleton of the reco programs *)

Module ProgFacts.
Import Root Prog.

Lemma gate_selected (s k : Z) : gate s k = true <-> selected s k.
Proof.
  unfold gate, selected.
  rewrite orb_true_iff, Z.eqb_eq, Z.geb_le. lia.
Qed.

Lemma invalid_step_spec (s : Z) : invalid_step s = false <-> 0 <= s <= 5.
Proof.
  unfold invalid_step.
  rewrite orb_false_iff, Z.ltb_ge, Z.gtb_ltb, Z.ltb_ge. lia.
Qed.

Lemma flat_map_selected {A} (f : Z -> list A) (s : Z) (ks : list Z) :
  flat_map f (filter (selected s) ks)
  = flat_map (fun k => if gate s k then f k else []) ks.
Proof.
  induction ks as [|k ks IH]; [reflexivity|].
  rewrite filter_cons. cbn [flat_map].
  destruct (decide (selected s k)) as [Hs|Hs].
  - apply gate_selected in Hs. rewrite Hs. cbn [flat_map]. now rewrite IH.
  - destruct (gate s k) eqn:Hg.
    + apply gate_selected in Hg. contradiction.
    + exact IH.
Qed.

(** *** Laws of the fill log *)

Lemma bind_ret_l {A B} (a : A) (f : A -> W B) : bind (ret a) f = f a.
Proof. unfold bind, ret. destruct (f a) as [l r]. reflexivity. Qed.

Lemma bind_ret_tt (m : W unit) : bind m (fun _ => ret tt) = m.
Proof.
  destruct m as [l [e|[]]]; cbn; [reflexivity|].
  now rewrite app_nil_r.
Qed.

Lemma bind_assoc {A B C} (m : W A) (f : A -> W B) (g : B -> W C) :
  bind (bind m f) g = bind m (fun a => bind (f a) g).
Proof.
  destruct m as [l [e|a]]; cbn; [reflexivity|].
  destruct (f a) as [l1 [e1|b]]; cbn; [reflexivity|].
  destruct (g b) as [l2 r2]. now rewrite app_assoc.
Qed.

Lemma log_bind {A B} (m : W A) (f : A -> W B) :
  log (bind m f)
  = match snd m with
    | inl _ => log m
    | inr a => log m ++ log (f a)
    end.
Proof.
  destruct m as [l [e|a]]; cbn; [reflexivity|].
  destruct (f a) as [l1 r1]. reflexivity.
Qed.


(** *** The histograms in memory keep their names *)

Definition well_named (hs : gmap string TH1) : Prop :=
  forall n h, hs !! n = Some h -> fName h = n.

Lemma Fill_name (a : FillArgs) (h : TH1) : fName (Fill a h) = fName h.
Proof. destruct a; reflexivity. Qed.

Lemma apply_fill_lookup (hs : gmap string TH1) (f : fill) (n : string) :
  apply_fill hs f !! n
  = if decide (fst f = n) then Fill (snd f) <$> hs !! n else hs !! n.
Proof.
  unfold apply_fill. rewrite lookup_alter.
  destruct (decide (fst f = n)) as [<-|]; reflexivity.
Qed.

Lemma apply_fills_keeps (hs : gmap string TH1) (l : list fill) :
  well_named hs ->
  well_named (apply_fills hs l)
  /\ (forall n, is_Some (hs !! n) -> is_Some (apply_fills hs l !! n)).
Proof.
  revert hs. induction l as [|f l IH]; intros hs Hn; [split; auto|].
  cbn. destruct (IH (apply_fill hs f)) as [H1 H2].
  - intros n h. rewrite apply_fill_lookup.
    destruct (decide (fst f = n)); [|apply Hn].
    destruct (hs !! n) as [h0|] eqn:E; [|discriminate].
    cbn. intros [= <-]. rewrite Fill_name. now apply Hn.
  - split; [exact H1|]. intros n Hs. apply H2.
    rewrite apply_fill_lookup.
    destruct (decide (fst f = n)); [|exact Hs].
    destruct Hs as [h ->]. now eexists.
Qed.

Lemma declare_well_named (decls : list TH1) : well_named (declare decls).
Proof.
  intros n h Hl. apply elem_of_list_to_map_2 in Hl.
  apply list_elem_of_In, in_map_iff in Hl.
  destruct Hl as [h' [[= <- <-] _]]. reflexivity.
Qed.

Lemma declare_is_Some (decls : list TH1) (n : string) :
  n ∈ map fName decls -> is_Some (declare decls !! n).
Proof.
  intros Hin. destruct (declare decls !! n) eqn:E; [now eexists|].
  apply not_elem_of_list_to_map in E. exfalso. apply E.
  rewrite <- list_fmap_compose.
  replace (fmap (fst ∘ (fun h => (fName h, h))) decls) with (map fName decls); [exact Hin|].
  reflexivity.
Qed.

Lemma omap_lookup_names (hs : gmap string TH1) (names : list string) :
  well_named hs ->
  (forall n, n ∈ names -> is_Some (hs !! n)) ->
  map fName (omap (fun n => hs !! n) names) = names.
Proof.
  intros Hn. induction names as [|n names IH]; intros Hs; [reflexivity|].
  cbn. destruct (Hs n) as [h Hh]; [left|].
  rewrite Hh. cbn. rewrite (Hn _ _ Hh). f_equal.
  apply IH. intros m Hm. apply Hs. now right.
Qed.

End ProgFacts.

(** ** The tree reader *)

Module ReaderFacts.
Import Root Prog.

Ltac mem_cases :=
  rewrite ?elem_of_union, ?elem_of_singleton, ?elem_of_cons;
  intuition (subst; auto; congruence).

Lemma status_spec (bs names : list string) (r : Reader) :
  let r' := foldl (SetBranchStatusOn bs) r names in
  (forall n, n ∈ active r' <-> n ∈ active r \/ (n ∈ names /\ n ∈ bs))
  /\ bound r' = bound r
  /\ requested r' = requested r ++ names.
Proof.
  revert r. induction names as [|m names IH]; intros r; cbn.
  - split; [|split]; [| reflexivity | now rewrite app_nil_r].
    intros n. split; [now left | intros [H|[H _]]; [exact H | inversion H]].
  - destruct (IH (SetBranchStatusOn bs r m)) as (Ha & Hb & Hr).
    split; [|split].
    + intros n. rewrite Ha. unfold SetBranchStatusOn.
      destruct (bool_decide (m ∈ bs)) eqn:E; cbn.
      * apply bool_decide_eq_true in E. mem_cases.
      * apply bool_decide_eq_false in E. mem_cases.
    + rewrite Hb. unfold SetBranchStatusOn.
      destruct (bool_decide (m ∈ bs)); reflexivity.
    + rewrite Hr. unfold SetBranchStatusOn.
      destruct (bool_decide (m ∈ bs)); cbn; now rewrite <- app_assoc.
Qed.

Lemma address_spec (bs names : list string) (r : Reader) :
  let r' := foldl (SetBranchAddress bs) r names in
  (forall n, n ∈ bound r' <-> n ∈ bound r \/ (n ∈ names /\ n ∈ bs))
  /\ active r' = active r
  /\ requested r' = requested r.
Proof.
  revert r. induction names as [|m names IH]; intros r; cbn.
  - split; [|split]; [| reflexivity | reflexivity].
    intros n. split; [now left | intros [H|[H _]]; [exact H | inversion H]].
  - destruct (IH (SetBranchAddress bs r m)) as (Hb & Ha & Hr).
    split; [|split].
    + intros n. rewrite Hb. unfold SetBranchAddress.
      destruct (bool_decide (m ∈ bs)) eqn:E; cbn.
      * apply bool_decide_eq_true in E. mem_cases.
      * apply bool_decide_eq_false in E. mem_cases.
    + rewrite Ha. unfold SetBranchAddress.
      destruct (bool_decide (m ∈ bs)); reflexivity.
    + rewrite Hr. unfold SetBranchAddress.
      destruct (bool_decide (m ∈ bs)); reflexivity.
Qed.

Lemma wire_spec (bs names : list string) (r : Reader) :
  (forall n, n ∈ active (wire bs names r) <-> n ∈ active r \/ (n ∈ names /\ n ∈ bs))
  /\ (forall n, n ∈ bound (wire bs names r) <-> n ∈ bound r \/ (n ∈ names /\ n ∈ bs))
  /\ requested (wire bs names r) = requested r ++ names.
Proof.
  unfold wire.
  destruct (status_spec bs names r) as (Ha & Hb & Hr).
  destruct (address_spec bs names (foldl (SetBranchStatusOn bs) r names))
    as (Hb' & Ha' & Hr').
  cbn zeta in *. split; [|split].
  - intros n. rewrite Ha'. apply Ha.
  - intros n. rewrite Hb', Hb. reflexivity.
  - now rewrite Hr'.
Qed.

Section Wiring.
Context {Event : Type}.
Variable stage_branches : Z -> list string.

Definition wired (s : Z) (ks : list Z) (n : string) : Prop :=
  exists k, k ∈ ks /\ gate s k = true /\ n ∈ stage_branches k.

Lemma wire_stages_spec (s : Z) (bs : list string) (ks : list Z) (r : Reader) :
  let r' := foldl (wire_stage stage_branches s bs) r ks in
  (forall n, n ∈ active r' <-> n ∈ active r \/ (wired s ks n /\ n ∈ bs))
  /\ (forall n, n ∈ bound r' <-> n ∈ bound r \/ (wired s ks n /\ n ∈ bs))
  /\ requested r'
     = requested r ++ flat_map (fun k => if gate s k then stage_branches k else []) ks.
Proof.
  revert r. induction ks as [|k ks IH]; intros r; cbn.
  - split; [|split]; [| | now rewrite app_nil_r];
      (intros n; split; [now left | intros [H|[[k [H _]] _]]; [exact H | inversion H]]).
  - assert (E : wire_stage stage_branches s bs r k
                = if gate s k then wire bs (stage_branches k) r else r) by reflexivity.
    destruct (IH (wire_stage stage_branches s bs r k)) as (Ha & Hb & Hr).
    rewrite E in Ha, Hb, Hr |- *. clear E.
    destruct (gate s k) eqn:G.
    + destruct (wire_spec bs (stage_branches k) r) as (Wa & Wb & Wr).
      split; [|split].
      * intros n. rewrite Ha, Wa. unfold wired. split.
        -- intros [[H|[H1 H2]]|[[k' (H1 & H2 & H3)] H4]]; [now left | |].
           ++ right. split; [|exact H2]. exists k. split; [left|]. now split.
           ++ right. split; [|exact H4]. exists k'. split; [now right|]. now split.
        -- intros [H|[[k' (H1 & H2 & H3)] H4]]; [now left; left|].
           apply elem_of_cons in H1 as [->|H1].
           ++ left. right. now split.
           ++ right. split; [|exact H4]. now exists k'.
      * intros n. rewrite Hb, Wb. unfold wired. split.
        -- intros [[H|[H1 H2]]|[[k' (H1 & H2 & H3)] H4]]; [now left | |].
           ++ right. split; [|exact H2]. exists k. split; [left|]. now split.
           ++ right. split; [|exact H4]. exists k'. split; [now right|]. now split.
        -- intros [H|[[k' (H1 & H2 & H3)] H4]]; [now left; left|].
           apply elem_of_cons in H1 as [->|H1].
           ++ left. right. now split.
           ++ right. split; [|exact H4]. now exists k'.
      * rewrite Hr, Wr. now rewrite <- app_assoc.
    + split; [|split].
      * intros n. rewrite Ha. unfold wired. split.
        -- intros [H|[[k' (H1 & H2 & H3)] H4]]; [now left|].
           right. split; [|exact H4]. exists k'. split; [now right|]. now split.
        -- intros [H|[[k' (H1 & H2 & H3)] H4]]; [now left|].
           apply elem_of_cons in H1 as [->|H1]; [congruence|].
           right. split; [|exact H4]. now exists k'.
      * intros n. rewrite Hb. unfold wired. split.
        -- intros [H|[[k' (H1 & H2 & H3)] H4]]; [now left|].
           right. split; [|exact H4]. exists k'. split; [now right|]. now split.
        -- intros [H|[[k' (H1 & H2 & H3)] H4]]; [now left|].
           apply elem_of_cons in H1 as [->|H1]; [congruence|].
           right. split; [|exact H4]. now exists k'.
      * exact Hr.
Qed.

(** With a step number in range stage 1 runs, so the wiring starts
    from "all branches off". *)
Lemma wire_branches_spec (s : Z) (t : TTree Event) :
  gate s 1 = true ->
  let r := wire_branches stage_branches s t in
  (forall n, reads r n = true <-> wired s stages n /\ n ∈ tBranches t)
  /\ requested r = flat_map stage_branches (selected_stages s).
Proof.
  intros G1. unfold wire_branches. rewrite G1. cbn zeta.
  set (r0 := SetBranchStatusAllOff _).
  destruct (wire_spec (tBranches t) (stage_branches 1) r0) as (Wa & Wb & Wr).
  destruct (wire_stages_spec s (tBranches t) [2; 3; 4; 5]
              (wire (tBranches t) (stage_branches 1) r0)) as (Ha & Hb & Hr).
  cbn zeta in *.
  assert (Hw : forall n, wired s stages n
             <-> n ∈ stage_branches 1 \/ wired s [2; 3; 4; 5] n).
  { intros n. unfold wired, stages. split.
    - intros [k (H1 & H2 & H3)]. apply elem_of_cons in H1 as [->|H1]; [now left|].
      right. now exists k.
    - intros [H|[k (H1 & H2 & H3)]].
      + exists 1. split; [left|]. now split.
      + exists k. split; [now right|]. now split. }
  split.
  - intros n. unfold reads.
    rewrite andb_true_iff, !bool_decide_eq_true, Ha, Hb, Wa, Wb, Hw.
    subst r0. cbn [active bound SetBranchStatusAllOff].
    rewrite !elem_of_empty. tauto.
  - rewrite Hr, Wr. subst r0. cbn [requested SetBranchStatusAllOff app].
    unfold selected_stages. rewrite ProgFacts.flat_map_selected.
    unfold stages. cbn [flat_map]. now rewrite G1.
Qed.

End Wiring.

End ReaderFacts.

(** ** The skeleton of the reconstruction programs *)

Module RecoFacts.
Import Root Prog ProgFacts ReaderFacts.

Section Skeleton.
Context {Event Vars : Type}.
Variable vars0 : Vars.
Variable stage_branches : Z -> list string.
Variable GetEntry : Reader -> Event -> Vars -> Vars.
Variable event_body : Z -> Vars -> W unit.
Variable stage_decls : Z -> list TH1.

Local Abbreviation main :=
  (Prog.main vars0 stage_branches GetEntry event_body stage_decls).
Local Abbreviation event_loop := (Prog.event_loop GetEntry event_body).
Local Abbreviation all_decls := (Prog.all_decls stage_decls).

(** The arguments of a run that reaches the event loop. *)
Definition reaches (disk : gmap string (gmap string (TTree Event)))
    (argv : list string) (inTree : TTree Event) : Prop :=
  (5 <= length argv)%nat
  /\ 0 <= Libc.to_int (Libc.atol (arg argv 2)) <= 5
  /\ exists inFile, disk !! arg argv 4 = Some inFile
                    /\ inFile !! arg argv 3 = Some inTree.

Lemma main_usage disk argv :
  (length argv < 5)%nat -> main disk argv = stop [MsgUsage].
Proof.
  intros H. unfold Prog.main.
  now replace (length argv <? 5)%nat with true by (symmetry; apply Nat.ltb_lt; lia).
Qed.

Lemma main_invalid disk argv :
  (5 <= length argv)%nat ->
  ~ (0 <= Libc.to_int (Libc.atol (arg argv 2)) <= 5) ->
  main disk argv = stop [MsgInvalidStep (Libc.to_int (Libc.atol (arg argv 2)))].
Proof.
  intros H Hs. unfold Prog.main.
  replace (length argv <? 5)%nat with false by (symmetry; apply Nat.ltb_ge; lia).
  destruct (invalid_step _) eqn:E; [reflexivity|].
  apply invalid_step_spec in E. contradiction.
Qed.

Lemma main_reaches disk argv inTree :
  reaches disk argv inTree ->
  let s := Libc.to_int (Libc.atol (arg argv 2)) in
  let r := wire_branches stage_branches s inTree in
  exists hs out fl d,
    event_loop s r (Z.of_nat (length (tEntries inTree))) 0
               (tEntries inTree) vars0 (declare all_decls) = (hs, out, fl, d)
    /\ main disk argv
       = match d with
         | Some f => mkRun (Abort f) out (Some r) (Some (arg argv 1)) all_decls fl []
         | None => mkRun (Exit 0) out (Some r) (Some (arg argv 1)) all_decls fl
                     (flat_map (write_stage stage_decls s hs) stages)
         end.
Proof.
  intros (Hl & Hs & inFile & Hf & Ht). cbn zeta. unfold Prog.main.
  replace (length argv <? 5)%nat with false by (symmetry; apply Nat.ltb_ge; lia).
  apply invalid_step_spec in Hs. rewrite Hs, Hf, Ht.
  destruct (event_loop _ _ _ _ _ _ _) as [[[hs out] fl] d].
  exists hs, out, fl, d. split; reflexivity.
Qed.

(** The histograms in memory are the declared ones throughout. *)
Definition declared (hs : gmap string TH1) : Prop :=
  well_named hs /\ forall n, n ∈ map fName all_decls -> is_Some (hs !! n).

Lemma declared_init : declared (declare all_decls).
Proof. split; [apply declare_well_named | apply declare_is_Some]. Qed.

Lemma event_loop_declared s r num i es v hs :
  declared hs -> declared (event_loop s r num i es v hs).1.1.1.
Proof.
  revert i v hs. induction es as [|e es IH]; intros i v hs Hd; [exact Hd|].
  cbn [Prog.event_loop]. cbn zeta.
  assert (Hd' : declared (apply_fills hs (log (event_body s (GetEntry r e v))))).
  { destruct Hd as [H1 H2].
    destruct (apply_fills_keeps hs (log (event_body s (GetEntry r e v))) H1) as [K1 K2].
    split; [exact K1|]. intros n Hn. apply K2, H2, Hn. }
  destruct (faulted _); [exact Hd'|].
  specialize (IH (i + 1) (GetEntry r e v) _ Hd').
  destruct (event_loop _ _ _ _ _ _ _) as [[[hs' out] fl] d]. exact IH.
Qed.


Lemma event_loop_fills s r num i es v hs :
  Forall (fun l => exists v', l = log (event_body s v'))
         (event_loop s r num i es v hs).1.2.
Proof.
  revert i v hs. induction es as [|e es IH]; intros i v hs; [constructor|].
  cbn [Prog.event_loop]. cbn zeta.
  destruct (faulted _).
  - constructor; [eauto | constructor].
  - specialize (IH (i + 1) (GetEntry r e v)
                   (apply_fills hs (log (event_body s (GetEntry r e v))))).
    destruct (event_loop _ _ _ _ _ _ _) as [[[hs' out] fl] d].
    constructor; [eauto | exact IH].
Qed.

Lemma stage_writes_declared k :
  k ∈ stages -> forall n, n ∈ stage_writes stage_decls k -> n ∈ map fName all_decls.
Proof.
  intros Hk n Hn. unfold Prog.all_decls, stage_writes in *.
  apply list_elem_of_In, in_map_iff in Hn. destruct Hn as [h [<- Hh]].
  apply list_elem_of_In, in_map. apply in_flat_map. exists k.
  split; [now apply list_elem_of_In | exact Hh].
Qed.

Lemma written_names s hs (ks : list Z) :
  declared hs -> (forall k, k ∈ ks -> k ∈ stages) ->
  map fName (flat_map (write_stage stage_decls s hs) ks)
  = flat_map (stage_writes stage_decls) (filter (selected s) ks).
Proof.
  intros [H1 H2] Hks. rewrite flat_map_selected.
  induction ks as [|k ks IH]; [reflexivity|].
  cbn [flat_map]. rewrite map_app, IH by (intros; apply Hks; now right).
  f_equal. unfold write_stage. destruct (gate s k); [|reflexivity].
  apply omap_lookup_names; [exact H1|].
  intros n Hn. apply H2. apply (stage_writes_declared k); [|exact Hn].
  apply Hks. left.
Qed.

(** The observable effects of a run that reaches the event loop. *)
Lemma main_effects disk argv inTree :
  reaches disk argv inTree ->
  let s := Libc.to_int (Libc.atol (arg argv 2)) in
  let run := main disk argv in
  requested <$> reader run = Some (flat_map stage_branches (selected_stages s))
  /\ created run = all_decls
  /\ map fName (written run)
     = match exit_status run with
       | Exit _ => flat_map (stage_writes stage_decls) (selected_stages s)
       | Abort _ => []
       end
  /\ (exit_status run = Exit 0 \/ exists f, exit_status run = Abort f).
Proof.
  intros Hr. cbn zeta.
  destruct (main_reaches disk argv inTree Hr) as (hs & out & fl & d & Hloop & ->).
  destruct Hr as (Hl & Hs & _).
  set (s := Libc.to_int (Libc.atol (arg argv 2))) in *.
  assert (G1 : gate s 1 = true).
  { apply gate_selected. unfold selected. lia. }
  destruct (wire_branches_spec stage_branches s inTree G1) as [_ Hreq].
  cbn zeta in Hreq.
  pose proof (event_loop_declared s (wire_branches stage_branches s inTree)
                (Z.of_nat (length (tEntries inTree))) 0 (tEntries inTree)
                vars0 _ declared_init) as Hd.
  rewrite Hloop in Hd. cbn in Hd.
  destruct d as [f|]; cbn [reader created written exit_status fmap option_fmap option_map].
  - rewrite Hreq. repeat split; eauto.
  - rewrite Hreq. repeat split; eauto.
    apply written_names; [exact Hd | auto].
Qed.

Lemma disjoint_stages {B} (f : Z -> list B) (ks : list Z) :
  NoDup ks -> NoDup (flat_map f ks) ->
  forall j k x, j ∈ ks -> k ∈ ks -> j <> k -> x ∈ f j -> x ∈ f k -> False.
Proof.
  induction ks as [|a ks IH]; intros Nk Nf j k x Hj Hk Hjk Hxj Hxk; [inversion Hj|].
  cbn [flat_map] in Nf. apply NoDup_app in Nf as (_ & Hd & N2).
  apply NoDup_cons in Nk as [_ Nk].
  assert (Hin : forall i, i ∈ ks -> x ∈ f i -> x ∈ flat_map f ks).
  { intros i Hi Hx. apply list_elem_of_In, in_flat_map. exists i.
    split; now apply list_elem_of_In. }
  apply elem_of_cons in Hj as [->|Hj]; apply elem_of_cons in Hk as [->|Hk].
  - congruence.
  - apply (Hd x Hxj). now apply (Hin k).
  - apply (Hd x Hxk). now apply (Hin j).
  - now apply (IH Nk N2 j k x).
Qed.

Lemma selected_up_to (s : Z) (ks : list Z) :
  1 <= s -> filter (selected s) ks = filter (fun k => k <= s) ks.
Proof.
  intros Hs. apply list_filter_iff. intros k. unfold selected. lia.
Qed.

(** The stages beyond the requested depth: their histograms exist in
    memory but are not written, and their branches are neither switched
    on nor read. *)
Lemma later_stages disk argv inTree :
  NoDup (flat_map (stage_writes stage_decls) stages) ->
  reaches disk argv inTree ->
  let s := Libc.to_int (Libc.atol (arg argv 2)) in
  1 <= s ->
  later_stages_frame stage_branches stage_decls s (main disk argv).
Proof.
  intros Nd Hr s Hs. unfold later_stages_frame. set (run := main disk argv).
  fold (all_decls). change (fun k => map fName (stage_decls k)) with (stage_writes stage_decls).
  destruct (main_effects disk argv inTree Hr) as (Hreq & Hc & Hw & _).
  fold s in Hreq, Hw. fold run in Hreq, Hc, Hw.
  assert (Hsel : forall j, j ∈ selected_stages s -> j ∈ stages /\ j <= s).
  { intros j Hj. unfold selected_stages in Hj.
    apply list_elem_of_filter in Hj as [Hj1 Hj2]. split; [exact Hj2|].
    unfold selected in Hj1. lia. }
  assert (Nst : NoDup stages) by (apply (bool_decide_unpack _); vm_compute; exact I).
  split; [exact Hc|]. split; [|split].
  - intros k n Hk Hsk Hn. split.
    + rewrite Hc. now apply (stage_writes_declared k).
    + rewrite Hw. destruct (exit_status run); [|inversion 1].
      intros Hin. apply list_elem_of_In, in_flat_map in Hin.
      destruct Hin as (j & Hj & Hnj).
      apply list_elem_of_In in Hj, Hnj. destruct (Hsel j Hj) as [Hj1 Hj2].
      apply (disjoint_stages (stage_writes stage_decls) stages Nst Nd j k n); auto; lia.
  - intros k b Hk Hsk Hb Honly.
    destruct (reader run) as [r|] eqn:Er; [|discriminate].
    cbn in Hreq. injection Hreq as Hreq.
    assert (Hnot : b ∉ requested r).
    { rewrite Hreq. intros Hin. apply list_elem_of_In, in_flat_map in Hin.
      destruct Hin as (j & Hj & Hbj). apply list_elem_of_In in Hj, Hbj.
      destruct (Hsel j Hj) as [_ Hj2]. now apply (Honly j Hj2). }
    exists r. split; [reflexivity|]. split; [|exact Hnot].
    destruct (main_reaches disk argv inTree Hr) as (hs & out & fl & d & _ & Hmain).
    fold s in Hmain. unfold run in Er. rewrite Hmain in Er.
    assert (Hrd : r = wire_branches stage_branches s inTree).
    { destruct d; cbn [reader] in Er; injection Er as Er; now symmetry. }
    assert (G1 : gate s 1 = true) by (apply gate_selected; unfold selected; lia).
    destruct (wire_branches_spec stage_branches s inTree G1) as [Hreads _].
    destruct (reads r b) eqn:E; [|reflexivity]. exfalso.
    rewrite Hrd in E. apply Hreads in E as [(j & Hj1 & Hj2 & Hj3) _].
    apply gate_selected in Hj2. unfold selected in Hj2.
    apply (Honly j); [lia | exact Hj3].
  - rewrite Hw. unfold selected_stages. now rewrite selected_up_to.
Qed.

End Skeleton.

End RecoFacts.

(** ** jetRecoExp.cpp *)

Module JetRecoExpFacts.
Import Root Prog ProgFacts ReaderFacts RecoFacts JetRecoExp.

Lemma six_steps (s : Z) :
  0 <= s <= 5 -> s = 0 \/ s = 1 \/ s = 2 \/ s = 3 \/ s = 4 \/ s = 5.
Proof. lia. Qed.

Lemma event_body_blocks (s : Z) (v : Vars) :
  0 <= s <= 5 -> event_body s v = blocks stage_fill (selected_stages s) v.
Proof.
  intros Hs.
  destruct (six_steps s Hs) as [->|[->|[->|[->|[->| ->]]]]];
    unfold event_body; cbn [gate Z.eqb Z.geb Z.compare Pos.compare Pos.compare_cont orb when];
    unfold stage3_fill, stage4_fill, stage5_fill;
    rewrite ?bind_ret_tt; reflexivity.
Qed.



(** When the tree stores the branches of the selected stages, the two
    vectors stage 2 looks at have been read. *)
Lemma selected_branch_read (s : Z) (t : TTree Event) (k : Z) (n : string) :
  0 <= s <= 5 -> k ∈ stages -> gate s k = true -> n ∈ stage_branches k ->
  (forall b, b ∈ flat_map stage_branches (selected_stages s) -> b ∈ tBranches t) ->
  reads (wire_branches stage_branches s t) n = true.
Proof.
  intros Hs Hk Hg Hn Hall.
  assert (G1 : gate s 1 = true) by (apply gate_selected; unfold selected; lia).
  destruct (wire_branches_spec stage_branches s t G1) as [Hreads _].
  apply Hreads. split.
  - exists k. now repeat split.
  - apply Hall. apply list_elem_of_In, in_flat_map. exists k. split.
    + apply list_elem_of_In, list_elem_of_filter. split; [|exact Hk].
      now apply gate_selected.
    + now apply list_elem_of_In.
Qed.



End JetRecoExpFacts.

(** ** Sample inputs *)

Module Samples.
Import Root Prog.

(** One event: a truth jet (50 GeV, eta 0, phi 0, 5 GeV), a reco jet
    (45 GeV, eta 0.05, phi 0.05, 4 GeV), event weight 2. *)
Definition exp_event : JetRecoExp.Event :=
  JetRecoExp.mkEvent 20 10 2
    [45000%Q] [(5 # 100)%Q] [(5 # 100)%Q] [4000%Q]
    [50000%Q] [0%Q] [0%Q] [5000%Q]
    [1%Q] [] [] [] [].

Definition exp_branches : list string := flat_map JetRecoExp.stage_branches stages.

Definition exp_tree : TTree JetRecoExp.Event := mkTree exp_branches [exp_event].

Definition exp_disk : gmap string (gmap string (TTree JetRecoExp.Event)) :=
  {[ "in.root" := {[ "tree" := exp_tree ]} ]}.

Definition reco_argv (step : string) : list string :=
  ["reco"; "out.root"; step; "tree"; "in.root"].

(** One event of the large-radius pipeline: a leading ungroomed jet of
    500 GeV with a mass of 100 GeV, and no trimmed jet. *)
Definition groom_event : JetRecoGroom.Event :=
  JetRecoGroom.mkEvent 20 10 1 [500000%Q] [100000%Q] [] [] [] [] [] [].

(** The sample tree without one of its branches. *)
Definition exp_tree_without (b : string) : TTree JetRecoExp.Event :=
  mkTree (filter (fun n => n <> b) exp_branches) [exp_event].

Definition exp_disk_without (b : string)
    : gmap string (gmap string (TTree JetRecoExp.Event)) :=
  {[ "in.root" := {[ "tree" := exp_tree_without b ]} ]}.

(** The sample tree with another event weight. *)
Definition exp_tree_weight (w : Q) : TTree JetRecoExp.Event :=
  mkTree exp_branches [JetRecoExp.with_weight w exp_event].

Definition exp_disk_weight (w : Q)
    : gmap string (gmap string (TTree JetRecoExp.Event)) :=
  {[ "in.root" := {[ "tree" := exp_tree_weight w ]} ]}.

(** The histograms the reco program writes at step 0 on the sample
    tree, as they are and with one more entry in the middle of the x
    axis of each. *)
Definition reco_output : list TH1 :=
  written (JetRecoExp.main exp_disk (reco_argv "0")).

Definition fill_centre (h : TH1) : TH1 :=
  Fill (FillX ((fXmin (fXaxis h) + fXmax (fXaxis h)) / 2)%Q) h.

Definition hist_file (l : list TH1) : gmap string (gmap string TH1) :=
  {[ "hists.root" := declare l ]}.

Definition plots_argv (step : string) : list string :=
  ["plots"; "out.pdf"; step; "hists.root"].

Definition groom_branches : list string := flat_map JetRecoGroom.stage_branches stages.

Definition groom_tree : TTree JetRecoGroom.Event := mkTree groom_branches [groom_event].

Definition groom_disk : gmap string (gmap string (TTree JetRecoGroom.Event)) :=
  {[ "in.root" := {[ "tree" := groom_tree ]} ]}.

End Samples.

Module JetRecoExpWitness.
Import Root Prog JetRecoExp JetRecoExpFacts Samples.


End JetRecoExpWitness.

(** ** jetRecoGroom.cpp *)

Module JetRecoGroomFacts.
Import Root Prog ProgFacts ReaderFacts RecoFacts JetRecoGroom.

Section FastJet.
Context {PseudoJet : Type}.
Variable make_pseudojet : Q -> Q -> Q -> Q -> PseudoJet.
Variable akt10_jets : list PseudoJet -> list PseudoJet.
Variable trimmer : PseudoJet -> PseudoJet.
Variable pt : PseudoJet -> Q.

Local Abbreviation event_body := (event_body make_pseudojet akt10_jets trimmer pt).
Local Abbreviation stage_fill := (stage_fill make_pseudojet akt10_jets trimmer pt).

(** The nesting of the blocks of stages 3, 4 and 5 selects the same
    stages as five blocks in a row would. *)
Lemma groom_event_body_blocks (s : Z) (v : Vars) :
  0 <= s <= 5 -> event_body s v = blocks stage_fill (selected_stages s) v.
Proof.
  intros Hs.
  destruct (JetRecoExpFacts.six_steps s Hs) as [->|[->|[->|[->|[->| ->]]]]];
    unfold JetRecoGroom.event_body;
    cbn [gate Z.eqb Z.geb Z.compare Pos.compare Pos.compare_cont orb when];
    unfold stage4_fill, stage5_fill;
    rewrite ?bind_ret_tt; reflexivity.
Qed.

End FastJet.

End JetRecoGroomFacts.

(** ** Stages beyond the requested depth *)

Module LaterStages.
Import Root Prog ProgFacts RecoFacts Samples.

Lemma exp_names_distinct :
  NoDup (flat_map (stage_writes JetRecoExp.stage_decls) stages).
Proof. apply (bool_decide_unpack _). vm_compute. exact I. Qed.

Lemma groom_names_distinct :
  NoDup (flat_map (stage_writes JetRecoGroom.stage_decls) stages).
Proof. apply (bool_decide_unpack _). vm_compute. exact I. Qed.

(** C4, as the code has it.  For a step number [s] in 1..5 and a stage
    [k > s], in both reco programs: the histograms of stage [k] are
    constructed like all the others, but none of them is written; a branch
    that only stages beyond [s] name is neither switched on nor read; and
    a run that ends normally has written exactly the histograms of the
    stages 1..s. *)
Theorem later_stages_not_written :
  (forall disk argv inTree,
      reaches (Event := JetRecoExp.Event) disk argv inTree ->
      1 <= Libc.to_int (Libc.atol (arg argv 2)) ->
      later_stages_frame JetRecoExp.stage_branches JetRecoExp.stage_decls
        (Libc.to_int (Libc.atol (arg argv 2))) (JetRecoExp.main disk argv))
  /\ (forall (PseudoJet : Type) (make_pseudojet : Q -> Q -> Q -> Q -> PseudoJet)
        (akt10_jets : list PseudoJet -> list PseudoJet)
        (trimmer : PseudoJet -> PseudoJet) (pt : PseudoJet -> Q)
        disk argv inTree,
      reaches (Event := JetRecoGroom.Event) disk argv inTree ->
      1 <= Libc.to_int (Libc.atol (arg argv 2)) ->
      later_stages_frame JetRecoGroom.stage_branches JetRecoGroom.stage_decls
        (Libc.to_int (Libc.atol (arg argv 2)))
        (JetRecoGroom.main make_pseudojet akt10_jets trimmer pt disk argv)).
Proof.
  split.
  - intros disk argv inTree Hr Hs.
    now apply (later_stages JetRecoExp.vars0 JetRecoExp.stage_branches
                 JetRecoExp.GetEntry JetRecoExp.event_body JetRecoExp.stage_decls
                 disk argv inTree exp_names_distinct Hr).
  - intros PseudoJet make_pseudojet akt10_jets trimmer pt disk argv inTree Hr Hs.
    now apply (later_stages JetRecoGroom.vars0 JetRecoGroom.stage_branches
                 JetRecoGroom.GetEntry
                 (JetRecoGroom.event_body make_pseudojet akt10_jets trimmer pt)
                 JetRecoGroom.stage_decls disk argv inTree groom_names_distinct Hr).
Qed.

Lemma exp_sample_reaches (step : string) :
  0 <= Libc.to_int (Libc.atol step) <= 5 ->
  reaches exp_disk (reco_argv step) exp_tree.
Proof.
  intros Hs. split; [cbn; lia|]. split; [exact Hs|].
  exists {[ "tree" := exp_tree ]}. split; vm_compute; reflexivity.
Qed.

(** The claim as written fails: at step 1 the histograms of stage 5 are
    constructed, although stage 5 is not selected. *)
Lemma later_stage_histograms_created :
  let run := JetRecoExp.main exp_disk (reco_argv "1") in
  exit_status run = Exit 0
  /\ Libc.to_int (Libc.atol "1") = 1
  /\ new1 TH1F "Step5_DRtruth_reco" 10 0 1 ∈ JetRecoExp.stage_decls 5
  /\ new1 TH1F "Step5_DRtruth_reco" 10 0 1 ∈ created run.
Proof.
  cbn zeta. split; [vm_compute; reflexivity|]. split; [vm_compute; reflexivity|].
  split; apply (bool_decide_unpack _); vm_compute; exact I.
Qed.

Lemma later_stages_not_written_witness :
  reaches exp_disk (reco_argv "2") exp_tree
  /\ 1 <= Libc.to_int (Libc.atol (arg (reco_argv "2") 2))
  /\ later_stages_frame JetRecoExp.stage_branches JetRecoExp.stage_decls
       (Libc.to_int (Libc.atol (arg (reco_argv "2") 2)))
       (JetRecoExp.main exp_disk (reco_argv "2")).
Proof.
  assert (Hr : reaches exp_disk (reco_argv "2") exp_tree)
    by (apply exp_sample_reaches; vm_compute; split; discriminate).
  assert (Hs : 1 <= Libc.to_int (Libc.atol (arg (reco_argv "2") 2)))
    by (vm_compute; discriminate).
  split; [exact Hr|]. split; [exact Hs|].
  exact (proj1 later_stages_not_written exp_disk (reco_argv "2") exp_tree Hr Hs).
Defined.

End LaterStages.

(** ** The end-to-end scenario at step 5 *)

Module Scenario.
Import Root Prog ProgFacts RecoFacts JetRecoExp Samples.




End Scenario.

(** ** Which histograms a computation fills *)

Module FillFacts.
Import Root Prog ProgFacts.

Lemma not_named_no_fill (l : list fill) (h : string) :
  h ∉ map fst l -> fills_to h l = [].
Proof.
  induction l as [|f l IH]; intros Hn; [reflexivity|].
  unfold fills_to in *. rewrite filter_cons.
  destruct (decide (fst f = h)) as [E|E].
  - exfalso. apply Hn. cbn. rewrite E. left.
  - apply IH. intros Hin. apply Hn. now right.
Qed.

Lemma nodup_fills_once (l : list fill) (h : string) :
  NoDup (map fst l) -> (length (fills_to h l) <= 1)%nat.
Proof.
  induction l as [|f l IH]; intros Hn; [cbn; lia|].
  cbn in Hn. apply NoDup_cons in Hn as [H1 H2].
  unfold fills_to in *. rewrite filter_cons.
  destruct (decide (fst f = h)) as [E|E]; [|now apply IH].
  subst h. pose proof (not_named_no_fill l (fst f) H1) as Hz.
  unfold fills_to in Hz. rewrite Hz. cbn. lia.
Qed.

Lemma names_bind {A B} (m : W A) (f : A -> W B) (la lb : list string) :
  names m `sublist_of` la -> (forall a, names (f a) `sublist_of` lb) ->
  names (bind m f) `sublist_of` la ++ lb.
Proof.
  intros Ha Hb. unfold names in *. rewrite log_bind.
  destruct (snd m) as [e|a].
  - now apply sublist_inserts_r.
  - rewrite map_app. apply sublist_app; [exact Ha | apply Hb].
Qed.

Lemma names_when (b : bool) (m : W unit) (l : list string) :
  names m `sublist_of` l -> names (when b m) `sublist_of` l.
Proof. destruct b; [trivial|]. intros _. apply sublist_nil_l. Qed.

Lemma names_emit (h : string) (a : FillArgs) : names (emit h a) `sublist_of` [h].
Proof. reflexivity. Qed.

Lemma names_ret {A} (a : A) : names (ret a) `sublist_of` [].
Proof. reflexivity. Qed.

Lemma names_throw {A} (e : fault) : names (@throw A e) `sublist_of` [].
Proof. reflexivity. Qed.

Lemma names_size (p : vec) : names (size p) `sublist_of` [].
Proof. destruct p; reflexivity. Qed.

Lemma names_at (p : vec) (i : nat) : names (at_ p i) `sublist_of` [].
Proof. destruct p as [l|]; [|reflexivity]. cbn. destruct (l !! i); reflexivity. Qed.

(** Follows the shape of a computation and collects the histograms it
    may fill, in order. *)
Ltac collect_names :=
  lazymatch goal with
  | |- names (bind _ _) `sublist_of` _ =>
      eapply names_bind; [collect_names | intros ?; collect_names]
  | |- names (when _ _) `sublist_of` _ => apply names_when; collect_names
  | |- names (emit _ _) `sublist_of` _ => apply names_emit
  | |- names (ret _) `sublist_of` _ => apply names_ret
  | |- names (throw _) `sublist_of` _ => apply names_throw
  | |- names (size _) `sublist_of` _ => apply names_size
  | |- names (at_ _ _) `sublist_of` _ => apply names_at
  end.

Ltac solve_sublist :=
  cbn [app];
  repeat first [ apply sublist_nil_l | apply sublist_skip | apply sublist_cons ].

Ltac names_within :=
  unfold mbind, W_bind, mret, W_ret;
  etransitivity; [collect_names | solve_sublist].

Lemma fills_once {A} (m : W A) (all : list string) (h : string) :
  names m `sublist_of` all -> NoDup all -> (length (fills_to h (log m)) <= 1)%nat.
Proof.
  intros Hs Hn. apply nodup_fills_once. eapply sublist_NoDup; eassumption.
Qed.

Lemma no_fill_outside {A} (m : W A) (all : list string) (h : string) :
  names m `sublist_of` all -> h ∉ all -> fills_to h (log m) = [].
Proof.
  intros Hs Hn. apply not_named_no_fill. intros Hin. apply Hn.
  eapply elem_of_sublist; eassumption.
Qed.

End FillFacts.

(** ** A property of every fill a computation makes *)

Module Always.
Import Root Prog ProgFacts.

Definition always {A} (P : fill -> Prop) (m : W A) : Prop := Forall P (log m).

Lemma always_bind {A B} (P : fill -> Prop) (m : W A) (f : A -> W B) :
  always P m -> (forall a, snd m = inr a -> always P (f a)) -> always P (bind m f).
Proof.
  unfold always. intros Hm Hf. rewrite log_bind.
  destruct (snd m) as [e|a]; [exact Hm|].
  apply Forall_app. split; [exact Hm | now apply Hf].
Qed.

Lemma always_when (P : fill -> Prop) (b : bool) (m : W unit) :
  (b = true -> always P m) -> always P (when b m).
Proof. destruct b; intros H; [now apply H | constructor]. Qed.

Lemma always_emit (P : fill -> Prop) (h : string) (a : FillArgs) :
  P (h, a) -> always P (emit h a).
Proof. intros H. repeat constructor. exact H. Qed.

Lemma always_ret {A} (P : fill -> Prop) (a : A) : always P (ret a).
Proof. constructor. Qed.

Lemma always_size (P : fill -> Prop) (p : vec) : always P (size p).
Proof. destruct p; constructor. Qed.

Lemma always_at (P : fill -> Prop) (p : vec) (i : nat) : always P (at_ p i).
Proof.
  destruct p as [l|]; [|constructor]. unfold at_. destruct (l !! i); constructor.
Qed.

Lemma size_inv (p : vec) (n : nat) :
  snd (size p) = inr n -> exists l, p = Some l /\ n = length l.
Proof. destruct p as [l|]; cbn; [|discriminate]. intros [= <-]. eauto. Qed.

Lemma at_inv (p : vec) (i : nat) (x : Q) :
  snd (at_ p i) = inr x -> exists l, p = Some l /\ l !! i = Some x.
Proof.
  destruct p as [l|]; cbn; [|discriminate].
  destruct (l !! i) eqn:E; cbn; [|discriminate]. intros [= <-]. eauto.
Qed.

Lemma guard_nonempty (l : list Q) : negb (length l =? 0)%nat = true -> l <> [].
Proof. destruct l; [discriminate | discriminate]. Qed.

Lemma always_no_fill {A} (m : W A) (h : string) :
  always (fun f => fst f <> h) m -> fills_to h (log m) = [].
Proof.
  unfold always. intros H. apply FillFacts.not_named_no_fill.
  intros Hin. apply list_elem_of_In, in_map_iff in Hin. destruct Hin as [f [E Hf]].
  rewrite Forall_forall in H. apply (H f); [now apply list_elem_of_In | exact E].
Qed.

(** One step along the shape of a computation; what a [size] or an [at_]
    returned is recorded among the hypotheses. *)
Ltac always_step :=
  lazymatch goal with
  | |- always _ (bind (size ?p) _) =>
      apply always_bind; [apply always_size|];
      let n := fresh "n" in let Hn := fresh "Hn" in let l := fresh "l" in
      let Hp := fresh "Hp" in
      intros n Hn; apply size_inv in Hn as (l & Hp & ->)
  | |- always _ (bind (at_ ?p ?i) _) =>
      apply always_bind; [apply always_at|];
      let x := fresh "x" in let Hx := fresh "Hx" in let l := fresh "l" in
      let Hp := fresh "Hp" in let Hl := fresh "Hl" in
      intros x Hx; apply at_inv in Hx as (l & Hp & Hl)
  | |- always _ (bind (ret _) _) => apply always_bind; [apply always_ret | intros ? _]
  | |- always _ (bind (when _ _) _) => apply always_bind; [|intros [] _]
  | |- always _ (bind (emit _ _) _) => apply always_bind; [|intros [] _]
  | |- always _ (bind _ _) => apply always_bind; [|intros ? _]
  | |- always _ (when _ _) =>
      let Hg := fresh "Hg" in apply always_when; intros Hg
  | |- always _ (ret _) => apply always_ret
  | |- always _ (size _) => apply always_size
  | |- always _ (at_ _ _) => apply always_at
  end.

End Always.

(** ** Leading-jet fills: once per histogram, never from an empty collection *)

Module LeadingFills.
Import Root Prog ProgFacts FillFacts Always.

Ltac emit_leaf :=
  apply always_emit; cbn [fst];
  first [ discriminate | (intros _; exfalso; simplify_eq/=; fail) ].

Ltac always_auto :=
  unfold mbind, W_bind, mret, W_ret;
  repeat first [ always_step
               | lazymatch goal with |- always _ (emit _ _) => emit_leaf end ].

(** *** jetRecoExp.cpp *)

Lemma exp_names (s : Z) (v : JetRecoExp.Vars) :
  names (JetRecoExp.event_body s v)
  `sublist_of` [ JetRecoExp.hist_mu; JetRecoExp.hist_npv; JetRecoExp.hist_mu_npv;
                 JetRecoExp.hist_reco_pt_nw; JetRecoExp.hist_reco_pt;
                 JetRecoExp.hist_truth_pt_nw; JetRecoExp.hist_truth_pt ].
Proof.
  unfold JetRecoExp.event_body, JetRecoExp.stage1_fill, JetRecoExp.stage2_fill,
    JetRecoExp.stage3_fill, JetRecoExp.stage4_fill, JetRecoExp.stage5_fill.
  names_within.
Qed.

Lemma exp_once (s : Z) (v : JetRecoExp.Vars) (h : string) :
  (length (fills_to h (log (JetRecoExp.event_body s v))) <= 1)%nat.
Proof.
  eapply fills_once; [apply exp_names|].
  apply (bool_decide_unpack _). vm_compute. exact I.
Qed.

Lemma exp_skip_empty (s : Z) (v : JetRecoExp.Vars) (h : string) (ps : list vec) (p : vec) :
  (h, ps) ∈ JetRecoExp.leading_jet_sources v -> p ∈ ps -> p = Some [] ->
  fills_to h (log (JetRecoExp.event_body s v)) = [].
Proof.
  intros Hh Hp He. apply always_no_fill.
  unfold JetRecoExp.leading_jet_sources in Hh.
  repeat (apply elem_of_cons in Hh as [[= -> ->]|Hh]);
    [ .. | inversion Hh ];
    apply list_elem_of_singleton in Hp; subst p;
    unfold JetRecoExp.event_body, JetRecoExp.stage1_fill, JetRecoExp.stage2_fill,
      JetRecoExp.stage3_fill, JetRecoExp.stage4_fill, JetRecoExp.stage5_fill;
    always_auto.
Qed.

(** *** jetRecoGroom.cpp *)

Section FastJet.
Context {PseudoJet : Type}.
Variable make_pseudojet : Q -> Q -> Q -> Q -> PseudoJet.
Variable akt10_jets : list PseudoJet -> list PseudoJet.
Variable trimmer : PseudoJet -> PseudoJet.
Variable pt : PseudoJet -> Q.

Local Abbreviation event_body :=
  (JetRecoGroom.event_body make_pseudojet akt10_jets trimmer pt).
Local Abbreviation convert_clusters := (JetRecoGroom.convert_clusters make_pseudojet).

Lemma convert_clusters_always (P : fill -> Prop) (todo iClus : nat)
    (v : JetRecoGroom.Vars) (clusters : list PseudoJet) :
  always P (convert_clusters todo iClus v clusters).
Proof.
  revert iClus clusters. induction todo as [|todo IH]; intros iClus clusters;
    [apply always_ret|].
  cbn [JetRecoGroom.convert_clusters]. unfold mbind, W_bind.
  repeat always_step. apply IH.
Qed.

Lemma convert_clusters_log (todo iClus : nat) (v : JetRecoGroom.Vars)
    (clusters : list PseudoJet) :
  log (convert_clusters todo iClus v clusters) = [].
Proof.
  pose proof (convert_clusters_always (fun _ => False) todo iClus v clusters) as H.
  unfold always in H. destruct (log _) as [|f l]; [reflexivity|].
  now apply Forall_cons in H as [[] _].
Qed.

Lemma groom_names (s : Z) (v : JetRecoGroom.Vars) :
  names (event_body s v)
  `sublist_of` [ JetRecoGroom.hist_mu; JetRecoGroom.hist_npv;
                 JetRecoGroom.hist_ungroom_pt_nw; JetRecoGroom.hist_ungroom_pt;
                 JetRecoGroom.hist_trimmed_pt; JetRecoGroom.hist_ungroom_m;
                 JetRecoGroom.hist_trimmed_m;
                 JetRecoGroom.hist_myungroom_pt_nw; JetRecoGroom.hist_myungroom_pt;
                 JetRecoGroom.hist_mytrimmed_pt_nw; JetRecoGroom.hist_mytrimmed_pt ].
Proof.
  assert (H3 : names (JetRecoGroom.stage3_fill make_pseudojet akt10_jets trimmer pt v)
               `sublist_of` JetRecoGroom.rebuilt_jet_hists).
  { unfold JetRecoGroom.stage3_fill, mbind, W_bind, mret, W_ret.
    etransitivity.
    - eapply names_bind; [apply names_size | intros ?].
      eapply names_bind; [apply names_size | intros n].
      eapply names_bind; [unfold names; rewrite convert_clusters_log; reflexivity|].
      intros clusters. destruct (akt10_jets clusters).
      + instantiate (1 := JetRecoGroom.rebuilt_jet_hists). apply sublist_nil_l.
      + reflexivity.
    - solve_sublist. }
  unfold JetRecoGroom.event_body, JetRecoGroom.stage1_fill, JetRecoGroom.stage2_fill,
    JetRecoGroom.stage4_fill, JetRecoGroom.stage5_fill.
  unfold mbind, W_bind, mret, W_ret in *.
  etransitivity.
  - eapply names_bind; [collect_names | intros ?].
    eapply names_bind; [collect_names | intros ?].
    apply names_when. eapply names_bind; [exact H3 | intros ?]. collect_names.
  - unfold JetRecoGroom.rebuilt_jet_hists. solve_sublist.
Qed.

Lemma groom_once (s : Z) (v : JetRecoGroom.Vars) (h : string) :
  (length (fills_to h (log (event_body s v))) <= 1)%nat.
Proof.
  eapply fills_once; [apply groom_names|].
  apply (bool_decide_unpack _). vm_compute. exact I.
Qed.

Lemma stage3_always (P : fill -> Prop) (v : JetRecoGroom.Vars) :
  (forall f, fst f ∈ JetRecoGroom.rebuilt_jet_hists ->
             JetRecoGroom.rebuilt_jets make_pseudojet akt10_jets v <> Some [] -> P f) ->
  always P (JetRecoGroom.stage3_fill make_pseudojet akt10_jets trimmer pt v).
Proof.
  intros HP. unfold JetRecoGroom.stage3_fill, mbind, W_bind, mret, W_ret.
  always_step. always_step.
  apply always_bind; [apply convert_clusters_always|]. intros clusters Hc.
  assert (Hr : JetRecoGroom.rebuilt_jets make_pseudojet akt10_jets v
               = Some (akt10_jets clusters)).
  { unfold JetRecoGroom.rebuilt_jets, mbind, W_bind. rewrite Hp.
    change (size (Some l)) with (ret (length l)). rewrite bind_ret_l.
    assert (l0 = l) by congruence. subst l0. now rewrite Hc. }
  destruct (akt10_jets clusters) as [|ungroomed jets] eqn:E; [apply always_ret|].
  assert (Hne : JetRecoGroom.rebuilt_jets make_pseudojet akt10_jets v <> Some [])
    by (rewrite Hr; discriminate).
  repeat (apply always_bind; [|intros [] _]);
    apply always_emit; apply HP; try exact Hne; cbn [fst];
    unfold JetRecoGroom.rebuilt_jet_hists;
    repeat first [ apply list_elem_of_here | apply list_elem_of_further ].
Qed.

Lemma groom_skip_empty (s : Z) (v : JetRecoGroom.Vars) (h : string)
    (ps : list vec) (p : vec) :
  (h, ps) ∈ JetRecoGroom.leading_jet_sources v -> p ∈ ps -> p = Some [] ->
  fills_to h (log (event_body s v)) = [].
Proof.
  intros Hh Hp He. apply always_no_fill.
  assert (H3 : always (fun f => fst f <> h)
                 (JetRecoGroom.stage3_fill make_pseudojet akt10_jets trimmer pt v)).
  { apply stage3_always. intros f Hf _ <-.
    unfold JetRecoGroom.leading_jet_sources in Hh.
    unfold JetRecoGroom.rebuilt_jet_hists in Hf.
    repeat (apply elem_of_cons in Hh as [[= E _]|Hh]; [rewrite E in Hf; revert Hf;
              apply (bool_decide_eq_false_1 _); vm_compute; reflexivity|]).
    inversion Hh. }
  unfold JetRecoGroom.leading_jet_sources in Hh.
  repeat (apply elem_of_cons in Hh as [[= -> ->]|Hh]);
    [ .. | inversion Hh ];
    repeat (apply elem_of_cons in Hp as [->|Hp]); try (now inversion Hp);
    unfold JetRecoGroom.event_body, JetRecoGroom.stage1_fill, JetRecoGroom.stage2_fill,
      JetRecoGroom.stage4_fill, JetRecoGroom.stage5_fill;
    unfold mbind, W_bind, mret, W_ret in *;
    repeat first [ always_step
                 | lazymatch goal with
                   | |- always _ (emit _ _) => emit_leaf
                   | |- always _ (JetRecoGroom.stage3_fill _ _ _ _ _) => exact H3
                   end ].
Qed.

Lemma groom_skip_no_rebuilt (s : Z) (v : JetRecoGroom.Vars) (h : string) :
  h ∈ JetRecoGroom.rebuilt_jet_hists ->
  JetRecoGroom.rebuilt_jets make_pseudojet akt10_jets v = Some [] ->
  fills_to h (log (event_body s v)) = [].
Proof.
  intros Hh He. apply always_no_fill.
  assert (H3 : always (fun f => fst f <> h)
                 (JetRecoGroom.stage3_fill make_pseudojet akt10_jets trimmer pt v)).
  { apply stage3_always. intros f _ Hne. contradiction. }
  unfold JetRecoGroom.rebuilt_jet_hists in Hh.
  repeat (apply elem_of_cons in Hh as [->|Hh]); [ .. | inversion Hh ];
    unfold JetRecoGroom.event_body, JetRecoGroom.stage1_fill, JetRecoGroom.stage2_fill,
      JetRecoGroom.stage4_fill, JetRecoGroom.stage5_fill;
    unfold mbind, W_bind, mret, W_ret in *;
    repeat first [ always_step
                 | lazymatch goal with
                   | |- always _ (emit _ _) => emit_leaf
                   | |- always _ (JetRecoGroom.stage3_fill _ _ _ _ _) => exact H3
                   end ].
Qed.

End FastJet.

(** C3. In both reco programs no histogram is filled more than once while
    one event is processed, whatever the step number and the event; a
    leading-jet histogram receives no fill when a vector of the collection
    it is filled from is empty, and the histograms of the rebuilt jets
    receive none when no jet was rebuilt.  (When one collection is empty
    and a fill from it is not guarded, the event is not completed: the
    [at(0)] raises and nothing is filled from it.) *)
Theorem leading_fills_once_never_from_empty :
  (forall (s : Z) (v : JetRecoExp.Vars) (h : string),
      (length (fills_to h (log (JetRecoExp.event_body s v))) <= 1)%nat)
  /\ (forall (s : Z) (v : JetRecoExp.Vars) (h : string) (ps : list vec) (p : vec),
        (h, ps) ∈ JetRecoExp.leading_jet_sources v -> p ∈ ps -> p = Some [] ->
        fills_to h (log (JetRecoExp.event_body s v)) = [])
  /\ (forall (PseudoJet : Type) (make_pseudojet : Q -> Q -> Q -> Q -> PseudoJet)
        (akt10_jets : list PseudoJet -> list PseudoJet)
        (trimmer : PseudoJet -> PseudoJet) (pt : PseudoJet -> Q)
        (s : Z) (v : JetRecoGroom.Vars) (h : string),
        let body := JetRecoGroom.event_body make_pseudojet akt10_jets trimmer pt s v in
        (length (fills_to h (log body)) <= 1)%nat
        /\ (forall (ps : list vec) (p : vec),
              (h, ps) ∈ JetRecoGroom.leading_jet_sources v -> p ∈ ps -> p = Some [] ->
              fills_to h (log body) = [])
        /\ (h ∈ JetRecoGroom.rebuilt_jet_hists ->
            JetRecoGroom.rebuilt_jets make_pseudojet akt10_jets v = Some [] ->
            fills_to h (log body) = [])).
Proof.
  split; [exact exp_once|]. split; [exact exp_skip_empty|].
  intros PseudoJet make_pseudojet akt10_jets trimmer pt s v h body. subst body.
  split; [apply groom_once|]. split.
  - apply groom_skip_empty.
  - apply groom_skip_no_rebuilt.
Qed.

(** An event without reco jets and with one truth jet, at step 2. *)
Lemma leading_fills_once_never_from_empty_witness :
  let v := JetRecoExp.mkVars 20 10 2 (Some []) (Some []) (Some []) (Some [])
             (Some [50000%Q]) (Some [0%Q]) (Some [0%Q]) (Some [5000%Q])
             None None None None None in
  (JetRecoExp.hist_reco_pt, [JetRecoExp.RecoJet_pt v]) ∈ JetRecoExp.leading_jet_sources v
  /\ JetRecoExp.RecoJet_pt v ∈ [JetRecoExp.RecoJet_pt v]
  /\ JetRecoExp.RecoJet_pt v = Some []
  /\ fills_to JetRecoExp.hist_reco_pt (log (JetRecoExp.event_body 2 v)) = []
  /\ fills_to JetRecoExp.hist_truth_pt (log (JetRecoExp.event_body 2 v))
     = [(JetRecoExp.hist_truth_pt, FillXW 50000 2)].
Proof.
  intros v.
  assert (H1 : (JetRecoExp.hist_reco_pt, [JetRecoExp.RecoJet_pt v])
               ∈ JetRecoExp.leading_jet_sources v)
    by (apply list_elem_of_further, list_elem_of_here).
  assert (H2 : JetRecoExp.RecoJet_pt v ∈ [JetRecoExp.RecoJet_pt v])
    by apply list_elem_of_here.
  assert (H3 : JetRecoExp.RecoJet_pt v = Some []) by reflexivity.
  split; [exact H1|]. split; [exact H2|]. split; [exact H3|]. split.
  - exact (proj1 (proj2 leading_fills_once_never_from_empty) 2 v _ _ _ H1 H2 H3).
  - vm_compute. reflexivity.
Defined.

End LeadingFills.

(** ** The 400 GeV floor of the mass histograms (jetRecoGroom.cpp, stage 2) *)

Module MassFloor.
Import Root Prog ProgFacts JetRecoGroom Samples.

Lemma Qltb_lt (x y : Q) : Qltb x y = true <-> (x < y)%Q.
Proof.
  unfold Qltb. rewrite negb_true_iff. split.
  - intros H. apply Qnot_le_lt. intros Hle. apply Qle_bool_iff in Hle. congruence.
  - intros H. destruct (Qle_bool y x) eqn:E; [|reflexivity].
    apply Qle_bool_iff in E. exfalso. now apply (Qlt_not_le x y).
Qed.

(** When the event has a leading ungroomed and a leading trimmed jet, each
    with its mass, the block of stage 2 completes; the two mass fills sit
    behind a strict comparison with 400e3. *)
Lemma stage2_with_leading_jets (v : Vars) (p q m tm : Q) (ps qs ms tms : list Q) :
  jet_R10_ungroom_pt v = Some (p :: ps) ->
  jet_R10_trimmed_pt v = Some (q :: qs) ->
  jet_R10_ungroom_m v = Some (m :: ms) ->
  jet_R10_trimmed_m v = Some (tm :: tms) ->
  stage2_fill v
  = ([ (hist_ungroom_pt_nw, FillX p); (hist_ungroom_pt, FillXW p (EventWeight v));
       (hist_trimmed_pt, FillXW q (EventWeight v)) ]
     ++ (if Qltb 400000 p then [(hist_ungroom_m, FillXW m (EventWeight v))] else [])
     ++ (if Qltb 400000 q then [(hist_trimmed_m, FillXW tm (EventWeight v))] else []),
     inr tt).
Proof.
  intros H1 H2 H3 H4. unfold stage2_fill. rewrite H1, H2, H3, H4.
  cbn. destruct (Qltb 400000 p), (Qltb 400000 q); reflexivity.
Qed.

Lemma mass_fill_iff_above_floor (v : Vars) (p q m tm : Q) (ps qs ms tms : list Q) :
  jet_R10_ungroom_pt v = Some (p :: ps) ->
  jet_R10_trimmed_pt v = Some (q :: qs) ->
  jet_R10_ungroom_m v = Some (m :: ms) ->
  jet_R10_trimmed_m v = Some (tm :: tms) ->
  (fills_to hist_ungroom_m (log (stage2_fill v))
   = if Qltb 400000 p then [(hist_ungroom_m, FillXW m (EventWeight v))] else [])
  /\ (fills_to hist_trimmed_m (log (stage2_fill v))
      = if Qltb 400000 q then [(hist_trimmed_m, FillXW tm (EventWeight v))] else [])
  /\ (Qltb 400000 p = true <-> (400000 < p)%Q)
  /\ (Qltb 400000 q = true <-> (400000 < q)%Q)
  /\ Qltb 400000 400000 = false.
Proof.
  intros H1 H2 H3 H4.
  rewrite (stage2_with_leading_jets v p q m tm ps qs ms tms H1 H2 H3 H4).
  split; [|split; [|split; [apply Qltb_lt | split; [apply Qltb_lt | reflexivity]]]];
    destruct (Qltb 400000 p), (Qltb 400000 q); reflexivity.
Qed.

(** C6 at an event with a leading ungroomed jet above the floor and no
    trimmed jet: the read of the leading trimmed jet, which is guarded by
    the size of the ungroomed collection only, raises before the mass
    fills are reached.  The ungroomed mass histogram receives nothing and
    the run ends abnormally with nothing written. *)
Theorem ungroomed_mass_lost_without_trimmed_jet
    (PseudoJet : Type) (make_pseudojet : Q -> Q -> Q -> Q -> PseudoJet)
    (akt10_jets : list PseudoJet -> list PseudoJet)
    (trimmer : PseudoJet -> PseudoJet) (pt : PseudoJet -> Q) :
  let v := GetEntry (wire_branches stage_branches 2 groom_tree) groom_event vars0 in
  let run := main make_pseudojet akt10_jets trimmer pt groom_disk (reco_argv "2") in
  jet_R10_ungroom_pt v = Some [500000%Q]
  /\ Qltb 400000 500000 = true
  /\ stage2_fill v
     = ([ (hist_ungroom_pt_nw, FillX 500000); (hist_ungroom_pt, FillXW 500000 1) ],
        inl OutOfRange)
  /\ fills_to hist_ungroom_m (log (stage2_fill v)) = []
  /\ exit_status run = Abort OutOfRange
  /\ written run = [].
Proof.
  cbn zeta. repeat split; vm_compute; reflexivity.
Qed.

End MassFloor.

(** ** The event weight does not reach the unweighted histograms *)

Module Noninterference.
Import Root Prog ProgFacts RecoFacts Always.

(** Two computations that differ in the weights of their fills only. *)
Definition sim {A} (m1 m2 : W A) : Prop :=
  map erase_weight (log m1) = map erase_weight (log m2) /\ snd m1 = snd m2.

(** A fill of an unweighted histogram carries no weight. *)
Definition plain (f : fill) : Prop :=
  unweighted (fst f) = true -> erase_weight f = f.

(** The fills of a computation that carry a weight carry the weight [w]. *)
Definition weighted_by (w : Q) (f : fill) : Prop :=
  forall x w', snd f = FillXW x w' -> w' = w.

Lemma sim_refl {A} (m : W A) : sim m m.
Proof. split; reflexivity. Qed.

Lemma sim_bind {A B} (m1 m2 : W A) (f1 f2 : A -> W B) :
  sim m1 m2 -> (forall a, sim (f1 a) (f2 a)) -> sim (bind m1 f1) (bind m2 f2).
Proof.
  intros [Hl Hs] Hf. unfold sim. rewrite !log_bind.
  destruct m1 as [l1 r1], m2 as [l2 r2]. cbn in *. subst r2.
  destruct r1 as [e|a]; cbn; [now split|].
  destruct (Hf a) as [Hl' Hs'].
  destruct (f1 a) as [k1 q1], (f2 a) as [k2 q2]. cbn in *.
  rewrite !map_app, Hl, Hl'. now split.
Qed.

Lemma sim_when (b : bool) (m1 m2 : W unit) : sim m1 m2 -> sim (when b m1) (when b m2).
Proof. destruct b; [trivial | intros _; apply sim_refl]. Qed.

Lemma sim_emit (h : string) (x w1 w2 : Q) :
  sim (emit h (FillXW x w1)) (emit h (FillXW x w2)).
Proof. split; reflexivity. Qed.

Lemma erase_weight_fst (f : fill) : fst (erase_weight f) = fst f.
Proof. destruct f as [h [x|x w|x y]]; reflexivity. Qed.

Lemma sim_fills_to (l1 l2 : list fill) (n : string) :
  map erase_weight l1 = map erase_weight l2 ->
  Forall plain l1 -> Forall plain l2 -> unweighted n = true ->
  fills_to n l1 = fills_to n l2.
Proof.
  revert l2. induction l1 as [|f1 l1 IH]; intros [|f2 l2] He H1 H2 Hn;
    try discriminate; [reflexivity|].
  cbn in He. injection He as Hf Hl.
  apply Forall_cons in H1 as [P1 H1]. apply Forall_cons in H2 as [P2 H2].
  unfold fills_to in *. rewrite !filter_cons.
  assert (Hfst : fst f1 = fst f2)
    by (rewrite <- (erase_weight_fst f1), <- (erase_weight_fst f2); now rewrite Hf).
  destruct (decide (fst f1 = n)) as [E1|E1], (decide (fst f2 = n)) as [E2|E2];
    try congruence.
  - f_equal; [|now apply IH].
    rewrite <- (P1 ltac:(now rewrite E1)), <- (P2 ltac:(now rewrite E2)). exact Hf.
  - now apply IH.
Qed.

Lemma apply_fills_lookup (hs : gmap string TH1) (l : list fill) (n : string) :
  apply_fills hs l !! n
  = (fun h0 => foldl (fun h f => Fill (snd f) h) h0 (fills_to n l)) <$> hs !! n.
Proof.
  revert hs. induction l as [|f l IH]; intros hs.
  - cbn. now destruct (hs !! n).
  - change (apply_fills hs (f :: l)) with (apply_fills (apply_fill hs f) l).
    rewrite IH, apply_fill_lookup. unfold fills_to. rewrite filter_cons.
    destruct (decide (fst f = n)); [|reflexivity].
    now destruct (hs !! n).
Qed.

(** The unweighted histograms of two sets of histograms coincide. *)
Definition agree (hs1 hs2 : gmap string TH1) : Prop :=
  forall n, unweighted n = true -> hs1 !! n = hs2 !! n.

Lemma find_written (s : Z) (stage_decls : Z -> list TH1) (hs : gmap string TH1)
    (ks : list Z) (n : string) :
  well_named hs ->
  (forall k m, k ∈ ks -> m ∈ stage_writes stage_decls k -> is_Some (hs !! m)) ->
  find_hist n (flat_map (write_stage stage_decls s hs) ks)
  = if bool_decide (n ∈ flat_map (fun k => if gate s k
                                        then stage_writes stage_decls k else []) ks)
    then hs !! n else None.
Proof.
  intros Hn Hs. induction ks as [|k ks IH].
  - cbn. now rewrite bool_decide_eq_false_2 by inversion 1.
  - cbn [flat_map]. unfold find_hist in *.
    assert (IH' := IH (fun k0 m Hk0 Hm => Hs k0 m (list_elem_of_further _ _ _ Hk0) Hm)).
    clear IH.
    unfold write_stage at 1. destruct (gate s k); [|exact IH'].
    assert (Hk : forall m, m ∈ stage_writes stage_decls k -> is_Some (hs !! m))
      by (intros; eapply Hs; [left | eassumption]).
    set (rest := flat_map (fun k0 => if gate s k0 then stage_writes stage_decls k0 else []) ks) in *.
    set (R := flat_map (write_stage stage_decls s hs) ks) in *.
    clearbody rest R.
    induction (stage_writes stage_decls k) as [|m names IHn]; [exact IH'|].
    cbn [omap list_omap app]. destruct (Hk m) as [h Hh]; [left|]. rewrite Hh.
    cbn [find app].
    rewrite (Hn _ _ Hh).
    destruct (String.eqb m n) eqn:E.
    + apply String.eqb_eq in E. subst m.
      rewrite bool_decide_eq_true_2 by left. now rewrite Hh.
    + apply String.eqb_neq in E.
      rewrite IHn by (intros; apply Hk; now right).
      destruct (bool_decide (n ∈ names ++ rest)) eqn:B.
      * apply bool_decide_eq_true in B.
        now rewrite bool_decide_eq_true_2 by (now right).
      * apply bool_decide_eq_false in B.
        rewrite bool_decide_eq_false_2; [reflexivity|].
        intros Hin. apply elem_of_cons in Hin as [->|Hin]; [congruence | contradiction].
Qed.

Section TwoRuns.
Context {Event Vars : Type}.
Variable vars0 : Vars.
Variable stage_branches : Z -> list string.
Variable GetEntry : Reader -> Event -> Vars -> Vars.
Variable event_body : Z -> Vars -> W unit.
Variable stage_decls : Z -> list TH1.
Variable RE : Event -> Event -> Prop.
Variable RV : Vars -> Vars -> Prop.
Hypothesis RV_init : RV vars0 vars0.
Hypothesis RV_get : forall r e1 e2 v1 v2,
  RE e1 e2 -> RV v1 v2 -> RV (GetEntry r e1 v1) (GetEntry r e2 v2).
Hypothesis body_sim : forall s v1 v2, RV v1 v2 -> sim (event_body s v1) (event_body s v2).
Hypothesis body_plain : forall s v, always plain (event_body s v).

Local Abbreviation main :=
  (Prog.main vars0 stage_branches GetEntry event_body stage_decls).
Local Abbreviation event_loop := (Prog.event_loop GetEntry event_body).

Lemma event_loop_agree s r num i es1 es2 v1 v2 hs1 hs2 :
  Forall2 RE es1 es2 -> RV v1 v2 -> agree hs1 hs2 ->
  agree (event_loop s r num i es1 v1 hs1).1.1.1 (event_loop s r num i es2 v2 hs2).1.1.1
  /\ (event_loop s r num i es1 v1 hs1).2 = (event_loop s r num i es2 v2 hs2).2.
Proof.
  intros Hes. revert i v1 v2 hs1 hs2.
  induction Hes as [|e1 e2 es1 es2 He Hes IH]; intros i v1 v2 hs1 hs2 Hv Hh;
    [split; [exact Hh | reflexivity]|].
  cbn [Prog.event_loop]. cbn zeta.
  pose proof (RV_get r e1 e2 v1 v2 He Hv) as Hv'.
  destruct (body_sim s _ _ Hv') as [Hl Hr].
  assert (Hh' : agree (apply_fills hs1 (log (event_body s (GetEntry r e1 v1))))
                      (apply_fills hs2 (log (event_body s (GetEntry r e2 v2))))).
  { intros n Hn. rewrite !apply_fills_lookup, (Hh n Hn).
    now rewrite (sim_fills_to _ _ n Hl (body_plain s _) (body_plain s _) Hn). }
  unfold faulted. rewrite Hr.
  destruct (snd (event_body s (GetEntry r e2 v2))) as [f|[]]; [split; [exact Hh' | reflexivity]|].
  specialize (IH (i + 1) _ _ _ _ Hv' Hh').
  destruct (event_loop s r num (i + 1) es1 _ _) as [[[h1 o1] f1] d1].
  destruct (event_loop s r num (i + 1) es2 _ _) as [[[h2 o2] f2] d2].
  exact IH.
Qed.

Lemma main_agree disk1 disk2 argv t1 t2 :
  reaches disk1 argv t1 -> reaches disk2 argv t2 ->
  tBranches t1 = tBranches t2 -> Forall2 RE (tEntries t1) (tEntries t2) ->
  exit_status (main disk1 argv) = exit_status (main disk2 argv)
  /\ forall n, unweighted n = true ->
       find_hist n (written (main disk1 argv)) = find_hist n (written (main disk2 argv)).
Proof.
  intros Hr1 Hr2 Hb Hes.
  destruct (main_reaches vars0 stage_branches GetEntry event_body stage_decls
              disk1 argv t1 Hr1) as (hs1 & o1 & f1 & d1 & L1 & ->).
  destruct (main_reaches vars0 stage_branches GetEntry event_body stage_decls
              disk2 argv t2 Hr2) as (hs2 & o2 & f2 & d2 & L2 & ->).
  set (s := Libc.to_int (Libc.atol (arg argv 2))) in *.
  assert (Hw : wire_branches stage_branches s t1 = wire_branches stage_branches s t2)
    by (unfold wire_branches; now rewrite Hb).
  rewrite Hw in L1.
  assert (Hlen : length (tEntries t1) = length (tEntries t2))
    by (eapply Forall2_length; eassumption).
  rewrite Hlen in L1.
  destruct (event_loop_agree s (wire_branches stage_branches s t2)
              (Z.of_nat (length (tEntries t2))) 0 _ _ vars0 vars0
              (declare (all_decls stage_decls)) (declare (all_decls stage_decls))
              Hes RV_init ltac:(intros ? ?; reflexivity)) as [Ha Hd].
  pose proof (event_loop_declared GetEntry event_body stage_decls s
                (wire_branches stage_branches s t2)
                (Z.of_nat (length (tEntries t2))) 0 (tEntries t1) vars0 _
                (declared_init stage_decls)) as D1.
  pose proof (event_loop_declared GetEntry event_body stage_decls s
                (wire_branches stage_branches s t2)
                (Z.of_nat (length (tEntries t2))) 0 (tEntries t2) vars0 _
                (declared_init stage_decls)) as D2.
  rewrite L1 in Ha, Hd, D1. rewrite L2 in Ha, Hd, D2. cbn in Ha, Hd, D1, D2. subst d2.
  destruct d1 as [f|]; cbn [exit_status written]; [split; reflexivity|].
  split; [reflexivity|]. intros n Hn.
  destruct D1 as [N1 S1], D2 as [N2 S2].
  rewrite !find_written; auto.
  - now rewrite (Ha n Hn).
  - intros k m Hk Hm. apply S2. now apply (stage_writes_declared stage_decls k).
  - intros k m Hk Hm. apply S1. now apply (stage_writes_declared stage_decls k).
Qed.

End TwoRuns.

End Noninterference.

Module WeightFacts.
Import Root Prog ProgFacts ReaderFacts RecoFacts Always Noninterference.

Ltac sim_auto :=
  unfold mbind, W_bind, mret, W_ret;
  repeat first [ apply sim_refl
               | apply sim_emit
               | apply sim_when
               | apply sim_bind; [|intros ?] ].

Ltac plain_leaf :=
  apply always_emit; intros Hu;
  first [ reflexivity | (vm_compute in Hu; discriminate Hu) ].

Ltac weight_leaf :=
  apply always_emit; intros ? ? Hw; cbn [snd] in Hw;
  first [ discriminate Hw | (injection Hw as _ <-; reflexivity) ].

Ltac always_with leaf :=
  unfold mbind, W_bind, mret, W_ret;
  repeat first [ always_step
               | lazymatch goal with |- always _ (emit _ _) => leaf end ].

(** *** jetRecoExp.cpp *)

Definition exp_RE (e1 e2 : JetRecoExp.Event) : Prop :=
  exists w, e2 = JetRecoExp.with_weight w e1.

Definition exp_RV (v1 v2 : JetRecoExp.Vars) : Prop :=
  exists w, v2 = JetRecoExp.set_weight w v1.

Lemma exp_RV_get r e1 e2 v1 v2 :
  exp_RE e1 e2 -> exp_RV v1 v2 ->
  exp_RV (JetRecoExp.GetEntry r e1 v1) (JetRecoExp.GetEntry r e2 v2).
Proof.
  intros [w ->] [w0 ->].
  exists (load r "EventWeight" w w0). reflexivity.
Qed.

Lemma exp_body_sim s v1 v2 :
  exp_RV v1 v2 -> sim (JetRecoExp.event_body s v1) (JetRecoExp.event_body s v2).
Proof.
  intros [w ->].
  unfold JetRecoExp.event_body, JetRecoExp.stage1_fill, JetRecoExp.stage2_fill,
    JetRecoExp.stage3_fill, JetRecoExp.stage4_fill, JetRecoExp.stage5_fill.
  cbn [JetRecoExp.set_weight JetRecoExp.mu_average JetRecoExp.NPV
       JetRecoExp.EventWeight JetRecoExp.RecoJet_pt JetRecoExp.TruthJet_pt].
  sim_auto.
Qed.

Lemma exp_body_plain s v : always plain (JetRecoExp.event_body s v).
Proof.
  unfold JetRecoExp.event_body, JetRecoExp.stage1_fill, JetRecoExp.stage2_fill,
    JetRecoExp.stage3_fill, JetRecoExp.stage4_fill, JetRecoExp.stage5_fill.
  always_with plain_leaf.
Qed.

Lemma exp_body_weight s v :
  always (weighted_by (JetRecoExp.EventWeight v)) (JetRecoExp.event_body s v).
Proof.
  unfold JetRecoExp.event_body, JetRecoExp.stage1_fill, JetRecoExp.stage2_fill,
    JetRecoExp.stage3_fill, JetRecoExp.stage4_fill, JetRecoExp.stage5_fill.
  always_with weight_leaf.
Qed.

Lemma exp_weight_read s (t : TTree JetRecoExp.Event) e v0 :
  0 <= s <= 5 -> "EventWeight" ∈ tBranches t ->
  always (weighted_by (JetRecoExp.ev_EventWeight e))
    (JetRecoExp.event_body s
       (JetRecoExp.GetEntry (wire_branches JetRecoExp.stage_branches s t) e v0)).
Proof.
  intros Hs Hb.
  assert (G1 : gate s 1 = true) by (apply gate_selected; unfold selected; lia).
  destruct (wire_branches_spec JetRecoExp.stage_branches s t G1) as [Hreads _].
  cbn zeta in Hreads.
  destruct (gate s 2) eqn:G2.
  - assert (Hr : reads (wire_branches JetRecoExp.stage_branches s t) "EventWeight" = true).
    { apply Hreads. split; [|exact Hb]. exists 2.
      split; [unfold stages; apply list_elem_of_further, list_elem_of_here|].
      split; [exact G2 | cbn; apply list_elem_of_here]. }
    pose proof (exp_body_weight s
                  (JetRecoExp.GetEntry (wire_branches JetRecoExp.stage_branches s t) e v0))
      as Hw.
    unfold JetRecoExp.GetEntry at 1 in Hw. cbn [JetRecoExp.EventWeight] in Hw.
    unfold load at 1 in Hw. now rewrite Hr in Hw.
  - assert (s = 1) as ->.
    { unfold gate in G2. apply orb_false_iff in G2 as [G0 G2'].
      apply Z.eqb_neq in G0. rewrite Z.geb_leb in G2'. apply Z.leb_gt in G2'. lia. }
    unfold JetRecoExp.event_body, JetRecoExp.stage1_fill.
    cbn [gate Z.eqb Z.geb Z.compare Pos.compare Pos.compare_cont orb when].
    always_with weight_leaf.
Qed.

(** *** jetRecoGroom.cpp *)

Definition groom_RE (e1 e2 : JetRecoGroom.Event) : Prop :=
  exists w, e2 = JetRecoGroom.with_weight w e1.

Definition groom_RV (v1 v2 : JetRecoGroom.Vars) : Prop :=
  exists w, v2 = JetRecoGroom.set_weight w v1.

Lemma groom_RV_get r e1 e2 v1 v2 :
  groom_RE e1 e2 -> groom_RV v1 v2 ->
  groom_RV (JetRecoGroom.GetEntry r e1 v1) (JetRecoGroom.GetEntry r e2 v2).
Proof.
  intros [w ->] [w0 ->].
  exists (load r "EventWeight" w w0). reflexivity.
Qed.

Section FastJet.
Context {PseudoJet : Type}.
Variable make_pseudojet : Q -> Q -> Q -> Q -> PseudoJet.
Variable akt10_jets : list PseudoJet -> list PseudoJet.
Variable trimmer : PseudoJet -> PseudoJet.
Variable pt : PseudoJet -> Q.

Local Abbreviation event_body :=
  (JetRecoGroom.event_body make_pseudojet akt10_jets trimmer pt).
Local Abbreviation convert_clusters := (JetRecoGroom.convert_clusters make_pseudojet).

Lemma convert_clusters_sim (w : Q) (v : JetRecoGroom.Vars) (todo iClus : nat)
    (clusters : list PseudoJet) :
  sim (convert_clusters todo iClus v clusters)
      (convert_clusters todo iClus (JetRecoGroom.set_weight w v) clusters).
Proof.
  revert iClus clusters. induction todo as [|todo IH]; intros iClus clusters;
    [apply sim_refl|].
  cbn [JetRecoGroom.convert_clusters JetRecoGroom.set_weight JetRecoGroom.cluster_pt
       JetRecoGroom.cluster_eta JetRecoGroom.cluster_phi JetRecoGroom.cluster_m].
  unfold mbind, W_bind.
  repeat (apply sim_bind; [apply sim_refl | intros ?]). apply IH.
Qed.

Lemma groom_body_sim s v1 v2 :
  groom_RV v1 v2 -> sim (event_body s v1) (event_body s v2).
Proof.
  intros [w ->].
  unfold JetRecoGroom.event_body, JetRecoGroom.stage1_fill, JetRecoGroom.stage2_fill,
    JetRecoGroom.stage3_fill, JetRecoGroom.stage4_fill, JetRecoGroom.stage5_fill.
  cbn [JetRecoGroom.set_weight JetRecoGroom.mu_average JetRecoGroom.NPV
       JetRecoGroom.EventWeight JetRecoGroom.jet_R10_ungroom_pt
       JetRecoGroom.jet_R10_ungroom_m JetRecoGroom.jet_R10_trimmed_pt
       JetRecoGroom.jet_R10_trimmed_m JetRecoGroom.cluster_pt].
  unfold mbind, W_bind, mret, W_ret.
  apply sim_bind; [apply sim_refl | intros ?].
  apply sim_bind; [sim_auto | intros ?].
  apply sim_when.
  apply sim_bind; [|intros ?; apply sim_refl].
  apply sim_bind; [apply sim_refl | intros ?].
  apply sim_bind; [apply sim_refl | intros n].
  apply sim_bind; [apply convert_clusters_sim | intros clusters].
  destruct (akt10_jets clusters); sim_auto.
Qed.

Lemma stage3_forall (P : fill -> Prop) (v : JetRecoGroom.Vars) :
  (forall x, P (JetRecoGroom.hist_myungroom_pt_nw, FillX x)) ->
  (forall x, P (JetRecoGroom.hist_myungroom_pt, FillXW x (JetRecoGroom.EventWeight v))) ->
  (forall x, P (JetRecoGroom.hist_mytrimmed_pt_nw, FillX x)) ->
  (forall x, P (JetRecoGroom.hist_mytrimmed_pt, FillXW x (JetRecoGroom.EventWeight v))) ->
  always P (JetRecoGroom.stage3_fill make_pseudojet akt10_jets trimmer pt v).
Proof.
  intros P1 P2 P3 P4. unfold JetRecoGroom.stage3_fill, mbind, W_bind, mret, W_ret.
  always_step. always_step.
  apply always_bind; [apply LeadingFills.convert_clusters_always|]. intros clusters _.
  destruct (akt10_jets clusters) as [|ungroomed jets]; [apply always_ret|].
  repeat (apply always_bind; [|intros [] _]); apply always_emit; auto.
Qed.

Lemma groom_body_plain s v : always plain (event_body s v).
Proof.
  unfold JetRecoGroom.event_body, JetRecoGroom.stage1_fill, JetRecoGroom.stage2_fill,
    JetRecoGroom.stage4_fill, JetRecoGroom.stage5_fill.
  unfold mbind, W_bind, mret, W_ret.
  repeat first [ always_step
               | lazymatch goal with
                 | |- always _ (emit _ _) => plain_leaf
                 | |- always _ (JetRecoGroom.stage3_fill _ _ _ _ _) =>
                     apply stage3_forall; intros x Hu;
                     first [ reflexivity | (vm_compute in Hu; discriminate Hu) ]
                 end ].
Qed.

Lemma groom_body_weight s v :
  always (weighted_by (JetRecoGroom.EventWeight v)) (event_body s v).
Proof.
  unfold JetRecoGroom.event_body, JetRecoGroom.stage1_fill, JetRecoGroom.stage2_fill,
    JetRecoGroom.stage4_fill, JetRecoGroom.stage5_fill.
  unfold mbind, W_bind, mret, W_ret.
  repeat first [ always_step
               | lazymatch goal with
                 | |- always _ (emit _ _) => weight_leaf
                 | |- always _ (JetRecoGroom.stage3_fill _ _ _ _ _) =>
                     apply stage3_forall; intros x ? ? Hw; cbn [snd] in Hw;
                     first [ discriminate Hw | (injection Hw as _ <-; reflexivity) ]
                 end ].
Qed.

Lemma groom_weight_read s (t : TTree JetRecoGroom.Event) e v0 :
  0 <= s <= 5 -> "EventWeight" ∈ tBranches t ->
  always (weighted_by (JetRecoGroom.ev_EventWeight e))
    (event_body s
       (JetRecoGroom.GetEntry (wire_branches JetRecoGroom.stage_branches s t) e v0)).
Proof.
  intros Hs Hb.
  assert (G1 : gate s 1 = true) by (apply gate_selected; unfold selected; lia).
  destruct (wire_branches_spec JetRecoGroom.stage_branches s t G1) as [Hreads _].
  cbn zeta in Hreads.
  destruct (gate s 2) eqn:G2.
  - assert (Hr : reads (wire_branches JetRecoGroom.stage_branches s t) "EventWeight" = true).
    { apply Hreads. split; [|exact Hb]. exists 2.
      split; [unfold stages; apply list_elem_of_further, list_elem_of_here|].
      split; [exact G2 | cbn; apply list_elem_of_here]. }
    pose proof (groom_body_weight s
                  (JetRecoGroom.GetEntry (wire_branches JetRecoGroom.stage_branches s t) e v0))
      as Hw.
    unfold JetRecoGroom.GetEntry at 1 in Hw. cbn [JetRecoGroom.EventWeight] in Hw.
    unfold load at 1 in Hw. now rewrite Hr in Hw.
  - assert (s = 1) as ->.
    { unfold gate in G2. apply orb_false_iff in G2 as [G0 G2'].
      apply Z.eqb_neq in G0. rewrite Z.geb_leb in G2'. apply Z.leb_gt in G2'. lia. }
    unfold JetRecoGroom.event_body, JetRecoGroom.stage1_fill.
    cbn [gate Z.eqb Z.geb Z.compare Pos.compare Pos.compare_cont orb when].
    always_with weight_leaf.
Qed.

End FastJet.

(** C7. Weight noninterference, for both reco programs.  Two runs with the
    same arguments on trees that store the same branches and the same
    entries up to the value of [EventWeight] end the same way, and every
    histogram whose name ends in [_noweight] is written with the same
    contents by both.  Within one event every weighted fill carries the
    [EventWeight] of that event (of the entry just read, when the tree
    stores the branch). *)
Theorem weight_noninterference :
  (forall disk1 disk2 argv (t1 t2 : TTree JetRecoExp.Event),
      reaches disk1 argv t1 -> reaches disk2 argv t2 ->
      tBranches t1 = tBranches t2 ->
      Forall2 (fun e1 e2 => exists w, e2 = JetRecoExp.with_weight w e1)
              (tEntries t1) (tEntries t2) ->
      exit_status (JetRecoExp.main disk1 argv) = exit_status (JetRecoExp.main disk2 argv)
      /\ forall n, EndsWith n "_noweight" = true ->
           find_hist n (written (JetRecoExp.main disk1 argv))
           = find_hist n (written (JetRecoExp.main disk2 argv)))
  /\ (forall s v, Forall (weighted_by (JetRecoExp.EventWeight v))
                         (log (JetRecoExp.event_body s v)))
  /\ (forall s (t : TTree JetRecoExp.Event) e v0,
        0 <= s <= 5 -> "EventWeight" ∈ tBranches t ->
        Forall (weighted_by (JetRecoExp.ev_EventWeight e))
          (log (JetRecoExp.event_body s
                  (JetRecoExp.GetEntry
                     (wire_branches JetRecoExp.stage_branches s t) e v0))))
  /\ (forall (PseudoJet : Type) (make_pseudojet : Q -> Q -> Q -> Q -> PseudoJet)
        (akt10_jets : list PseudoJet -> list PseudoJet)
        (trimmer : PseudoJet -> PseudoJet) (pt : PseudoJet -> Q),
      let main := JetRecoGroom.main make_pseudojet akt10_jets trimmer pt in
      let event_body := JetRecoGroom.event_body make_pseudojet akt10_jets trimmer pt in
      (forall disk1 disk2 argv (t1 t2 : TTree JetRecoGroom.Event),
          reaches disk1 argv t1 -> reaches disk2 argv t2 ->
          tBranches t1 = tBranches t2 ->
          Forall2 (fun e1 e2 => exists w, e2 = JetRecoGroom.with_weight w e1)
                  (tEntries t1) (tEntries t2) ->
          exit_status (main disk1 argv) = exit_status (main disk2 argv)
          /\ forall n, EndsWith n "_noweight" = true ->
               find_hist n (written (main disk1 argv))
               = find_hist n (written (main disk2 argv)))
      /\ (forall s v, Forall (weighted_by (JetRecoGroom.EventWeight v))
                             (log (event_body s v)))
      /\ (forall s (t : TTree JetRecoGroom.Event) e v0,
            0 <= s <= 5 -> "EventWeight" ∈ tBranches t ->
            Forall (weighted_by (JetRecoGroom.ev_EventWeight e))
              (log (event_body s
                      (JetRecoGroom.GetEntry
                         (wire_branches JetRecoGroom.stage_branches s t) e v0))))).
Proof.
  split; [|split; [|split; [|]]].
  - intros disk1 disk2 argv t1 t2 H1 H2 Hb Hes.
    apply (main_agree JetRecoExp.vars0 JetRecoExp.stage_branches JetRecoExp.GetEntry
             JetRecoExp.event_body JetRecoExp.stage_decls exp_RE exp_RV
             ltac:(now exists 0%Q) exp_RV_get exp_body_sim exp_body_plain
             disk1 disk2 argv t1 t2 H1 H2 Hb Hes).
  - exact exp_body_weight.
  - exact exp_weight_read.
  - intros PseudoJet make_pseudojet akt10_jets trimmer pt main event_body.
    subst main event_body.
    split; [|split].
    + intros disk1 disk2 argv t1 t2 H1 H2 Hb Hes.
      apply (main_agree JetRecoGroom.vars0 JetRecoGroom.stage_branches
               JetRecoGroom.GetEntry
               (JetRecoGroom.event_body make_pseudojet akt10_jets trimmer pt)
               JetRecoGroom.stage_decls groom_RE groom_RV
               ltac:(now exists 0%Q) groom_RV_get
               (groom_body_sim make_pseudojet akt10_jets trimmer pt)
               (groom_body_plain make_pseudojet akt10_jets trimmer pt)
               disk1 disk2 argv t1 t2 H1 H2 Hb Hes).
    + apply groom_body_weight.
    + apply groom_weight_read.
Qed.

Lemma weight_noninterference_witness :
  let run1 := JetRecoExp.main Samples.exp_disk (Samples.reco_argv "2") in
  let run2 := JetRecoExp.main (Samples.exp_disk_weight 5) (Samples.reco_argv "2") in
  reaches Samples.exp_disk (Samples.reco_argv "2") Samples.exp_tree
  /\ reaches (Samples.exp_disk_weight 5) (Samples.reco_argv "2")
             (Samples.exp_tree_weight 5)
  /\ exit_status run1 = exit_status run2
  /\ forall n, EndsWith n "_noweight" = true ->
       find_hist n (written run1) = find_hist n (written run2).
Proof.
  cbn zeta.
  assert (H1 : reaches Samples.exp_disk (Samples.reco_argv "2") Samples.exp_tree).
  { split; [cbn; lia|]. split; [vm_compute; split; discriminate|].
    exists {[ "tree" := Samples.exp_tree ]}. split; vm_compute; reflexivity. }
  assert (H2 : reaches (Samples.exp_disk_weight 5) (Samples.reco_argv "2")
                 (Samples.exp_tree_weight 5)).
  { split; [cbn; lia|]. split; [vm_compute; split; discriminate|].
    exists {[ "tree" := Samples.exp_tree_weight 5 ]}. split; vm_compute; reflexivity. }
  split; [exact H1|]. split; [exact H2|].
  apply (proj1 weight_noninterference _ _ _ _ _ H1 H2); [reflexivity|].
  constructor; [|constructor]. exists 5%Q. reflexivity.
Defined.

End WeightFacts.

(** ** A step number that is not a number *)

Module StepArgument.
Import Root Prog ProgFacts.

Lemma digits_no_digit (s : string) :
  Libc.starts_with_digit s = false -> Libc.digits 0 s = 0.
Proof. destruct s as [|c s]; cbn; [reflexivity|]. now intros ->. Qed.

Lemma atol_no_conversion (s : string) :
  Libc.no_conversion s = true -> Libc.atol s = 0.
Proof.
  unfold Libc.no_conversion, Libc.atol.
  destruct (Libc.skip_space s) as [|c s']; [reflexivity|].
  destruct c as [[] [] [] [] [] [] [] []];
    intros H; apply negb_true_iff in H;
    first [ now rewrite (digits_no_digit _ H)
          | discriminate H
          | (cbn in H |- *; now rewrite ?H) ].
Qed.

Lemma arg_insert_other (argv : list string) (x : string) (i : nat) :
  i <> 2%nat -> arg (<[2%nat := x]> argv) i = arg argv i.
Proof.
  intros Hi. unfold arg. rewrite !nth_lookup.
  now rewrite list_lookup_insert_ne by congruence.
Qed.

Lemma step_insert_zero (argv : list string) :
  Libc.atol (arg argv 2) = 0 ->
  Libc.to_int (Libc.atol (arg (<[2%nat := "0"]> argv) 2))
  = Libc.to_int (Libc.atol (arg argv 2)).
Proof.
  intros H0. rewrite H0. unfold arg at 1. rewrite nth_lookup.
  destruct (decide (2 < length argv)%nat) as [Hl|Hl].
  - now rewrite list_lookup_insert_eq by exact Hl.
  - rewrite list_insert_ge by lia. rewrite <- nth_lookup. fold (arg argv 2).
    now rewrite H0.
Qed.

Section Mains.
Context {Event Vars : Type}.
Variable vars0 : Vars.
Variable stage_branches : Z -> list string.
Variable GetEntry : Reader -> Event -> Vars -> Vars.
Variable event_body : Z -> Vars -> W unit.
Variable stage_decls : Z -> list TH1.
Variable gets : Z -> list (string * TClass * string).
Variable checked : Z -> list string.
Variable plot_stage : Z -> list Plots.action.

Lemma reco_main_as_zero disk (argv : list string) :
  Libc.atol (arg argv 2) = 0 ->
  Prog.main vars0 stage_branches GetEntry event_body stage_decls disk argv
  = Prog.main vars0 stage_branches GetEntry event_body stage_decls disk
      (<[2%nat := "0"]> argv).
Proof.
  intros H0. unfold Prog.main.
  rewrite length_insert, (step_insert_zero argv H0),
    !arg_insert_other by discriminate.
  reflexivity.
Qed.

Lemma plots_main_as_zero disk (argv : list string) :
  Libc.atol (arg argv 2) = 0 ->
  Plots.main gets checked plot_stage disk argv
  = Plots.main gets checked plot_stage disk (<[2%nat := "0"]> argv).
Proof.
  intros H0. unfold Plots.main.
  rewrite length_insert, (step_insert_zero argv H0),
    !arg_insert_other by discriminate.
  reflexivity.
Qed.

End Mains.

(** A number followed by other characters is read as that number. *)
Lemma numeric_prefix_is_read :
  Libc.atol "3abc" = 3 /\ Libc.atol " -7x" = -7 /\ Libc.no_conversion "3abc" = false.
Proof. repeat split. Qed.

End StepArgument.

(** ** Rescaling and normalising a histogram *)

Module HistFacts.
Import Root Prog Plots.










(** C8. The MeV-to-GeV rescaling of the plots programs leaves every bin
    of the histogram as it was, with its name, class, binning and second
    axis; the lower and the upper bound of the x axis are replaced by their
    values divided by 1000.  Applied through a pointer, it touches neither
    the other histograms nor the pages already printed; and it is the
    same on the object in memory as on the object in the file. *)
Theorem rescale_keeps_contents :
  (forall hist : TH1,
      fArray (scaleMeVToGeV hist) = fArray hist
      /\ (forall bin, GetBinContent (scaleMeVToGeV hist) bin = GetBinContent hist bin)
      /\ Integral (scaleMeVToGeV hist) = Integral hist
      /\ fXmin (fXaxis (scaleMeVToGeV hist)) = (fXmin (fXaxis hist) / 1000)%Q
      /\ fXmax (fXaxis (scaleMeVToGeV hist)) = (fXmax (fXaxis hist) / 1000)%Q
      /\ fNbins (fXaxis (scaleMeVToGeV hist)) = fNbins (fXaxis hist)
      /\ fYaxis (scaleMeVToGeV hist) = fYaxis hist
      /\ fName (scaleMeVToGeV hist) = fName hist
      /\ fClass (scaleMeVToGeV hist) = fClass hist)
  /\ (forall (v : string) (s : State) (hist : Histogram double),
        ptrs s !! v = Some hist ->
        exists s', ScaleMeVToGeV v s = Ok s'
                   /\ ptrs s' !! v = Some (scaleMeVToGeV hist)
                   /\ (forall u, u <> v -> ptrs s' !! u = ptrs s !! u)
                   /\ pages s' = pages s /\ pad s' = pad s)
  /\ (forall hist : TH1, scaleMeVToGeV (in_memory hist) = in_memory (scaleMeVToGeV hist)).
Proof.
  split; [|split].
  - intros hist. repeat split.
  - intros v s hist Hv. unfold ScaleMeVToGeV, through. rewrite Hv.
    eexists. split; [reflexivity|]. cbn [ptrs pages pad].
    split; [apply lookup_insert_eq|].
    split; [|split; reflexivity].
    intros u Hu. now apply lookup_insert_ne.
  - intros hist. reflexivity.
Qed.

Lemma rescale_keeps_contents_witness :
  let hist := Fill (FillXW 45000 2) (new1 TH1F "Step2_RecoJet_pt" 199 10000 2000000) in
  let s := mkState {[ "hist_reco_pt" := in_memory hist ]} [] [] in
  ptrs s !! "hist_reco_pt" = Some (in_memory hist)
  /\ (exists s', ScaleMeVToGeV "hist_reco_pt" s = Ok s'
                 /\ ptrs s' !! "hist_reco_pt" = Some (scaleMeVToGeV (in_memory hist)))
  /\ fXaxis (scaleMeVToGeV hist) = mkAxis 199 (10000 / 1000) (2000000 / 1000)
  /\ GetBinContent (scaleMeVToGeV hist) 4 = 2%Q.
Proof.
  intros hist s.
  assert (H : ptrs s !! "hist_reco_pt" = Some (in_memory hist))
    by (vm_compute; reflexivity).
  split; [exact H|]. split.
  - destruct (proj1 (proj2 rescale_keeps_contents) "hist_reco_pt" s (in_memory hist) H)
      as (s' & E & Hv & _).
    exists s'. split; [exact E | exact Hv].
  - split; vm_compute; reflexivity.
Defined.

End HistFacts.

(** ** The skeleton of the plotting programs *)

Module PlotsFacts.
Import Root Prog ProgFacts Plots HistFacts.












Section Program.
Variable gets : Z -> list (string * TClass * string).
Variable checked : Z -> list string.
Variable plot_stage : Z -> list action.

Local Abbreviation main := (Plots.main gets checked plot_stage).
Local Abbreviation retrieve := (Plots.retrieve gets checked).
Local Abbreviation plot := (Plots.plot plot_stage).


(** What [getHist] returns. *)
Definition absent (inFile : gmap string TH1) (C : TClass) (histName : string) : Prop :=
  fst (getHist C inFile histName) = None.

Lemma getHist_Some inFile C histName h :
  fst (getHist C inFile histName) = Some h -> inFile !! histName = Some h.
Proof.
  unfold getHist. destruct (inFile !! histName) as [h0|]; [|discriminate].
  destruct (bool_decide (fClass h0 = C)); [now intros [= <-] | discriminate].
Qed.

Lemma getHist_msgs inFile C histName :
  snd (getHist C inFile histName)
  = match fst (getHist C inFile histName) with
    | Some _ => []
    | None => [MsgMissingHist histName]
    end.
Proof.
  unfold getHist. destruct (inFile !! histName) as [h0|]; [|reflexivity].
  now destruct (bool_decide (fClass h0 = C)).
Qed.

(** The retrievals of one stage. *)
Lemma get_stage_spec inFile (l : list (string * TClass * string))
    (p : gmap string TH1) (out : list msg) :
  let st' := foldl (get_one inFile) (p, out) l in
  (forall v h, st'.1 !! v = Some h ->
     p !! v = Some h
     \/ exists C key, (v, C, key) ∈ l /\ inFile !! key = Some h)
  /\ (forall v, p !! v = None ->
        (forall C key, (v, C, key) ∈ l -> absent inFile C key) -> st'.1 !! v = None)
  /\ (forall v C key, (v, C, key) ∈ l -> st'.1 !! v = None ->
        MsgMissingHist key ∈ st'.2)
  /\ (forall m, m ∈ st'.2 ->
        m ∈ out \/ exists v C key, (v, C, key) ∈ l /\ absent inFile C key
                                   /\ m = MsgMissingHist key)
  /\ (forall m, m ∈ out -> m ∈ st'.2)
  /\ (forall v, st'.1 !! v = None -> p !! v = None).
Proof.
  revert p out. induction l as [|[[v0 C0] key0] l IH]; intros p out; cbn zeta.
  - cbn [foldl fst snd].
    split; [intros v h H; now left|].
    split; [intros v H _; exact H|].
    split; [intros v C key H; inversion H|].
    split; [intros m H; now left|].
    split; [intros m H; exact H | intros v H; exact H].
  - cbn [foldl].
    assert (E : get_one inFile (p, out) (v0, C0, key0)
                = (match fst (getHist C0 inFile key0) with
                   | Some h => <[v0 := h]> p
                   | None => p
                   end, out ++ snd (getHist C0 inFile key0))).
    { unfold get_one. now destruct (getHist C0 inFile key0). }
    rewrite E. clear E.
    pose proof (getHist_msgs inFile C0 key0) as Hm.
    pose proof (getHist_Some inFile C0 key0) as Hs.
    assert (Habs : absent inFile C0 key0 <-> fst (getHist C0 inFile key0) = None)
      by reflexivity.
    destruct (getHist C0 inFile key0) as [o msgs]. cbn [fst snd] in Hm, Hs, Habs |- *.
    specialize (IH (match o with Some h => <[v0 := h]> p | None => p end) (out ++ msgs)).
    cbn zeta in IH. destruct IH as (I1 & I2 & I3 & I4 & I5 & I6).
    split; [|split; [|split; [|split; [|split]]]].
    + intros v h Hv. destruct (I1 v h Hv) as [Hp|(C & key & Hin & Hf)].
      * destruct o as [h0|]; [|now left].
        rewrite lookup_insert in Hp. destruct (decide (v0 = v)) as [->|]; [|now left].
        injection Hp as <-. right. exists C0, key0. split; [left | now apply Hs].
      * right. exists C, key. split; [now right | exact Hf].
    + intros v Hp Hall. apply I2.
      * destruct o as [h0|]; [|exact Hp].
        assert (v0 <> v).
        { intros ->. specialize (Hall C0 key0 ltac:(left)).
          apply Habs in Hall. discriminate. }
        now rewrite lookup_insert_ne.
      * intros C key Hin. apply Hall. now right.
    + intros v C key Hin Hnone. apply elem_of_cons in Hin as [[= -> -> ->]|Hin].
      * apply I5. apply I6 in Hnone.
        destruct o as [h0|]; [now rewrite lookup_insert_eq in Hnone|].
        subst msgs. apply elem_of_app. right. left.
      * now apply (I3 v C key).
    + intros m Hin. destruct (I4 m Hin) as [Ho|(v & C & key & H1 & H2 & H3)].
      * apply elem_of_app in Ho as [Ho|Ho]; [now left|].
        right. exists v0, C0, key0. split; [left|].
        destruct o as [h0|]; subst msgs; [inversion Ho|].
        split; [now apply Habs|]. now apply list_elem_of_singleton in Ho.
      * right. exists v, C, key. split; [now right | now split].
    + intros m Hin. apply I5. apply elem_of_app. now left.
    + intros v Hnone. apply I6 in Hnone.
      destruct o as [h0|]; [|exact Hnone].
      rewrite lookup_insert in Hnone. now destruct (decide (v0 = v)).
Qed.

(** The arguments of a run that gets as far as the retrievals. *)
Definition ready (disk : gmap string (gmap string TH1)) (argv : list string)
    (inFile : gmap string TH1) : Prop :=
  (4 <= length argv)%nat
  /\ EndsWith (arg argv 1) ".pdf" = true
  /\ EndsWith (arg argv 3) ".root" = true
  /\ 0 <= Libc.to_int (Libc.atol (arg argv 2)) <= 5
  /\ disk !! arg argv 3 = Some inFile.

Lemma main_ready disk argv inFile :
  ready disk argv inFile ->
  let s := Libc.to_int (Libc.atol (arg argv 2)) in
  main disk argv
  = match retrieve s inFile stages (∅, []) with
    | inl out => stop out
    | inr (p, out) =>
        match plot s stages (mkState (in_memory <$> p) [] []) with
        | Ok st => mkRun (Exit 0) out (Some (pages st)) (ptrs st)
        | Dead st f => mkRun (Abort f) out (Some (pages st)) (ptrs st)
        end
    end.
Proof.
  intros (Hl & Hp & Hr & Hs & Hf). cbn zeta. unfold Plots.main.
  replace (length argv <? 4)%nat with false by (symmetry; apply Nat.ltb_ge; lia).
  rewrite Hp, Hr. cbn [negb]. apply invalid_step_spec in Hs. now rewrite Hs, Hf.
Qed.

Lemma retrieve_inr s inFile ks p0 out0 p out :
  retrieve s inFile ks (p0, out0) = inr (p, out) ->
  (forall k v, k ∈ ks -> gate s k = true -> v ∈ checked k -> is_Some (p !! v))
  /\ (forall v h, p !! v = Some h ->
        p0 !! v = Some h
        \/ exists k C key, k ∈ ks /\ gate s k = true /\ (v, C, key) ∈ gets k
                           /\ inFile !! key = Some h)
  /\ (forall v, p0 !! v = None ->
        (forall k C key, k ∈ ks -> (v, C, key) ∈ gets k -> absent inFile C key) ->
        p !! v = None)
  /\ (forall v, is_Some (p0 !! v) -> is_Some (p !! v)).
Proof.
  revert p0 out0. induction ks as [|k ks IH]; intros p0 out0 Hr.
  - cbn in Hr. injection Hr as <- <-.
    split; [intros k v H; inversion H|]. split; [intros v h H; now left|].
    split; [intros v H _; exact H | intros v H; exact H].
  - cbn [Plots.retrieve] in Hr. destruct (gate s k) eqn:G.
    + destruct (get_stage_spec inFile (gets k) p0 out0) as (I1 & I2 & I3 & I4 & I5 & I6).
      cbn zeta in *.
      destruct (foldl (get_one inFile) (p0, out0) (gets k)) as [p1 out1].
      cbn [fst snd] in *.
      destruct (existsb (is_null p1) (checked k)) eqn:Ex; [discriminate|].
      destruct (IH p1 out1 Hr) as (J1 & J2 & J3 & J4).
      assert (Hmono : forall v, is_Some (p0 !! v) -> is_Some (p1 !! v)).
      { intros v [h Hv]. destruct (p1 !! v) eqn:E; [now eexists|].
        apply I6 in E. congruence. }
      split; [|split; [|split]].
      * intros k' v Hk' Hg Hv. apply elem_of_cons in Hk' as [->|Hk']; [|now apply (J1 k')].
        apply J4. destruct (p1 !! v) eqn:E; [now eexists|]. exfalso.
        assert (existsb (is_null p1) (checked k) = true); [|congruence].
        apply existsb_exists. exists v. split; [now apply list_elem_of_In|].
        unfold is_null. now rewrite E.
      * intros v h Hv. destruct (J2 v h Hv) as [H1|(k' & C & key & Hk' & Hg & Hin & Hf)].
        -- destruct (I1 v h H1) as [H0|(C & key & Hin & Hf)]; [now left|].
           right. exists k, C, key. split; [left|]. now repeat split.
        -- right. exists k', C, key. split; [now right|]. now repeat split.
      * intros v Hv Hall. apply J3.
        -- apply I2; [exact Hv|]. intros C key Hin. apply (Hall k); [left | exact Hin].
        -- intros k' C key Hk' Hin. apply (Hall k'); [now right | exact Hin].
      * intros v Hv. apply J4, Hmono, Hv.
    + destruct (IH p0 out0 Hr) as (J1 & J2 & J3 & J4).
      split; [|split; [|split]].
      * intros k' v Hk' Hg Hv. apply elem_of_cons in Hk' as [->|Hk']; [congruence|].
        now apply (J1 k').
      * intros v h Hv. destruct (J2 v h Hv) as [H1|(k' & C & key & Hk' & Hg & Hin & Hf)];
          [now left|].
        right. exists k', C, key. split; [now right|]. now repeat split.
      * intros v Hv Hall. apply J3; [exact Hv|].
        intros k' C key Hk' Hin. apply (Hall k'); [now right | exact Hin].
      * exact J4.
Qed.

(** The messages printed before a [return 1] of the retrievals name
    histograms that are absent, and there is at least one. *)
Definition names_absent (s : Z) (inFile : gmap string TH1) (m : msg) : Prop :=
  exists k v C key, k ∈ stages /\ gate s k = true /\ (v, C, key) ∈ gets k
                    /\ absent inFile C key /\ m = MsgMissingHist key.

Lemma retrieve_inl s inFile (done ks : list Z) p0 out0 out :
  (forall k, k ∈ stages -> k ∈ done \/ k ∈ ks) ->
  (forall k, k ∈ ks -> k ∈ stages) ->
  StronglySorted Z.lt ks ->
  (forall k v, k ∈ stages -> v ∈ checked k ->
     exists k' C key, k' ∈ stages /\ k' <= k /\ (v, C, key) ∈ gets k') ->
  (forall k v C key, k ∈ done -> gate s k = true -> (v, C, key) ∈ gets k ->
     p0 !! v = None -> MsgMissingHist key ∈ out0) ->
  (forall m, m ∈ out0 -> names_absent s inFile m) ->
  retrieve s inFile ks (p0, out0) = inl out ->
  out <> [] /\ forall m, m ∈ out -> names_absent s inFile m.
Proof.
  revert done p0 out0.
  induction ks as [|k ks IH]; intros done p0 out0 Hcov Hst Hsort HT Hinv Hsound Hr;
    [discriminate|].
  cbn [Plots.retrieve] in Hr.
  apply StronglySorted_inv in Hsort as [Hsort Hlt].
  assert (Hcov' : forall k', k' ∈ stages -> k' ∈ done ++ [k] \/ k' ∈ ks).
  { intros k' Hk'. destruct (Hcov k' Hk') as [H|H].
    - left. apply elem_of_app. now left.
    - apply elem_of_cons in H as [->|H]; [|now right].
      left. apply elem_of_app. right. left. }
  assert (Hst' : forall k', k' ∈ ks -> k' ∈ stages) by (intros; apply Hst; now right).
  destruct (gate s k) eqn:G.
  - destruct (get_stage_spec inFile (gets k) p0 out0) as (I1 & I2 & I3 & I4 & I5 & I6).
    cbn zeta in *.
    destruct (foldl (get_one inFile) (p0, out0) (gets k)) as [p1 out1].
    cbn [fst snd] in *.
    assert (Hinv1 : forall k' v C key, k' ∈ done ++ [k] -> gate s k' = true ->
              (v, C, key) ∈ gets k' -> p1 !! v = None -> MsgMissingHist key ∈ out1).
    { intros k' v C key Hk' Hg Hin Hnone. apply elem_of_app in Hk' as [Hk'|Hk'].
      - apply I5. apply (Hinv k' v C key Hk' Hg Hin). now apply I6.
      - apply list_elem_of_singleton in Hk'. subst k'. now apply (I3 v C key). }
    assert (Hsound1 : forall m, m ∈ out1 -> names_absent s inFile m).
    { intros m Hm. destruct (I4 m Hm) as [Ho|(v & C & key & Hin & Ha & ->)];
        [now apply Hsound|].
      exists k, v, C, key. split; [apply Hst; left|]. now repeat split. }
    destruct (existsb (is_null p1) (checked k)) eqn:Ex.
    + injection Hr as <-. split; [|exact Hsound1].
      apply existsb_exists in Ex as (v & Hv & Hnull). apply list_elem_of_In in Hv.
      unfold is_null in Hnull. destruct (p1 !! v) eqn:E; [discriminate|].
      destruct (HT k v (Hst k ltac:(left)) Hv) as (k' & C & key & Hk' & Hle & Hin).
      assert (Hk'' : k' ∈ done ++ [k]).
      { destruct (Hcov' k' Hk') as [H|H]; [exact H|].
        rewrite Forall_forall in Hlt. specialize (Hlt k' H). lia. }
      assert (Hg : gate s k' = true).
      { apply gate_selected. apply gate_selected in G. unfold selected in *. lia. }
      intros Hnil. pose proof (Hinv1 k' v C key Hk'' Hg Hin E) as Hm.
      rewrite Hnil in Hm. inversion Hm.
    + apply (IH (done ++ [k]) p1 out1); auto.
  - apply (IH (done ++ [k]) p0 out0); auto.
    intros k' v C key Hk' Hg Hin Hnone. apply elem_of_app in Hk' as [Hk'|Hk'].
    + now apply (Hinv k' v C key).
    + apply list_elem_of_singleton in Hk'. subst k'. congruence.
Qed.

(** A retrieved and tested histogram that is absent ends the run with
    code 1 before the document is opened. *)
Lemma main_missing_fatal disk argv inFile k v C key :
  ready disk argv inFile ->
  (forall k1 k2 v' C1 C2 key1 key2, k1 ∈ stages -> k2 ∈ stages ->
     (v', C1, key1) ∈ gets k1 -> (v', C2, key2) ∈ gets k2 -> C1 = C2 /\ key1 = key2) ->
  (forall k' v', k' ∈ stages -> v' ∈ checked k' ->
     exists k'' C' key', k'' ∈ stages /\ k'' <= k' /\ (v', C', key') ∈ gets k'') ->
  let s := Libc.to_int (Libc.atol (arg argv 2)) in
  k ∈ stages -> gate s k = true -> (v, C, key) ∈ gets k -> v ∈ checked k ->
  absent inFile C key ->
  exists out, main disk argv = stop out /\ out <> []
              /\ forall m, m ∈ out -> names_absent s inFile m.
Proof.
  intros Hr HU HT s Hk Hg Hin Hc Ha.
  rewrite (main_ready disk argv inFile Hr). fold s.
  destruct (retrieve s inFile stages (∅, [])) as [out|[p out]] eqn:E.
  - exists out. split; [reflexivity|].
    apply (retrieve_inl s inFile [] stages ∅ [] out); auto.
    + unfold stages. repeat constructor; lia.
    + intros k' v' C' key' H. inversion H.
    + intros m H. inversion H.
  - exfalso. destruct (retrieve_inr s inFile stages ∅ [] p out E) as (J1 & _ & J3 & _).
    destruct (J1 k v Hk Hg Hc) as [h Hh].
    rewrite J3 in Hh; [discriminate | apply lookup_empty |].
    intros k' C' key' Hk' Hin'.
    destruct (HU k k' v C C' key key' Hk Hk' Hin Hin') as [<- <-]. exact Ha.
Qed.



End Program.

End PlotsFacts.

(** ** The two plotting programs *)

Module PlotsClaims.
Import Root Prog ProgFacts RecoFacts Plots HistFacts PlotsFacts Samples.

Lemma same_variable_same_get (l : list (string * TClass * string))
    (v : string) (C1 C2 : TClass) (key1 key2 : string) :
  NoDup (map (fun g => fst (fst g)) l) ->
  (v, C1, key1) ∈ l -> (v, C2, key2) ∈ l -> C1 = C2 /\ key1 = key2.
Proof.
  induction l as [|g l IH]; intros Hn H1 H2; [inversion H1|].
  cbn in Hn. apply NoDup_cons in Hn as [Hg Hn].
  assert (Hin : forall C key, (v, C, key) ∈ l -> v ∈ map (fun g => fst (fst g)) l).
  { intros C key H. apply list_elem_of_In, in_map_iff. exists (v, C, key).
    split; [reflexivity | now apply list_elem_of_In]. }
  apply elem_of_cons in H1 as [E1|H1]; apply elem_of_cons in H2 as [E2|H2].
  - subst g. now injection E2 as <- <-.
  - subst g. exfalso. apply Hg. cbn. now apply (Hin C2 key2).
  - subst g. exfalso. apply Hg. cbn. now apply (Hin C1 key1).
  - now apply IH.
Qed.

Lemma in_some_stage {A} (f : Z -> list A) (k : Z) (x : A) :
  k ∈ stages -> x ∈ f k -> x ∈ flat_map f stages.
Proof.
  intros Hk Hx. apply list_elem_of_In, in_flat_map. exists k.
  split; now apply list_elem_of_In.
Qed.

Ltac in_list := repeat first [ apply list_elem_of_here | apply list_elem_of_further ].

Ltac each_stage H :=
  unfold stages in H; repeat (apply elem_of_cons in H as [->|H]); [ .. | inversion H ].

Ltac find_get k' :=
  exists k'; eexists; eexists;
  split; [unfold stages; in_list | split; [lia | cbn; in_list]]; fail.

Ltac has_get :=
  first [ find_get 1 | find_get 2 | find_get 3 | find_get 4 | find_get 5 ].


(** *** The tables of jetRecoExp_plots.cpp *)

Lemma exp_one_get k1 k2 v C1 C2 key1 key2 :
  k1 ∈ stages -> k2 ∈ stages ->
  (v, C1, key1) ∈ JetRecoExpPlots.gets k1 -> (v, C2, key2) ∈ JetRecoExpPlots.gets k2 ->
  C1 = C2 /\ key1 = key2.
Proof.
  intros Hk1 Hk2 H1 H2.
  apply (same_variable_same_get (flat_map JetRecoExpPlots.gets stages) v).
  - apply (bool_decide_unpack _). vm_compute. exact I.
  - now apply (in_some_stage _ k1).
  - now apply (in_some_stage _ k2).
Qed.

Lemma exp_checked_retrieved k v :
  k ∈ stages -> v ∈ JetRecoExpPlots.checked k ->
  exists k' C key, k' ∈ stages /\ k' <= k /\ (v, C, key) ∈ JetRecoExpPlots.gets k'.
Proof.
  intros Hk Hv. each_stage Hk; cbn in Hv;
    repeat (apply elem_of_cons in Hv as [->|Hv]; [has_get|]); inversion Hv.
Qed.

(** The test of stage 4 names [hist_truth_pt] where the two pointers
    [hist_reco_pt_jvf] and [hist_track_pt] would be: these two are the
    only retrieved histograms that are not tested. *)
Lemma exp_untested k v C key :
  k ∈ stages -> (v, C, key) ∈ JetRecoExpPlots.gets k ->
  v ∈ JetRecoExpPlots.checked k
  \/ key = "Step4_RecoJet_pt_jvf" \/ key = "Step4_TrackJet_pt".
Proof.
  intros Hk Hv. each_stage Hk; cbn in Hv;
    repeat (apply elem_of_cons in Hv as [[= -> -> ->]|Hv];
            [first [ left; cbn; in_list; fail | right; left; reflexivity
                   | right; right; reflexivity ]|]);
    inversion Hv.
Qed.


(** *** The tables of jetRecoGroom_plots.cpp *)

Lemma groom_one_get k1 k2 v C1 C2 key1 key2 :
  k1 ∈ stages -> k2 ∈ stages ->
  (v, C1, key1) ∈ JetRecoGroomPlots.gets k1 -> (v, C2, key2) ∈ JetRecoGroomPlots.gets k2 ->
  C1 = C2 /\ key1 = key2.
Proof.
  intros Hk1 Hk2 H1 H2.
  apply (same_variable_same_get (flat_map JetRecoGroomPlots.gets stages) v).
  - apply (bool_decide_unpack _). vm_compute. exact I.
  - now apply (in_some_stage _ k1).
  - now apply (in_some_stage _ k2).
Qed.

Lemma groom_checked_retrieved k v :
  k ∈ stages -> v ∈ JetRecoGroomPlots.checked k ->
  exists k' C key, k' ∈ stages /\ k' <= k /\ (v, C, key) ∈ JetRecoGroomPlots.gets k'.
Proof.
  intros Hk Hv. each_stage Hk; cbn in Hv;
    repeat (apply elem_of_cons in Hv as [->|Hv]; [has_get|]); inversion Hv.
Qed.

Lemma groom_all_tested k v C key :
  k ∈ stages -> (v, C, key) ∈ JetRecoGroomPlots.gets k -> v ∈ JetRecoGroomPlots.checked k.
Proof.
  intros Hk Hv. each_stage Hk; cbn in Hv;
    repeat (apply elem_of_cons in Hv as [[= -> -> ->]|Hv]; [cbn; in_list; fail|]);
    inversion Hv.
Qed.



(** *** Missing inputs *)

(** C2, as the code has it.  In the two plotting programs a retrieved
    histogram whose pointer is tested and which the input file does not
    hold (or holds with another class) ends the run with [return 1]
    before the document is opened, after a non-empty list of messages
    each of which names a histogram of a selected stage that is absent.
    [jetRecoGroom_plots] tests every pointer it retrieves, and so does
    [jetRecoExp_plots] but for those of [Step4_RecoJet_pt_jvf] and
    [Step4_TrackJet_pt].  The two reconstruction programs never look at
    what the wiring of a branch returns: once the tree is open no run
    exits with status 1. *)
Theorem missing_histogram_fatal_missing_column_not :
  (forall disk argv inFile k v C key,
      ready disk argv inFile ->
      let s := Libc.to_int (Libc.atol (arg argv 2)) in
      k ∈ stages -> gate s k = true ->
      (v, C, key) ∈ JetRecoExpPlots.gets k -> v ∈ JetRecoExpPlots.checked k ->
      absent inFile C key ->
      exists out, JetRecoExpPlots.main disk argv = Plots.stop out /\ out <> []
                  /\ forall m, m ∈ out -> names_absent JetRecoExpPlots.gets s inFile m)
  /\ (forall k v C key,
        k ∈ stages -> (v, C, key) ∈ JetRecoExpPlots.gets k ->
        v ∈ JetRecoExpPlots.checked k
        \/ key = "Step4_RecoJet_pt_jvf" \/ key = "Step4_TrackJet_pt")
  /\ (forall disk argv inFile k v C key,
        ready disk argv inFile ->
        let s := Libc.to_int (Libc.atol (arg argv 2)) in
        k ∈ stages -> gate s k = true ->
        (v, C, key) ∈ JetRecoGroomPlots.gets k ->
        absent inFile C key ->
        exists out, JetRecoGroomPlots.main disk argv = Plots.stop out /\ out <> []
                    /\ forall m, m ∈ out -> names_absent JetRecoGroomPlots.gets s inFile m)
  /\ (forall disk argv inTree,
        reaches (Event := JetRecoExp.Event) disk argv inTree ->
        Prog.exit_status (JetRecoExp.main disk argv) <> Exit 1)
  /\ (forall (PseudoJet : Type) (make_pseudojet : Q -> Q -> Q -> Q -> PseudoJet)
         (akt10_jets : list PseudoJet -> list PseudoJet)
         (trimmer : PseudoJet -> PseudoJet) (pt : PseudoJet -> Q)
         disk argv inTree,
        reaches (Event := JetRecoGroom.Event) disk argv inTree ->
        Prog.exit_status (JetRecoGroom.main make_pseudojet akt10_jets trimmer pt disk argv)
        <> Exit 1).
Proof.
  split; [|split; [|split; [|split]]].
  - intros disk argv inFile k v C key Hr s Hk Hg Hget Hc Ha.
    exact (main_missing_fatal JetRecoExpPlots.gets JetRecoExpPlots.checked
             JetRecoExpPlots.plot_stage disk argv inFile k v C key Hr
             exp_one_get exp_checked_retrieved Hk Hg Hget Hc Ha).
  - exact exp_untested.
  - intros disk argv inFile k v C key Hr s Hk Hg Hget Ha.
    exact (main_missing_fatal JetRecoGroomPlots.gets JetRecoGroomPlots.checked
             JetRecoGroomPlots.plot_stage disk argv inFile k v C key Hr
             groom_one_get groom_checked_retrieved Hk Hg Hget
             (groom_all_tested k v C key Hk Hget) Ha).
  - intros disk argv inTree Hr.
    destruct (main_effects JetRecoExp.vars0 JetRecoExp.stage_branches
                JetRecoExp.GetEntry JetRecoExp.event_body JetRecoExp.stage_decls
                disk argv inTree Hr) as (_ & _ & _ & H).
    fold JetRecoExp.main in H. destruct H as [-> | [f ->]]; discriminate.
  - intros PseudoJet make_pseudojet akt10_jets trimmer pt disk argv inTree Hr.
    destruct (main_effects JetRecoGroom.vars0 JetRecoGroom.stage_branches
                JetRecoGroom.GetEntry
                (JetRecoGroom.event_body make_pseudojet akt10_jets trimmer pt)
                JetRecoGroom.stage_decls disk argv inTree Hr) as (_ & _ & _ & H).
    fold (JetRecoGroom.main make_pseudojet akt10_jets trimmer pt) in H.
    destruct H as [-> | [f ->]]; discriminate.
Qed.

(** The claim as written fails for the columns: at step 1 on a tree
    without the branch [NPV], which stage 1 wires, the tree reports the
    unknown branch and the run goes on to write its histograms and to
    exit with status 0; at step 2 on a tree without [RecoJets_R4_pt] the
    vector pointer stays null, and the run aborts at its first use. *)
Lemma missing_column_not_fatal :
  let run1 := JetRecoExp.main (exp_disk_without "NPV") (reco_argv "1") in
  let run2 := JetRecoExp.main (exp_disk_without "RecoJets_R4_pt") (reco_argv "2") in
  "NPV" ∈ JetRecoExp.stage_branches 1
  /\ ("NPV" ∉ tBranches (exp_tree_without "NPV"))
  /\ Prog.exit_status run1 = Exit 0
  /\ complaints <$> reader run1 = Some [MsgUnknownBranch "NPV"; MsgUnknownBranch "NPV"]
  /\ map fName (written run1) = stage_writes JetRecoExp.stage_decls 1
  /\ "RecoJets_R4_pt" ∈ JetRecoExp.stage_branches 2
  /\ ("RecoJets_R4_pt" ∉ tBranches (exp_tree_without "RecoJets_R4_pt"))
  /\ Prog.exit_status run2 = Abort NullDeref.
Proof.
  cbn zeta.
  repeat split;
    first [ vm_compute; reflexivity | apply (bool_decide_unpack _); vm_compute; exact I ].
Qed.

(** A file without [Step1_mu], at step 1. *)
Lemma missing_histogram_fatal_missing_column_not_witness :
  let disk := hist_file (filter (fun h => fName h <> "Step1_mu") reco_output) in
  ready disk (plots_argv "1") (declare (filter (fun h => fName h <> "Step1_mu") reco_output))
  /\ absent (declare (filter (fun h => fName h <> "Step1_mu") reco_output)) TH1I "Step1_mu"
  /\ exists out, JetRecoExpPlots.main disk (plots_argv "1") = Plots.stop out /\ out <> [].
Proof.
  cbn zeta.
  set (inFile := declare (filter (fun h => fName h <> "Step1_mu") reco_output)).
  assert (Hr : ready (hist_file (filter (fun h => fName h <> "Step1_mu") reco_output))
                 (plots_argv "1") inFile).
  { split; [cbn; lia|]. split; [vm_compute; reflexivity|].
    split; [vm_compute; reflexivity|].
    split; [vm_compute; split; discriminate|]. vm_compute. reflexivity. }
  assert (Ha : absent inFile TH1I "Step1_mu") by (vm_compute; reflexivity).
  split; [exact Hr|]. split; [exact Ha|].
  destruct (proj1 missing_histogram_fatal_missing_column_not
              (hist_file (filter (fun h => fName h <> "Step1_mu") reco_output))
              (plots_argv "1") inFile 1 "hist_mu" TH1I "Step1_mu" Hr)
    as (out & Hm & Hne & _).
  - unfold stages. in_list.
  - vm_compute. reflexivity.
  - cbn. in_list.
  - cbn. in_list.
  - exact Ha.
  - exists out. split; [exact Hm | exact Hne].
Defined.

(** The slip in the test of stage 4 of [jetRecoExp_plots]: without
    [Step4_RecoJet_pt_jvf] the message is printed, the test passes, ten
    pages are printed, and the first use of the null pointer ends the run. *)
Lemma untested_histogram_crashes :
  let disk := hist_file (filter (fun h => fName h <> "Step4_RecoJet_pt_jvf")
                                (map fill_centre reco_output)) in
  let run := JetRecoExpPlots.main disk (plots_argv "4") in
  Plots.exit_status run = Abort NullDeref
  /\ Plots.stdout run = [MsgMissingHist "Step4_RecoJet_pt_jvf"]
  /\ length <$> pdf run = Some 10%nat.
Proof. cbn zeta. repeat split; vm_compute; reflexivity. Qed.

(** *** Normalisation *)





Lemma hist_file_lookup (l : list TH1) (inFile : gmap string TH1) :
  hist_file l !! "hists.root" = Some inFile -> inFile = declare l.
Proof.
  unfold hist_file. intros H. apply lookup_singleton_Some in H as [_ H]. now symmetry.
Qed.

Lemma declare_lookup (l : list TH1) (key : string) (h : TH1) :
  declare l !! key = Some h -> h ∈ l.
Proof.
  unfold declare. intros H. apply elem_of_list_to_map_2 in H.
  apply list_elem_of_In, in_map_iff in H as (h' & [= _ ->] & Hin).
  now apply list_elem_of_In.
Qed.

Lemma centre_fills_nonzero :
  Forall (fun h => Qeq_bool (Integral h) 0 = false) (map fill_centre reco_output).
Proof. apply (bool_decide_unpack _). vm_compute. exact I. Qed.


End PlotsClaims.

Module RecoRuns.
Import Root Prog ProgFacts RecoFacts Plots HistFacts PlotsFacts Samples.
Import Root Prog ProgFacts ReaderFacts RecoFacts Samples.

(** What the start-up checks of a reconstruction program promise: the
    run returns 1 exactly when the arguments do not lead to a tree; then
    one message is printed and nothing is opened or constructed, in
    particular no output file; the four checks are made in the order of
    the source.  Every other run has recreated the output file named by
    the first argument, whatever happens in the event loop. *)
Definition startup_contract {Event : Type}
    (main : gmap string (gmap string (TTree Event)) -> list string -> Run) : Prop :=
  forall disk argv,
    let run := main disk argv in
    let s := Libc.to_int (Libc.atol (arg argv 2)) in
    (exit_status run = Exit 1 <-> ~ exists t, reaches disk argv t)
    /\ (exit_status run = Exit 1 -> exists m, run = stop [m])
    /\ (exit_status run <> Exit 1 -> out_file run = Some (arg argv 1))
    /\ ((length argv < 5)%nat -> run = stop [MsgUsage])
    /\ ((5 <= length argv)%nat -> ~ (0 <= s <= 5) -> run = stop [MsgInvalidStep s])
    /\ ((5 <= length argv)%nat -> 0 <= s <= 5 -> disk !! arg argv 4 = None ->
        run = stop [MsgOpenFailed (arg argv 4)])
    /\ (forall inFile, (5 <= length argv)%nat -> 0 <= s <= 5 ->
        disk !! arg argv 4 = Some inFile -> inFile !! arg argv 3 = None ->
        run = stop [MsgNoTree (arg argv 3)]).

(** A written histogram is its declaration with the fills the run made
    to its name, in the order of the events. *)
Definition accumulated (decl : TH1) (run : Run) : TH1 :=
  foldl (fun h f => Fill (snd f) h) decl (fills_to (fName decl) (concat (fills run))).

Section Skeleton.
Context {Event Vars : Type}.
Variable vars0 : Vars.
Variable stage_branches : Z -> list string.
Variable GetEntry : Reader -> Event -> Vars -> Vars.
Variable event_body : Z -> Vars -> W unit.
Variable stage_decls : Z -> list TH1.

Local Abbreviation main :=
  (Prog.main vars0 stage_branches GetEntry event_body stage_decls).
Local Abbreviation event_loop := (Prog.event_loop GetEntry event_body).
Local Abbreviation all_decls := (Prog.all_decls stage_decls).

Lemma main_startup : startup_contract main.
Proof.
  intros disk argv run s.
  assert (Hu : (length argv < 5)%nat -> run = stop [MsgUsage])
    by (intros H; now apply main_usage).
  assert (Hi : (5 <= length argv)%nat -> ~ (0 <= s <= 5) ->
               run = stop [MsgInvalidStep s])
    by (intros H1 H2; now apply main_invalid).
  assert (Hlen : forall b : bool, (5 <= length argv)%nat -> (length argv <? 5)%nat = b -> b = false).
  { intros b H <-. apply Nat.ltb_ge. lia. }
  assert (Ho : (5 <= length argv)%nat -> 0 <= s <= 5 -> disk !! arg argv 4 = None ->
               run = stop [MsgOpenFailed (arg argv 4)]).
  { intros H1 H2 H3. subst run. unfold Prog.main.
    rewrite (Hlen _ H1 eq_refl). fold s.
    replace (invalid_step s) with false by (symmetry; now apply invalid_step_spec).
    now rewrite H3. }
  assert (Ht : forall inFile, (5 <= length argv)%nat -> 0 <= s <= 5 ->
               disk !! arg argv 4 = Some inFile -> inFile !! arg argv 3 = None ->
               run = stop [MsgNoTree (arg argv 3)]).
  { intros inFile H1 H2 H3 H4. subst run. unfold Prog.main.
    rewrite (Hlen _ H1 eq_refl). fold s.
    replace (invalid_step s) with false by (symmetry; now apply invalid_step_spec).
    now rewrite H3, H4. }
  assert (Hcases : (exists t, reaches disk argv t) \/ exists m, run = stop [m]).
  { destruct (decide (length argv < 5)%nat) as [H1|H1]; [right; eexists; now apply Hu|].
    destruct (decide (0 <= s <= 5)) as [H2|H2]; [|right; eexists; apply Hi; [lia|exact H2]].
    destruct (disk !! arg argv 4) as [inFile|] eqn:H3;
      [|right; eexists; apply Ho; [lia|exact H2|reflexivity]].
    destruct (inFile !! arg argv 3) as [t|] eqn:H4;
      [|right; eexists; apply (Ht inFile); [lia|exact H2|reflexivity|exact H4]].
    left. exists t. split; [lia|]. split; [exact H2|]. now exists inFile. }
  assert (Hreach : forall t, reaches disk argv t ->
            exit_status run <> Exit 1 /\ out_file run = Some (arg argv 1)).
  { intros t Hr. subst run.
    destruct (main_reaches vars0 stage_branches GetEntry event_body stage_decls
                disk argv t Hr) as (hs & out & fl & d & _ & ->).
    destruct d; split; cbn; congruence. }
  split; [split|split; [|split]].
  - intros H1 [t Hr]. now destruct (Hreach t Hr).
  - intros Hn. destruct Hcases as [Hr|[m ->]]; [contradiction|reflexivity].
  - intros H1. destruct Hcases as [[t Hr]|Hm]; [|exact Hm].
    now destruct (Hreach t Hr).
  - intros H1. destruct Hcases as [[t Hr]|[m Hm]]; [now destruct (Hreach t Hr)|].
    rewrite Hm in H1. now cbn in H1.
  - auto.
Qed.

(** *** The event loop *)

Lemma event_loop_histograms s r num i es v hs :
  (event_loop s r num i es v hs).1.1.1
  = apply_fills hs (concat (event_loop s r num i es v hs).1.2).
Proof.
  revert i v hs. induction es as [|e es IH]; intros i v hs; [reflexivity|].
  cbn [Prog.event_loop]. cbv zeta.
  destruct (faulted (event_body s (GetEntry r e v))).
  - cbn. now rewrite app_nil_r.
  - specialize (IH (i + 1) (GetEntry r e v)
                   (apply_fills hs (log (event_body s (GetEntry r e v))))).
    destruct (event_loop s r num (i + 1) es (GetEntry r e v) _) as [[[hs' out] fl] d].
    cbn in IH |- *. rewrite IH. unfold apply_fills. now rewrite foldl_app.
Qed.

Lemma event_loop_entered s r num i es v hs :
  let fl := (event_loop s r num i es v hs).1.2 in
  (length fl <= length es)%nat
  /\ ((event_loop s r num i es v hs).2 = None -> length fl = length es).
Proof.
  revert i v hs. induction es as [|e es IH]; intros i v hs; [cbn; auto|].
  cbn [Prog.event_loop]. cbv zeta.
  destruct (faulted (event_body s (GetEntry r e v))).
  - cbn. split; [lia|discriminate].
  - specialize (IH (i + 1) (GetEntry r e v)
                   (apply_fills hs (log (event_body s (GetEntry r e v))))).
    destruct (event_loop s r num (i + 1) es (GetEntry r e v) _) as [[[hs' out] fl] d].
    cbn in IH |- *. destruct IH as [IH1 IH2]. split; [lia|]. intros Hd. now rewrite IH2.
Qed.

(** The lines [Processing event i/n]: one for every event entered whose
    index is a multiple of 10000. *)
Definition progress_lines (numEvents : Z) (first : Z) (entered : nat) : list msg :=
  map (fun j => MsgProgress j numEvents)
      (filter (fun j => j mod 10000 = 0) (seqZ first (Z.of_nat entered))).

Lemma event_loop_progress s r num i es v hs :
  (event_loop s r num i es v hs).1.1.2
  = progress_lines num i (length (event_loop s r num i es v hs).1.2).
Proof.
  revert i v hs. induction es as [|e es IH]; intros i v hs; [reflexivity|].
  cbn [Prog.event_loop]. cbv zeta.
  assert (Hhead : forall n : nat,
            progress_lines num i (S n)
            = (if i mod 10000 =? 0 then [MsgProgress i num] else [])
              ++ progress_lines num (i + 1) n).
  { intros n. unfold progress_lines.
    rewrite seqZ_cons by lia. rewrite filter_cons.
    replace (Z.pred (Z.of_nat (S n))) with (Z.of_nat n) by lia.
    replace (Z.succ i) with (i + 1) by lia.
    destruct (Z.eqb_spec (i mod 10000) 0) as [E|E];
      destruct (decide (i mod 10000 = 0)); try contradiction; reflexivity. }
  destruct (faulted (event_body s (GetEntry r e v))).
  - cbn [fst snd length]. rewrite (Hhead 0%nat). unfold progress_lines.
    cbn. now rewrite app_nil_r.
  - specialize (IH (i + 1) (GetEntry r e v)
                   (apply_fills hs (log (event_body s (GetEntry r e v))))).
    destruct (event_loop s r num (i + 1) es (GetEntry r e v) _) as [[[hs' out] fl] d].
    cbn [fst snd length] in IH |- *. rewrite Hhead. now rewrite IH.
Qed.

Lemma declare_lookup_decl (decls : list TH1) (d : TH1) :
  NoDup (map fName decls) -> d ∈ decls -> declare decls !! fName d = Some d.
Proof.
  intros Hn Hd. unfold declare. apply elem_of_list_to_map_1.
  - replace ((map (fun h => (fName h, h)) decls).*1) with (map fName decls); [exact Hn|].
    clear. induction decls as [|h l IH]; [reflexivity|]. cbn. now rewrite IH.
  - apply list_elem_of_In, in_map_iff. exists d. split; [reflexivity|].
    now apply list_elem_of_In.
Qed.

Lemma names_of_all_decls :
  map fName all_decls = flat_map (stage_writes stage_decls) stages.
Proof.
  unfold Prog.all_decls, stage_writes. generalize stages. intros ks.
  induction ks as [|k ks IH]; [reflexivity|]. cbn. now rewrite map_app, IH.
Qed.

Lemma in_all_decls k d : k ∈ stages -> d ∈ stage_decls k -> d ∈ all_decls.
Proof.
  intros Hk Hd. apply list_elem_of_In, in_flat_map. exists k.
  split; now apply list_elem_of_In.
Qed.

Lemma main_accumulates disk argv t :
  NoDup (flat_map (stage_writes stage_decls) stages) ->
  reaches disk argv t ->
  let s := Libc.to_int (Libc.atol (arg argv 2)) in
  let run := main disk argv in
  exit_status run = Exit 0 ->
  forall k d, k ∈ stages -> gate s k = true -> d ∈ stage_decls k ->
    find_hist (fName d) (written run) = Some (accumulated d run).
Proof.
  intros Hn Hr s run He k d Hk Hg Hd. subst run.
  destruct (main_reaches vars0 stage_branches GetEntry event_body stage_decls
              disk argv t Hr) as (hs & out & fl & dd & Hloop & Hm).
  fold s in Hloop, Hm. rewrite Hm in He |- *. destruct dd as [f|]; [discriminate He|].
  cbn [written]. unfold accumulated. cbn [fills].
  pose proof (event_loop_histograms s (wire_branches stage_branches s t)
                (Z.of_nat (length (tEntries t))) 0 (tEntries t) vars0
                (declare all_decls)) as Hh.
  pose proof (event_loop_declared GetEntry event_body stage_decls
                s (wire_branches stage_branches s t)
                (Z.of_nat (length (tEntries t))) 0 (tEntries t) vars0
                (declare all_decls) (declared_init stage_decls))
    as [Hwn Hsome].
  rewrite Hloop in Hh, Hwn, Hsome. cbn [fst snd] in Hh, Hwn, Hsome.
  rewrite (Noninterference.find_written s stage_decls hs stages (fName d) Hwn).
  - rewrite bool_decide_eq_true_2.
    + rewrite Hh, Noninterference.apply_fills_lookup.
      rewrite (declare_lookup_decl all_decls d); [reflexivity| |now apply (in_all_decls k)].
      now rewrite names_of_all_decls.
    + apply list_elem_of_In, in_flat_map. exists k. split; [now apply list_elem_of_In|].
      rewrite Hg. apply list_elem_of_In, list_elem_of_In, in_map_iff. exists d.
      split; [reflexivity | now apply list_elem_of_In].
  - intros k' m Hk' Hm'. apply Hsome.
    now apply (stage_writes_declared stage_decls k').
Qed.

Lemma main_progress disk argv t :
  reaches disk argv t ->
  let run := main disk argv in
  stdout run = progress_lines (Z.of_nat (length (tEntries t))) 0 (length (fills run))
  /\ (length (fills run) <= length (tEntries t))%nat
  /\ (exit_status run = Exit 0 -> length (fills run) = length (tEntries t))
  /\ (forall f, exit_status run = Abort f -> (0 < length (fills run))%nat).
Proof.
  intros Hr run. subst run.
  destruct (main_reaches vars0 stage_branches GetEntry event_body stage_decls
              disk argv t Hr) as (hs & out & fl & dd & Hloop & Hm).
  set (s := Libc.to_int (Libc.atol (arg argv 2))) in *.
  set (r := wire_branches stage_branches s t) in *.
  pose proof (event_loop_progress s r (Z.of_nat (length (tEntries t))) 0
                (tEntries t) vars0 (declare all_decls)) as Hp.
  pose proof (event_loop_entered s r (Z.of_nat (length (tEntries t))) 0
                (tEntries t) vars0 (declare all_decls)) as [Hle Heq].
  rewrite Hloop in Hp, Hle, Heq. cbn [fst snd] in Hp, Hle, Heq.
  rewrite Hm. destruct dd as [f|]; cbn [stdout fills exit_status].
  - split; [exact Hp|]. split; [exact Hle|]. split; [discriminate|].
    intros _ _. destruct (tEntries t) as [|e es] eqn:E.
    + cbn in Hloop. discriminate Hloop.
    + cbn [Prog.event_loop] in Hloop. cbv zeta in Hloop.
      destruct (faulted (event_body s (GetEntry r e vars0))).
      * injection Hloop as _ _ <- _. cbn. lia.
      * destruct (Prog.event_loop GetEntry event_body s r _ _ es _ _) as [[[a b] c] d'].
        injection Hloop as _ _ <- _. cbn. lia.
  - split; [exact Hp|]. split; [exact Hle|]. split; [intros _; now apply Heq|].
    discriminate.
Qed.


Lemma main_step_by_value disk (argv : list string) (a : string) :
  Libc.to_int (Libc.atol a) = Libc.to_int (Libc.atol (arg argv 2)) ->
  main disk (<[2%nat := a]> argv) = main disk argv.
Proof.
  intros H. destruct (decide (2 < length argv)%nat) as [Hl|Hl].
  - assert (E : arg (<[2%nat := a]> argv) 2 = a).
    { unfold arg. rewrite nth_lookup. now rewrite list_lookup_insert_eq by exact Hl. }
    unfold Prog.main. rewrite length_insert, E, H.
    now rewrite !StepArgument.arg_insert_other by discriminate.
  - now rewrite list_insert_ge by lia.
Qed.

End Skeleton.

Section PlotsSkeleton.
Variable gets : Z -> list (string * TClass * string).
Variable checked : Z -> list string.
Variable plot_stage : Z -> list Plots.action.

Lemma plots_step_by_value disk (argv : list string) (a : string) :
  Libc.to_int (Libc.atol a) = Libc.to_int (Libc.atol (arg argv 2)) ->
  Plots.main gets checked plot_stage disk (<[2%nat := a]> argv)
  = Plots.main gets checked plot_stage disk argv.
Proof.
  intros H. destruct (decide (2 < length argv)%nat) as [Hl|Hl].
  - assert (E : arg (<[2%nat := a]> argv) 2 = a).
    { unfold arg. rewrite nth_lookup. now rewrite list_lookup_insert_eq by exact Hl. }
    unfold Plots.main. rewrite length_insert, E, H.
    now rewrite !StepArgument.arg_insert_other by discriminate.
  - now rewrite list_insert_ge by lia.
Qed.

End PlotsSkeleton.

(** What holds of the histograms a run writes. *)
Definition accumulation_contract {Event : Type} (stage_decls : Z -> list TH1)
    (main : gmap string (gmap string (TTree Event)) -> list string -> Run) : Prop :=
  forall disk argv t,
    reaches disk argv t ->
    let s := Libc.to_int (Libc.atol (arg argv 2)) in
    let run := main disk argv in
    exit_status run = Exit 0 ->
    forall k d, k ∈ stages -> gate s k = true -> d ∈ stage_decls k ->
      find_hist (fName d) (written run) = Some (accumulated d run).




(** X1. The start-up checks of the two reconstruction programs: a run
    returns 1 exactly when it has fewer than four arguments, a step
    number outside 0..5, an input file that does not open or no tree of
    the given name in it; the checks are made in that order, one message
    is printed, and the output file is not touched.  Every other run
    recreates the output file, also one that aborts in the event loop. *)
Theorem startup_checks_precede_output_file :
  startup_contract JetRecoExp.main
  /\ (forall (PseudoJet : Type) (make_pseudojet : Q -> Q -> Q -> Q -> PseudoJet)
        (akt10_jets : list PseudoJet -> list PseudoJet)
        (trimmer : PseudoJet -> PseudoJet) (pt : PseudoJet -> Q),
      startup_contract (JetRecoGroom.main make_pseudojet akt10_jets trimmer pt)).
Proof.
  split.
  - exact (main_startup JetRecoExp.vars0 JetRecoExp.stage_branches JetRecoExp.GetEntry
             JetRecoExp.event_body JetRecoExp.stage_decls).
  - intros PseudoJet make_pseudojet akt10_jets trimmer pt.
    exact (main_startup JetRecoGroom.vars0 JetRecoGroom.stage_branches
             JetRecoGroom.GetEntry
             (JetRecoGroom.event_body make_pseudojet akt10_jets trimmer pt)
             JetRecoGroom.stage_decls).
Qed.

Lemma startup_checks_precede_output_file_witness :
  let argv := ["reco"; "out.root"; "2"; "tree"; "nowhere.root"] in
  (5 <= length argv)%nat
  /\ 0 <= Libc.to_int (Libc.atol (arg argv 2)) <= 5
  /\ exp_disk !! arg argv 4 = None
  /\ JetRecoExp.main exp_disk argv = stop [MsgOpenFailed "nowhere.root"].
Proof.
  cbn zeta.
  assert (H1 : (5 <= length ["reco"; "out.root"; "2"; "tree"; "nowhere.root"])%nat)
    by (cbn; lia).
  assert (H2 : 0 <= Libc.to_int (Libc.atol
                      (arg ["reco"; "out.root"; "2"; "tree"; "nowhere.root"] 2)) <= 5)
    by (vm_compute; split; discriminate).
  assert (H3 : exp_disk !! arg ["reco"; "out.root"; "2"; "tree"; "nowhere.root"] 4 = None)
    by (vm_compute; reflexivity).
  split; [exact H1|]. split; [exact H2|]. split; [exact H3|].
  destruct (proj1 startup_checks_precede_output_file exp_disk
              ["reco"; "out.root"; "2"; "tree"; "nowhere.root"])
    as (_ & _ & _ & _ & _ & H & _).
  exact (H H1 H2 H3).
Defined.

(** X2. In both reconstruction programs, after a run that ends normally,
    every histogram of a selected stage is found in the output under its
    name, and it is the histogram as declared with the fills the events
    made to that name applied one after the other, in event order. *)
Theorem written_histograms_accumulate_fills :
  accumulation_contract JetRecoExp.stage_decls JetRecoExp.main
  /\ (forall (PseudoJet : Type) (make_pseudojet : Q -> Q -> Q -> Q -> PseudoJet)
        (akt10_jets : list PseudoJet -> list PseudoJet)
        (trimmer : PseudoJet -> PseudoJet) (pt : PseudoJet -> Q),
      accumulation_contract JetRecoGroom.stage_decls
        (JetRecoGroom.main make_pseudojet akt10_jets trimmer pt)).
Proof.
  split.
  - intros disk argv t Hr.
    exact (main_accumulates JetRecoExp.vars0 JetRecoExp.stage_branches JetRecoExp.GetEntry
             JetRecoExp.event_body JetRecoExp.stage_decls disk argv t
             LaterStages.exp_names_distinct Hr).
  - intros PseudoJet make_pseudojet akt10_jets trimmer pt disk argv t Hr.
    exact (main_accumulates JetRecoGroom.vars0 JetRecoGroom.stage_branches
             JetRecoGroom.GetEntry
             (JetRecoGroom.event_body make_pseudojet akt10_jets trimmer pt)
             JetRecoGroom.stage_decls disk argv t
             LaterStages.groom_names_distinct Hr).
Qed.

Lemma written_histograms_accumulate_fills_witness :
  let run := JetRecoExp.main exp_disk (reco_argv "2") in
  let d := new1 TH1F "Step2_RecoJet_pt" 199 10000 2000000 in
  reaches exp_disk (reco_argv "2") exp_tree
  /\ exit_status run = Exit 0
  /\ d ∈ JetRecoExp.stage_decls 2
  /\ find_hist "Step2_RecoJet_pt" (written run) = Some (accumulated d run).
Proof.
  cbn zeta.
  assert (Hr : reaches exp_disk (reco_argv "2") exp_tree)
    by (apply LaterStages.exp_sample_reaches; vm_compute; split; discriminate).
  assert (He : exit_status (JetRecoExp.main exp_disk (reco_argv "2")) = Exit 0)
    by (vm_compute; reflexivity).
  assert (Hd : new1 TH1F "Step2_RecoJet_pt" 199 10000 2000000 ∈ JetRecoExp.stage_decls 2)
    by (cbn; apply list_elem_of_further, list_elem_of_here).
  split; [exact Hr|]. split; [exact He|]. split; [exact Hd|].
  assert (Hk : 2 ∈ stages) by (unfold stages; apply list_elem_of_further, list_elem_of_here).
  exact (proj1 written_histograms_accumulate_fills exp_disk (reco_argv "2") exp_tree
           Hr He 2 (new1 TH1F "Step2_RecoJet_pt" 199 10000 2000000) Hk eq_refl Hd).
Defined.





(** X5. The step argument counts through the [int] it is narrowed to
    only: replacing it by any string that [atol] and the narrowing map
    to the same number changes nothing in a run of any of the four
    programs.  So "4294967298", which is 2 modulo 2^32, runs as step 2. *)
Theorem step_argument_counts_by_int_value (argv : list string) (a : string) :
  Libc.to_int (Libc.atol a) = Libc.to_int (Libc.atol (arg argv 2)) ->
  (forall disk, JetRecoExp.main disk (<[2%nat := a]> argv) = JetRecoExp.main disk argv)
  /\ (forall (PseudoJet : Type) (make_pseudojet : Q -> Q -> Q -> Q -> PseudoJet)
        (akt10_jets : list PseudoJet -> list PseudoJet)
        (trimmer : PseudoJet -> PseudoJet) (pt : PseudoJet -> Q) disk,
        JetRecoGroom.main make_pseudojet akt10_jets trimmer pt disk (<[2%nat := a]> argv)
        = JetRecoGroom.main make_pseudojet akt10_jets trimmer pt disk argv)
  /\ (forall disk, JetRecoExpPlots.main disk (<[2%nat := a]> argv)
                   = JetRecoExpPlots.main disk argv)
  /\ (forall disk, JetRecoGroomPlots.main disk (<[2%nat := a]> argv)
                   = JetRecoGroomPlots.main disk argv).
Proof.
  intros H. split; [|split; [|split]].
  - intros disk. now apply main_step_by_value.
  - intros. now apply main_step_by_value.
  - intros disk. now apply plots_step_by_value.
  - intros disk. now apply plots_step_by_value.
Qed.

Lemma step_argument_counts_by_int_value_witness :
  Libc.atol "4294967298" = 4294967298
  /\ Libc.to_int (Libc.atol "4294967298") = Libc.to_int (Libc.atol (arg (reco_argv "2") 2))
  /\ JetRecoExp.main exp_disk (reco_argv "4294967298") = JetRecoExp.main exp_disk (reco_argv "2").
Proof.
  assert (H : Libc.to_int (Libc.atol "4294967298")
              = Libc.to_int (Libc.atol (arg (reco_argv "2") 2)))
    by (vm_compute; reflexivity).
  split; [vm_compute; reflexivity|]. split; [exact H|].
  exact (proj1 (step_argument_counts_by_int_value (reco_argv "2") "4294967298" H) exp_disk).
Defined.

End RecoRuns.

Module GroomRuns.
Import Root Prog ProgFacts RecoFacts Plots HistFacts PlotsFacts Samples.
Import Root Prog ProgFacts ReaderFacts RecoFacts JetRecoGroom Samples.


(** What stage 3 needs: every cluster has its eta, phi and mass. *)
Definition clusters_complete (pts etas phis ms : list Q) : bool :=
  (length pts <=? length etas)%nat && (length pts <=? length phis)%nat
  && (length pts <=? length ms)%nat.






Section FastJet.
Context {PseudoJet : Type}.
Variable make_pseudojet : Q -> Q -> Q -> Q -> PseudoJet.
Variable akt10_jets : list PseudoJet -> list PseudoJet.
Variable trimmer : PseudoJet -> PseudoJet.
Variable pt : PseudoJet -> Q.

Local Abbreviation convert_clusters := (JetRecoGroom.convert_clusters make_pseudojet).
Local Abbreviation stage3_fill :=
  (JetRecoGroom.stage3_fill make_pseudojet akt10_jets trimmer pt).
Local Abbreviation event_body :=
  (JetRecoGroom.event_body make_pseudojet akt10_jets trimmer pt).
Local Abbreviation main := (JetRecoGroom.main make_pseudojet akt10_jets trimmer pt).

(** The four-vectors of the clusters of an entry, in cluster order. *)
Fixpoint pseudojets (pts etas phis ms : list Q) : list PseudoJet :=
  match pts, etas, phis, ms with
  | p :: pts', e :: etas', f :: phis', m :: ms' =>
      make_pseudojet p e f m :: pseudojets pts' etas' phis' ms'
  | _, _, _, _ => []
  end.

(** The fills of stage 3 from the jets the clustering returns. *)
Definition rebuilt_fills (w : Q) (jets : list PseudoJet) : list fill :=
  match jets with
  | [] => []
  | ungroomed :: _ =>
      [ (hist_myungroom_pt_nw, FillX (pt ungroomed));
        (hist_myungroom_pt, FillXW (pt ungroomed) w);
        (hist_mytrimmed_pt_nw, FillX (pt (trimmer ungroomed)));
        (hist_mytrimmed_pt, FillXW (pt (trimmer ungroomed)) w) ]
  end.

Lemma convert_clusters_done (v : Vars) (pts etas phis ms : list Q)
    (n i : nat) (acc : list PseudoJet) :
  cluster_pt v = Some pts -> cluster_eta v = Some etas ->
  cluster_phi v = Some phis -> cluster_m v = Some ms ->
  (i + n = length pts)%nat ->
  (length pts <= length etas)%nat -> (length pts <= length phis)%nat ->
  (length pts <= length ms)%nat ->
  convert_clusters n i v acc
  = ([], inr (acc ++ pseudojets (drop i pts) (drop i etas) (drop i phis) (drop i ms))).
Proof.
  intros H1 H2 H3 H4. revert i acc.
  induction n as [|n IH]; intros i acc Hn He Hf Hm.
  - cbn. rewrite (drop_ge pts) by lia. cbn. now rewrite app_nil_r.
  - cbn [JetRecoGroom.convert_clusters]. rewrite H1, H2, H3, H4. unfold at_.
    destruct (lookup_lt_is_Some_2 pts i ltac:(lia)) as [p Hp].
    destruct (lookup_lt_is_Some_2 etas i ltac:(lia)) as [e He'].
    destruct (lookup_lt_is_Some_2 phis i ltac:(lia)) as [f Hf'].
    destruct (lookup_lt_is_Some_2 ms i ltac:(lia)) as [m Hm'].
    rewrite Hp, He', Hf', Hm'. unfold mbind, W_bind. rewrite !bind_ret_l.
    rewrite IH by lia.
    rewrite (drop_S pts p i Hp), (drop_S etas e i He'), (drop_S phis f i Hf'),
      (drop_S ms m i Hm').
    cbn [pseudojets]. now rewrite <- app_assoc.
Qed.

Lemma convert_clusters_short (v : Vars) (pts etas phis ms : list Q)
    (n i : nat) (acc : list PseudoJet) :
  cluster_pt v = Some pts -> cluster_eta v = Some etas ->
  cluster_phi v = Some phis -> cluster_m v = Some ms ->
  (i + n <= length pts)%nat ->
  (i <= length etas)%nat -> (i <= length phis)%nat -> (i <= length ms)%nat ->
  (length etas < i + n \/ length phis < i + n \/ length ms < i + n)%nat ->
  convert_clusters n i v acc = ([], inl OutOfRange).
Proof.
  intros H1 H2 H3 H4. revert i acc.
  induction n as [|n IH]; intros i acc Hn Hie Hif Him Hs; [lia|].
  cbn [JetRecoGroom.convert_clusters]. rewrite H1, H2, H3, H4. unfold at_.
  destruct (lookup_lt_is_Some_2 pts i ltac:(lia)) as [p Hp]. rewrite Hp.
  unfold mbind, W_bind. rewrite bind_ret_l.
  destruct (etas !! i) as [e|] eqn:He; [rewrite bind_ret_l|reflexivity].
  destruct (phis !! i) as [f|] eqn:Hf; [rewrite bind_ret_l|reflexivity].
  destruct (ms !! i) as [m|] eqn:Hm; [rewrite !bind_ret_l|reflexivity].
  apply lookup_lt_Some in He, Hf, Hm.
  apply IH; lia.
Qed.

Lemma stage3_lists (v : Vars) (pts etas phis ms : list Q) :
  cluster_pt v = Some pts -> cluster_eta v = Some etas ->
  cluster_phi v = Some phis -> cluster_m v = Some ms ->
  stage3_fill v
  = if clusters_complete pts etas phis ms
    then (rebuilt_fills (EventWeight v) (akt10_jets (pseudojets pts etas phis ms)), inr tt)
    else ([], inl OutOfRange).
Proof.
  intros H1 H2 H3 H4. unfold JetRecoGroom.stage3_fill. rewrite H1.
  change (size (Some pts)) with (ret (length pts) : W nat).
  unfold mbind, W_bind. rewrite !bind_ret_l. unfold clusters_complete.
  destruct (Nat.leb_spec (length pts) (length etas)) as [He|He];
    [destruct (Nat.leb_spec (length pts) (length phis)) as [Hf|Hf];
     [destruct (Nat.leb_spec (length pts) (length ms)) as [Hm|Hm]|]|];
    cbn [andb].
  - rewrite (convert_clusters_done v _ _ _ _ _ 0 [] H1 H2 H3 H4) by (cbn; lia).
    rewrite !drop_0. cbn [app].
    change (([], inr ?x) : W (list PseudoJet)) with (ret x : W (list PseudoJet)).
    rewrite bind_ret_l. unfold rebuilt_fills.
    now destruct (akt10_jets _).
  - now rewrite (convert_clusters_short v _ _ _ _ _ 0 [] H1 H2 H3 H4) by (cbn; lia).
  - now rewrite (convert_clusters_short v _ _ _ _ _ 0 [] H1 H2 H3 H4) by (cbn; lia).
  - now rewrite (convert_clusters_short v _ _ _ _ _ 0 [] H1 H2 H3 H4) by (cbn; lia).
Qed.





End FastJet.

Section Loop.
Context {Event Vars : Type}.
Variable GetEntry : Reader -> Event -> Vars -> Vars.
Variable event_body : Z -> Vars -> W unit.


End Loop.





(** A stand-in for the clustering library: the four-vector is the
    quadruple, every cluster is a jet, trimming changes nothing. *)
Definition quad (p e f m : Q) : Q * Q * Q * Q := (p, e, f, m).
Definition quad_pt (j : Q * Q * Q * Q) : Q := j.1.1.1.


(** X7. The block of stage 3 in closed form.  With the four cluster
    vectors read, the loop turns the clusters into four-vectors one by
    one, in order, each from its own pt, eta, phi and mass; the four
    rebuilt-jet histograms are then filled from the first jet the
    clustering returns and from its trimmed version, or not at all when
    it returns none.  When a cluster lacks its eta, phi or mass the
    block ends in [std::out_of_range] before any fill; when the pt
    vector was never read, in a null dereference. *)
Theorem rebuilt_jets_come_from_all_clusters
    (PseudoJet : Type) (make_pseudojet : Q -> Q -> Q -> Q -> PseudoJet)
    (akt10_jets : list PseudoJet -> list PseudoJet)
    (trimmer : PseudoJet -> PseudoJet) (pt : PseudoJet -> Q) (v : Vars) :
  (forall pts etas phis ms,
      cluster_pt v = Some pts -> cluster_eta v = Some etas ->
      cluster_phi v = Some phis -> cluster_m v = Some ms ->
      JetRecoGroom.stage3_fill make_pseudojet akt10_jets trimmer pt v
      = if clusters_complete pts etas phis ms
        then (rebuilt_fills trimmer pt (EventWeight v)
                (akt10_jets (pseudojets make_pseudojet pts etas phis ms)), inr tt)
        else ([], inl OutOfRange))
  /\ (cluster_pt v = None ->
      JetRecoGroom.stage3_fill make_pseudojet akt10_jets trimmer pt v
      = ([], inl NullDeref)).
Proof.
  split.
  - intros pts etas phis ms. apply stage3_lists.
  - intros H. unfold JetRecoGroom.stage3_fill. now rewrite H.
Qed.

Definition two_clusters : Vars :=
  mkVars 20 10 2 None None None None
         (Some [300000%Q; 200000%Q]) (Some [0%Q; 1%Q])
         (Some [0%Q; 0%Q]) (Some [0%Q; 0%Q]).

Lemma rebuilt_jets_come_from_all_clusters_witness :
  JetRecoGroom.stage3_fill quad id id quad_pt two_clusters
  = ([ (hist_myungroom_pt_nw, FillX 300000); (hist_myungroom_pt, FillXW 300000 2);
       (hist_mytrimmed_pt_nw, FillX 300000); (hist_mytrimmed_pt, FillXW 300000 2) ],
     inr tt).
Proof.
  exact (proj1 (rebuilt_jets_come_from_all_clusters _ quad id id quad_pt two_clusters)
           [300000%Q; 200000%Q] [0%Q; 1%Q] [0%Q; 0%Q] [0%Q; 0%Q]
           eq_refl eq_refl eq_refl eq_refl).
Defined.

End GroomRuns.

Module MissingWeight.
Import Root Prog ProgFacts RecoFacts Plots HistFacts PlotsFacts Samples.
Import Root Prog ProgFacts ReaderFacts RecoFacts Always Noninterference Samples.

Section Loop.
Context {Event Vars : Type}.
Variable GetEntry : Reader -> Event -> Vars -> Vars.
Variable event_body : Z -> Vars -> W unit.

Lemma event_loop_fills_inv (P : Vars -> Prop) (F : list fill -> Prop)
    s r num i es v hs :
  P v -> (forall e v', P v' -> P (GetEntry r e v')) ->
  (forall v', P v' -> F (log (event_body s v'))) ->
  Forall F (Prog.event_loop GetEntry event_body s r num i es v hs).1.2.
Proof.
  intros Hv Hget Hbody. revert i v hs Hv.
  induction es as [|e es IH]; intros i v hs Hv; [constructor|].
  cbn [Prog.event_loop]. cbv zeta.
  destruct (faulted (event_body s (GetEntry r e v))).
  - cbn. constructor; [|constructor]. apply Hbody. now apply Hget.
  - specialize (IH (i + 1) (GetEntry r e v)
                   (apply_fills hs (log (event_body s (GetEntry r e v))))
                   (Hget e v Hv)).
    destruct (Prog.event_loop GetEntry event_body s r num (i + 1) es _ _) as [[[a b] c] d].
    cbn in IH |- *. constructor; [|exact IH]. apply Hbody. now apply Hget.
Qed.

End Loop.

Lemma unstored_branch_not_read {Event : Type} (stage_branches : Z -> list string)
    (s : Z) (t : TTree Event) (n : string) :
  0 <= s <= 5 -> n ∉ tBranches t ->
  reads (wire_branches stage_branches s t) n = false.
Proof.
  intros Hs Hn.
  assert (G1 : gate s 1 = true) by (apply gate_selected; unfold selected; lia).
  destruct (reads (wire_branches stage_branches s t) n) eqn:E; [|reflexivity].
  apply (proj1 (wire_branches_spec stage_branches s t G1)) in E as [_ E]. contradiction.
Qed.

(** X8. On a tree that does not store [EventWeight] the weight variable
    keeps its initial value 0 through the whole run: in both
    reconstruction programs every weighted fill of every event is made
    with weight 0. *)
Theorem missing_event_weight_fills_with_zero :
  (forall disk argv (t : TTree JetRecoExp.Event),
      reaches disk argv t -> "EventWeight" ∉ tBranches t ->
      Forall (Forall (weighted_by 0)) (fills (JetRecoExp.main disk argv)))
  /\ (forall (PseudoJet : Type) (make_pseudojet : Q -> Q -> Q -> Q -> PseudoJet)
        (akt10_jets : list PseudoJet -> list PseudoJet)
        (trimmer : PseudoJet -> PseudoJet) (pt : PseudoJet -> Q)
        disk argv (t : TTree JetRecoGroom.Event),
      reaches disk argv t -> "EventWeight" ∉ tBranches t ->
      Forall (Forall (weighted_by 0))
             (fills (JetRecoGroom.main make_pseudojet akt10_jets trimmer pt disk argv))).
Proof.
  split.
  - intros disk argv t Hr Hn.
    destruct (main_reaches JetRecoExp.vars0 JetRecoExp.stage_branches JetRecoExp.GetEntry
                JetRecoExp.event_body JetRecoExp.stage_decls disk argv t Hr)
      as (hs & out & fl & d & Hloop & Hm).
    assert (Hfl : fills (JetRecoExp.main disk argv) = fl)
      by (unfold JetRecoExp.main; rewrite Hm; now destruct d).
    rewrite Hfl.
    pose proof (event_loop_fills_inv JetRecoExp.GetEntry JetRecoExp.event_body
                  (fun v => JetRecoExp.EventWeight v = 0%Q) (Forall (weighted_by 0))
                  (Libc.to_int (Libc.atol (arg argv 2)))
                  (wire_branches JetRecoExp.stage_branches
                     (Libc.to_int (Libc.atol (arg argv 2))) t)
                  (Z.of_nat (length (tEntries t))) 0 (tEntries t) JetRecoExp.vars0
                  (declare (all_decls JetRecoExp.stage_decls)) eq_refl) as H.
    rewrite Hloop in H. apply H.
    + intros e v' Hv'. unfold JetRecoExp.GetEntry, load. cbn [JetRecoExp.EventWeight].
      rewrite (unstored_branch_not_read _ _ t "EventWeight"); [exact Hv'| |exact Hn].
      now destruct Hr as (_ & Hs & _).
    + intros v' Hv'. rewrite <- Hv'. apply WeightFacts.exp_body_weight.
  - intros PseudoJet make_pseudojet akt10_jets trimmer pt disk argv t Hr Hn.
    destruct (main_reaches JetRecoGroom.vars0 JetRecoGroom.stage_branches
                JetRecoGroom.GetEntry
                (JetRecoGroom.event_body make_pseudojet akt10_jets trimmer pt)
                JetRecoGroom.stage_decls disk argv t Hr)
      as (hs & out & fl & d & Hloop & Hm).
    assert (Hfl : fills (JetRecoGroom.main make_pseudojet akt10_jets trimmer pt disk argv)
                  = fl)
      by (unfold JetRecoGroom.main; rewrite Hm; now destruct d).
    rewrite Hfl.
    pose proof (event_loop_fills_inv JetRecoGroom.GetEntry
                  (JetRecoGroom.event_body make_pseudojet akt10_jets trimmer pt)
                  (fun v => JetRecoGroom.EventWeight v = 0%Q) (Forall (weighted_by 0))
                  (Libc.to_int (Libc.atol (arg argv 2)))
                  (wire_branches JetRecoGroom.stage_branches
                     (Libc.to_int (Libc.atol (arg argv 2))) t)
                  (Z.of_nat (length (tEntries t))) 0 (tEntries t) JetRecoGroom.vars0
                  (declare (all_decls JetRecoGroom.stage_decls)) eq_refl) as H.
    rewrite Hloop in H. apply H.
    + intros e v' Hv'. unfold JetRecoGroom.GetEntry, load. cbn [JetRecoGroom.EventWeight].
      rewrite (unstored_branch_not_read _ _ t "EventWeight"); [exact Hv'| |exact Hn].
      now destruct Hr as (_ & Hs & _).
    + intros v' Hv'. rewrite <- Hv'. apply WeightFacts.groom_body_weight.
Qed.

Lemma missing_event_weight_fills_with_zero_witness :
  let run := JetRecoExp.main (exp_disk_without "EventWeight") (reco_argv "2") in
  reaches (exp_disk_without "EventWeight") (reco_argv "2") (exp_tree_without "EventWeight")
  /\ ("EventWeight" ∉ tBranches (exp_tree_without "EventWeight"))
  /\ Forall (Forall (weighted_by 0)) (fills run)
  /\ fills_to "Step2_RecoJet_pt" (concat (fills run))
     = [("Step2_RecoJet_pt", FillXW 45000 0)].
Proof.
  cbn zeta.
  assert (Hr : reaches (exp_disk_without "EventWeight") (reco_argv "2")
                 (exp_tree_without "EventWeight")).
  { split; [cbn; lia|]. split; [vm_compute; split; discriminate|].
    exists {[ "tree" := exp_tree_without "EventWeight" ]}. split; vm_compute; reflexivity. }
  assert (Hn : "EventWeight" ∉ tBranches (exp_tree_without "EventWeight"))
    by (apply (bool_decide_unpack _); vm_compute; exact I).
  split; [exact Hr|]. split; [exact Hn|].
  split; [exact (proj1 missing_event_weight_fills_with_zero _ _ _ Hr Hn)|].
  vm_compute. reflexivity.
Defined.

End MissingWeight.

Module ExpRuns.
Import Root Prog ProgFacts RecoFacts Plots HistFacts PlotsFacts Samples.
Import Root Prog ProgFacts ReaderFacts RecoFacts JetRecoExp JetRecoExpFacts Samples.
Import GroomRuns.

(** The two fills from the leading jet of a collection. *)
Definition leading (nw w : string) (pts : list Q) (weight : Q) : list fill :=
  match pts with
  | [] => []
  | p :: _ => [(nw, FillX p); (w, FillXW p weight)]
  end.

(** The fills of one entry at step [s]. *)
Definition event_fills (s : Z) (e : Event) : list fill :=
  [ (hist_mu, FillX (ev_mu_average e));
    (hist_npv, FillX (inject_Z (ev_NPV e)));
    (hist_mu_npv, FillXY (ev_mu_average e) (inject_Z (ev_NPV e))) ]
  ++ (if gate s 2
      then leading hist_reco_pt_nw hist_reco_pt (ev_RecoJets_R4_pt e) (ev_EventWeight e)
           ++ leading hist_truth_pt_nw hist_truth_pt (ev_TruthJets_R4_pt e)
                      (ev_EventWeight e)
      else []).


Lemma stage2_log (v : Vars) (reco truth : list Q) :
  RecoJet_pt v = Some reco -> TruthJet_pt v = Some truth ->
  stage2_fill v
  = (leading hist_reco_pt_nw hist_reco_pt reco (EventWeight v)
     ++ leading hist_truth_pt_nw hist_truth_pt truth (EventWeight v), inr tt).
Proof.
  intros H1 H2. unfold stage2_fill. rewrite H1, H2.
  destruct reco as [|p ps], truth as [|q qs]; reflexivity.
Qed.


Lemma event_body_log (s : Z) (v : Vars) (reco truth : list Q) :
  gate s 1 = true ->
  (gate s 2 = true -> RecoJet_pt v = Some reco /\ TruthJet_pt v = Some truth) ->
  event_body s v
  = ([ (hist_mu, FillX (mu_average v)); (hist_npv, FillX (inject_Z (NPV v)));
       (hist_mu_npv, FillXY (mu_average v) (inject_Z (NPV v))) ]
     ++ (if gate s 2
         then leading hist_reco_pt_nw hist_reco_pt reco (EventWeight v)
              ++ leading hist_truth_pt_nw hist_truth_pt truth (EventWeight v)
         else []),
     inr tt).
Proof.
  intros G1 H2. unfold event_body. rewrite G1.
  destruct (gate s 2).
  - destruct (H2 eq_refl) as [Hr Ht]. rewrite (stage2_log v reco truth Hr Ht).
    destruct (leading hist_reco_pt_nw hist_reco_pt reco (EventWeight v)
              ++ leading hist_truth_pt_nw hist_truth_pt truth (EventWeight v)) eqn:E;
      destruct (gate s 3), (gate s 4), (gate s 5); cbn; rewrite ?app_nil_r; reflexivity.
  - destruct (gate s 3), (gate s 4), (gate s 5); reflexivity.
Qed.


Section Loop.
Context {Event Vars : Type}.
Variable GetEntry : Reader -> Event -> Vars -> Vars.
Variable event_body : Z -> Vars -> W unit.

Lemma event_loop_closed (F : Event -> list fill) s r num i es v hs :
  (forall e v', event_body s (GetEntry r e v') = (F e, inr tt)) ->
  (Prog.event_loop GetEntry event_body s r num i es v hs).1.2 = map F es
  /\ (Prog.event_loop GetEntry event_body s r num i es v hs).2 = None.
Proof.
  intros H. revert i v hs. induction es as [|e es IH]; intros i v hs; [now split|].
  cbn [Prog.event_loop]. cbv zeta. rewrite (H e v). cbn [faulted snd log fst].
  specialize (IH (i + 1) (GetEntry r e v) (apply_fills hs (F e))).
  destruct (Prog.event_loop GetEntry event_body s r num (i + 1) es _ _) as [[[a b] c] d].
  cbn [fst snd] in IH |- *. destruct IH as [-> ->]. now split.
Qed.


End Loop.



Lemma exp_entry_fills (s : Z) (t : TTree Event) (e : Event) (v0 : Vars) :
  0 <= s <= 5 ->
  (forall b, b ∈ flat_map stage_branches (selected_stages s) -> b ∈ tBranches t) ->
  event_body s (GetEntry (wire_branches stage_branches s t) e v0)
  = (event_fills s e, inr tt).
Proof.
  intros Hs Hb.
  assert (G1 : gate s 1 = true) by (apply gate_selected; unfold selected; lia).
  assert (K1 : 1 ∈ stages) by (unfold stages; apply list_elem_of_here).
  assert (K2 : 2 ∈ stages) by (unfold stages; apply list_elem_of_further, list_elem_of_here).
  set (v := GetEntry (wire_branches stage_branches s t) e v0).
  assert (Hmu : mu_average v = ev_mu_average e /\ NPV v = ev_NPV e).
  { subst v. unfold GetEntry, load. cbn [mu_average NPV].
    rewrite !(selected_branch_read s t 1 _ Hs K1 G1)
      by (try exact Hb; cbn; repeat first [apply list_elem_of_here | apply list_elem_of_further]).
    now split. }
  assert (H2 : gate s 2 = true ->
               EventWeight v = ev_EventWeight e
               /\ RecoJet_pt v = Some (ev_RecoJets_R4_pt e)
               /\ TruthJet_pt v = Some (ev_TruthJets_R4_pt e)).
  { intros G2. subst v. unfold GetEntry, load. cbn [EventWeight RecoJet_pt TruthJet_pt].
    rewrite !(selected_branch_read s t 2 _ Hs K2 G2)
      by (try exact Hb; cbn; repeat first [apply list_elem_of_here | apply list_elem_of_further]).
    repeat split. }
  rewrite (event_body_log s v (ev_RecoJets_R4_pt e) (ev_TruthJets_R4_pt e) G1)
    by (intros G2; now destruct (H2 G2) as (_ & A & B)).
  destruct Hmu as [-> ->]. unfold event_fills.
  destruct (gate s 2); [|reflexivity]. now destruct (H2 eq_refl) as (-> & _).
Qed.

Lemma exp_run_closed (disk : gmap string (gmap string (TTree Event)))
    (argv : list string) (t : TTree Event) :
  let s := Libc.to_int (Libc.atol (arg argv 2)) in
  reaches disk argv t ->
  (forall b, b ∈ flat_map stage_branches (selected_stages s) -> b ∈ tBranches t) ->
  fills (main disk argv) = map (event_fills s) (tEntries t)
  /\ exit_status (main disk argv) = Exit 0.
Proof.
  intros s Hr Hb.
  destruct (main_reaches vars0 stage_branches GetEntry event_body stage_decls
              disk argv t Hr) as (hs & out & fl & d & Hloop & Hm).
  fold s in Hloop. unfold main. rewrite Hm.
  destruct (event_loop_closed GetEntry event_body (event_fills s) s
              (wire_branches stage_branches s t) (Z.of_nat (length (tEntries t))) 0
              (tEntries t) vars0 (declare (all_decls stage_decls))) as [H1 H2].
  - intros e v'. apply exp_entry_fills; [|exact Hb]. now destruct Hr as (_ & Hs & _).
  - rewrite Hloop in H1, H2. cbn [fst snd] in H1, H2. subst d. now split.
Qed.

(** X9. The fills of a run of jetRecoExp in closed form.  When the
    tree stores the branches of the selected stages, every entry is
    entered, and entry by entry the run fills the three stage-1
    histograms from [mu_average] and [NPV], and, if stage 2 is selected,
    the two reco and the two truth leading-pT histograms from the first
    element of [RecoJets_R4_pt] and of [TruthJets_R4_pt], once with
    weight one and once with the [EventWeight] of the entry; an empty
    collection gives no fill, and no other histogram is ever filled. *)
Theorem exp_fills_in_closed_form
    (disk : gmap string (gmap string (TTree Event))) (argv : list string)
    (t : TTree Event) :
  let s := Libc.to_int (Libc.atol (arg argv 2)) in
  reaches disk argv t ->
  (forall b, b ∈ flat_map stage_branches (selected_stages s) -> b ∈ tBranches t) ->
  fills (main disk argv) = map (event_fills s) (tEntries t).
Proof. intros s Hr Hb. now apply exp_run_closed. Qed.


Lemma exp_fills_in_closed_form_witness :
  reaches exp_disk (reco_argv "2") exp_tree
  /\ fills (main exp_disk (reco_argv "2"))
     = [[ (hist_mu, FillX 20); (hist_npv, FillX (inject_Z 10));
          (hist_mu_npv, FillXY 20 (inject_Z 10));
          (hist_reco_pt_nw, FillX 45000); (hist_reco_pt, FillXW 45000 2);
          (hist_truth_pt_nw, FillX 50000); (hist_truth_pt, FillXW 50000 2) ]].
Proof.
  assert (Hr : reaches exp_disk (reco_argv "2") exp_tree)
    by (apply LaterStages.exp_sample_reaches; vm_compute; split; discriminate).
  split; [exact Hr|].
  rewrite (exp_fills_in_closed_form exp_disk (reco_argv "2") exp_tree Hr
             ltac:(apply Forall_forall; apply (bool_decide_unpack _); vm_compute; exact I)).
  vm_compute. reflexivity.
Defined.



End ExpRuns.

Module PlotSyntax.
Import Root Prog ProgFacts RecoFacts Plots HistFacts PlotsFacts Samples.
Import Root Prog ProgFacts Plots HistFacts PlotsFacts.

(** The statements of the plotting part, by what they do to a pointer
    variable; [denote] gives each its meaning. *)
Inductive stmt :=
| SStyle (v : string)
| SScale (v : string)
| SNormalise (v : string)
| SDraw (v : string)
| SDrawSame (v : string)
| SPrint.

#[global] Instance stmt_eq_dec : EqDecision stmt.
Proof. solve_decision. Defined.

Definition denote (c : stmt) : action :=
  match c with
  | SStyle v => Style v
  | SScale v => ScaleMeVToGeV v
  | SNormalise v => Normalise v
  | SDraw v => Draw v
  | SDrawSame v => DrawSame v
  | SPrint => Print
  end.

(** The variables a list of statements dereferences, rescales and
    normalises, and the pages it prints. *)
Definition target (c : stmt) : option string :=
  match c with
  | SStyle v | SScale v | SNormalise v | SDraw v | SDrawSame v => Some v
  | SPrint => None
  end.

Definition uses (l : list stmt) : list string := omap target l.

Definition scaled (l : list stmt) : list string :=
  omap (fun c => match c with SScale v => Some v | _ => None end) l.

Definition normed (l : list stmt) : list string :=
  omap (fun c => match c with SNormalise v => Some v | _ => None end) l.

Definition prints (l : list stmt) : nat :=
  length (omap (fun c => match c with SPrint => Some tt | _ => None end) l).

Definition exp_stmts (k : Z) : list stmt :=
  match k with
  | 1 => [ SStyle "hist_mu"; SDraw "hist_mu"; SPrint;
         SStyle "hist_npv"; SDraw "hist_npv"; SPrint;
         SStyle "hist_mu_npv"; SDraw "hist_mu_npv"; SPrint ]
  | 2 => [ SStyle "hist_truth_pt_nw"; SScale "hist_truth_pt_nw";
         SStyle "hist_truth_pt_nw"; SDraw "hist_truth_pt_nw";
         SStyle "hist_reco_pt_nw"; SScale "hist_reco_pt_nw";
         SDrawSame "hist_reco_pt_nw"; SPrint;
         SStyle "hist_truth_pt"; SScale "hist_truth_pt"; SStyle "hist_truth_pt";
         SDraw "hist_truth_pt"; SStyle "hist_reco_pt"; SScale "hist_reco_pt";
         SDrawSame "hist_reco_pt"; SPrint ]
  | 3 => [ SNormalise "hist_reco_njets_highmu"; SStyle "hist_reco_njets_highmu";
         SDraw "hist_reco_njets_highmu"; SNormalise "hist_reco_njets_midmu";
         SStyle "hist_reco_njets_midmu"; SDrawSame "hist_reco_njets_midmu";
         SNormalise "hist_reco_njets_lowmu"; SStyle "hist_reco_njets_lowmu";
         SDrawSame "hist_reco_njets_lowmu"; SPrint;
         SNormalise "hist_truth_njets_highmu"; SStyle "hist_truth_njets_highmu";
         SDraw "hist_truth_njets_highmu"; SNormalise "hist_truth_njets_midmu";
         SStyle "hist_truth_njets_midmu"; SDrawSame "hist_truth_njets_midmu";
         SNormalise "hist_truth_njets_lowmu"; SStyle "hist_truth_njets_lowmu";
         SDrawSame "hist_truth_njets_lowmu"; SPrint;
         SStyle "hist_reco_njets_mu_npv"; SDraw "hist_reco_njets_mu_npv"; SPrint;
         SStyle "hist_truth_njets_mu_npv"; SDraw "hist_truth_njets_mu_npv"; SPrint ]
  | 4 => [ SNormalise "hist_reco_jvf_pt20"; SStyle "hist_reco_jvf_pt20";
         SDraw "hist_reco_jvf_pt20"; SNormalise "hist_reco_jvf_pt60";
         SStyle "hist_reco_jvf_pt60"; SDrawSame "hist_reco_jvf_pt60";
         SNormalise "hist_reco_jvf_pt100"; SStyle "hist_reco_jvf_pt100";
         SDrawSame "hist_reco_jvf_pt100"; SPrint;
         SStyle "hist_truth_pt"; SDraw "hist_truth_pt"; SDrawSame "hist_reco_pt";
         SStyle "hist_reco_pt_jvf"; SScale "hist_reco_pt_jvf";
         SDrawSame "hist_reco_pt_jvf"; SPrint;
         SNormalise "hist_track_njets_highmu"; SStyle "hist_track_njets_highmu";
         SDraw "hist_track_njets_highmu"; SNormalise "hist_track_njets_midmu";
         SStyle "hist_track_njets_midmu"; SDrawSame "hist_track_njets_midmu";
         SNormalise "hist_track_njets_lowmu"; SStyle "hist_track_njets_lowmu";
         SDrawSame "hist_track_njets_lowmu"; SPrint;
         SStyle "hist_track_njets_mu_npv"; SDraw "hist_track_njets_mu_npv"; SPrint;
         SStyle "hist_truth_pt"; SDraw "hist_truth_pt";
         SDrawSame "hist_reco_pt_jvf"; SStyle "hist_track_pt";
         SScale "hist_track_pt"; SDrawSame "hist_track_pt"; SPrint ]
  | 5 => [ SNormalise "hist_DRtruth_reco"; SStyle "hist_DRtruth_reco";
         SDraw "hist_DRtruth_reco"; SNormalise "hist_DRtruth_reco_jvf";
         SStyle "hist_DRtruth_reco_jvf"; SDrawSame "hist_DRtruth_reco_jvf";
         SNormalise "hist_DRtruth_track"; SStyle "hist_DRtruth_track";
         SDrawSame "hist_DRtruth_track"; SPrint;
         SNormalise "hist_response_reco_pt20"; SStyle "hist_response_reco_pt20";
         SNormalise "hist_response_reco_pt100"; SStyle "hist_response_reco_pt100";
         SNormalise "hist_response_reco_pt1000";
         SStyle "hist_response_reco_pt1000"; SStyle "hist_response_reco_pt20";
         SDraw "hist_response_reco_pt20"; SDrawSame "hist_response_reco_pt100";
         SDrawSame "hist_response_reco_pt1000"; SPrint;
         SNormalise "hist_response_track_pt20"; SStyle "hist_response_track_pt20";
         SNormalise "hist_response_track_pt100";
         SStyle "hist_response_track_pt100";
         SNormalise "hist_response_track_pt1000";
         SStyle "hist_response_track_pt1000"; SStyle "hist_response_track_pt20";
         SDraw "hist_response_track_pt20"; SDrawSame "hist_response_track_pt100";
         SDrawSame "hist_response_track_pt1000"; SPrint ]
  | _ => []
  end.

Definition groom_stmts (k : Z) : list stmt :=
  match k with
  | 1 => [ SStyle "hist_mu"; SDraw "hist_mu"; SPrint;
         SStyle "hist_npv"; SDraw "hist_npv"; SPrint ]
  | 2 => [ SStyle "hist_ungroom_pt_nw"; SScale "hist_ungroom_pt_nw";
         SStyle "hist_ungroom_pt_nw"; SDraw "hist_ungroom_pt_nw"; SPrint;
         SStyle "hist_ungroom_pt"; SScale "hist_ungroom_pt";
         SStyle "hist_ungroom_pt"; SDraw "hist_ungroom_pt";
         SStyle "hist_trimmed_pt"; SScale "hist_trimmed_pt";
         SDrawSame "hist_trimmed_pt"; SPrint;
         SStyle "hist_ungroom_m"; SScale "hist_ungroom_m";
         SStyle "hist_ungroom_m"; SDraw "hist_ungroom_m"; SStyle "hist_trimmed_m";
         SScale "hist_trimmed_m"; SDrawSame "hist_trimmed_m"; SPrint ]
  | 3 => [ SStyle "hist_myungroom_pt_nw"; SScale "hist_myungroom_pt_nw";
         SStyle "hist_myungroom_pt_nw"; SDraw "hist_myungroom_pt_nw";
         SDrawSame "hist_ungroom_pt_nw"; SPrint;
         SStyle "hist_myungroom_pt"; SScale "hist_myungroom_pt";
         SStyle "hist_myungroom_pt"; SDraw "hist_myungroom_pt";
         SDrawSame "hist_ungroom_pt"; SPrint;
         SStyle "hist_mytrimmed_pt"; SScale "hist_mytrimmed_pt";
         SStyle "hist_mytrimmed_pt"; SDraw "hist_mytrimmed_pt";
         SStyle "hist_trimmed_pt"; SDrawSame "hist_trimmed_pt"; SPrint ]
  | 4 => [ SStyle "hist_myungroom_pt"; SDraw "hist_myungroom_pt";
         SStyle "hist_mytrimmed_pt"; SDrawSame "hist_mytrimmed_pt";
         SStyle "hist_mypruned_pt"; SScale "hist_mypruned_pt";
         SStyle "hist_mypruned_pt"; SDrawSame "hist_mypruned_pt";
         SStyle "hist_mySD_pt"; SScale "hist_mySD_pt"; SStyle "hist_mySD_pt";
         SDrawSame "hist_mySD_pt"; SStyle "hist_myRSD_pt"; SScale "hist_myRSD_pt";
         SStyle "hist_myRSD_pt"; SDrawSame "hist_myRSD_pt";
         SStyle "hist_myBUSD_pt"; SScale "hist_myBUSD_pt";
         SStyle "hist_myBUSD_pt"; SDrawSame "hist_myBUSD_pt";
         SStyle "hist_myBUSDT_pt"; SScale "hist_myBUSDT_pt";
         SStyle "hist_myBUSDT_pt"; SDrawSame "hist_myBUSDT_pt"; SPrint;
         SNormalise "hist_ungroom_m"; SStyle "hist_ungroom_m";
         SDraw "hist_ungroom_m"; SNormalise "hist_trimmed_m";
         SStyle "hist_trimmed_m"; SDrawSame "hist_trimmed_m";
         SNormalise "hist_mypruned_m"; SStyle "hist_mypruned_m";
         SScale "hist_mypruned_m"; SStyle "hist_mypruned_m";
         SDrawSame "hist_mypruned_m"; SNormalise "hist_mySD_m";
         SStyle "hist_mySD_m"; SScale "hist_mySD_m"; SStyle "hist_mySD_m";
         SDrawSame "hist_mySD_m"; SNormalise "hist_myRSD_m";
         SStyle "hist_myRSD_m"; SScale "hist_myRSD_m"; SStyle "hist_myRSD_m";
         SDrawSame "hist_myRSD_m"; SNormalise "hist_myBUSD_m";
         SStyle "hist_myBUSD_m"; SScale "hist_myBUSD_m"; SStyle "hist_myBUSD_m";
         SDrawSame "hist_myBUSD_m"; SNormalise "hist_myBUSDT_m";
         SStyle "hist_myBUSDT_m"; SScale "hist_myBUSDT_m";
         SStyle "hist_myBUSDT_m"; SDrawSame "hist_myBUSDT_m"; SPrint ]
  | 5 => [ SNormalise "hist_ungroom_D2"; SStyle "hist_ungroom_D2";
         SDraw "hist_ungroom_D2"; SNormalise "hist_trimmed_D2";
         SStyle "hist_trimmed_D2"; SDrawSame "hist_trimmed_D2";
         SNormalise "hist_pruned_D2"; SStyle "hist_pruned_D2";
         SDrawSame "hist_pruned_D2"; SNormalise "hist_SD_D2"; SStyle "hist_SD_D2";
         SDrawSame "hist_SD_D2"; SNormalise "hist_RSD_D2"; SStyle "hist_RSD_D2";
         SDrawSame "hist_RSD_D2"; SNormalise "hist_BUSD_D2";
         SStyle "hist_BUSD_D2"; SDrawSame "hist_BUSD_D2";
         SNormalise "hist_BUSDT_D2"; SStyle "hist_BUSDT_D2";
         SDrawSame "hist_BUSDT_D2"; SPrint;
         SNormalise "hist_ungroom_tau32"; SStyle "hist_ungroom_tau32";
         SDraw "hist_ungroom_tau32"; SNormalise "hist_trimmed_tau32";
         SStyle "hist_trimmed_tau32"; SDrawSame "hist_trimmed_tau32";
         SNormalise "hist_pruned_tau32"; SStyle "hist_pruned_tau32";
         SDrawSame "hist_pruned_tau32"; SNormalise "hist_SD_tau32";
         SStyle "hist_SD_tau32"; SDrawSame "hist_SD_tau32";
         SNormalise "hist_RSD_tau32"; SStyle "hist_RSD_tau32";
         SDrawSame "hist_RSD_tau32"; SNormalise "hist_BUSD_tau32";
         SStyle "hist_BUSD_tau32"; SDrawSame "hist_BUSD_tau32";
         SNormalise "hist_BUSDT_tau32"; SStyle "hist_BUSDT_tau32";
         SDrawSame "hist_BUSDT_tau32"; SPrint ]
  | _ => []
  end.

(** The statements of a run at step [s]. *)
Definition program (stmts : Z -> list stmt) (s : Z) : list stmt :=
  flat_map stmts (selected_stages s).

Lemma exp_stmts_denote (k : Z) :
  JetRecoExpPlots.plot_stage k = map denote (exp_stmts k).
Proof.
  destruct k as [|p|p]; try reflexivity.
  repeat (destruct p as [p|p|]; try reflexivity).
Qed.

Lemma groom_stmts_denote (k : Z) :
  JetRecoGroomPlots.plot_stage k = map denote (groom_stmts k).
Proof.
  destruct k as [|p|p]; try reflexivity.
  repeat (destruct p as [p|p|]; try reflexivity).
Qed.

(** What a statement does to the histogram a variable points to. *)
Definition effect (c : stmt) (u : string) (h : Histogram double) : Histogram double :=
  match c with
  | SScale v => if decide (v = u) then scaleMeVToGeV h else h
  | SNormalise v => if decide (v = u) then normalise h else h
  | _ => h
  end.

Definition transformed (l : list stmt) (u : string) (h : Histogram double)
    : Histogram double :=
  foldl (fun h c => effect c u h) h l.

(** [SetLimits(xmin/1.e3, xmax/1.e3)] on an axis. *)
Definition in_GeV (a : TAxis) : TAxis :=
  mkAxis (fNbins a) (fXmin a / 1000)%Q (fXmax a / 1000)%Q.

End PlotSyntax.

Module PlotSyntaxFacts.
Import Root Prog ProgFacts RecoFacts Plots HistFacts PlotsFacts Samples.
Import Root Prog ProgFacts Plots HistFacts PlotsFacts PlotSyntax.

Lemma run_app (l1 l2 : list action) (s : State) :
  run (l1 ++ l2) s
  = match run l1 s with
    | Ok s' => run l2 s'
    | Dead s' f => Dead s' f
    end.
Proof.
  revert s. induction l1 as [|a l1 IH]; intros s; [reflexivity|].
  cbn [app run]. destruct (a s); [apply IH | reflexivity].
Qed.

Lemma denote_ok (c : stmt) (s s' : State) :
  denote c s = Ok s' ->
  (forall u, ptrs s' !! u = effect c u <$> ptrs s !! u)
  /\ length (pages s') = (length (pages s) + prints [c])%nat
  /\ (forall v, target c = Some v -> is_Some (ptrs s !! v)).
Proof.
  assert (Hid : forall p : gmap string (Histogram double),
             forall u, p !! u = (fun h => h) <$> p !! u)
    by (intros p u; now destruct (p !! u)).
  destruct c as [v|v|v|v|v|]; cbn [denote];
    unfold Style, ScaleMeVToGeV, Normalise, Draw, DrawSame, Print, through;
    try (destruct (ptrs s !! v) as [h|] eqn:E; [|discriminate]).
  - intros [= <-]. cbn. repeat split; try (now apply Hid); try lia.
    now intros v' [= <-].
  - intros [= <-]. cbn [ptrs pages prints]. repeat split; try (cbn; lia).
    + intros u. rewrite lookup_insert. unfold effect.
      destruct (decide (v = u)) as [->|]; [now rewrite E | now destruct (ptrs s !! u)].
    + now intros v' [= <-].
  - intros [= <-]. cbn [ptrs pages prints]. repeat split; try (cbn; lia).
    + intros u. rewrite lookup_insert. unfold effect.
      destruct (decide (v = u)) as [->|]; [now rewrite E | now destruct (ptrs s !! u)].
    + now intros v' [= <-].
  - intros [= <-]. cbn. repeat split; try (now apply Hid); try lia.
    now intros v' [= <-].
  - intros [= <-]. cbn. repeat split; try (now apply Hid); try lia.
    now intros v' [= <-].
  - intros [= <-]. cbn. repeat split; try (now apply Hid).
    + rewrite length_app. cbn. lia.
    + discriminate.
Qed.

(** The one way a statement ends the run: a call through a null
    pointer. *)
Lemma denote_dead (c : stmt) (s s' : State) (f : fault) :
  denote c s = Dead s' f ->
  s' = s /\ f = NullDeref /\ exists v, target c = Some v /\ ptrs s !! v = None.
Proof.
  destruct c as [v|v|v|v|v|]; cbn [denote];
    unfold Style, ScaleMeVToGeV, Normalise, Draw, DrawSame, Print, through;
    try (destruct (ptrs s !! v) as [h|] eqn:E; [discriminate|];
         intros [= <- <-]; repeat split; exists v; now split).
  discriminate.
Qed.

Lemma prints_cons (c : stmt) (l : list stmt) :
  prints (c :: l) = (prints [c] + prints l)%nat.
Proof. unfold prints. cbn. now destruct c. Qed.

Lemma prints_app (l1 l2 : list stmt) : prints (l1 ++ l2) = (prints l1 + prints l2)%nat.
Proof.
  induction l1 as [|c l1 IH]; [reflexivity|].
  cbn [app]. rewrite (prints_cons c (l1 ++ l2)), (prints_cons c l1), IH. lia.
Qed.

(** A list of statements that runs to its end has applied to every
    histogram the rescalings and normalisations aimed at its variable,
    and printed one page for each [Print]. *)
Lemma run_sound (l : list stmt) (s s' : State) :
  run (map denote l) s = Ok s' ->
  (forall u, ptrs s' !! u = transformed l u <$> ptrs s !! u)
  /\ length (pages s') = (length (pages s) + prints l)%nat.
Proof.
  revert s. induction l as [|c l IH]; intros s.
  - intros [= <-]. split; [|cbn; lia]. intros u. now destruct (ptrs s !! u).
  - cbn [map run]. destruct (denote c s) as [s1|s1 f] eqn:E; [|discriminate].
    intros Hr. destruct (denote_ok c s s1 E) as (H1 & H2 & _).
    destruct (IH s1 Hr) as [H3 H4]. split.
    + intros u. rewrite H3, H1. unfold transformed. cbn [foldl].
      now destruct (ptrs s !! u).
    + rewrite H4, H2, (prints_cons c l). lia.
Qed.

Lemma denote_total (c : stmt) (s : State) :
  (forall v, target c = Some v -> is_Some (ptrs s !! v)) ->
  exists s', denote c s = Ok s'.
Proof.
  intros Hu.
  destruct c as [v|v|v|v|v|]; cbn [denote];
    unfold Style, ScaleMeVToGeV, Normalise, Draw, DrawSame, Print, through;
    try (destruct (Hu v eq_refl) as [h Hh]; rewrite Hh); eauto.
Qed.

Lemma in_uses (c : stmt) (l : list stmt) (v : string) :
  target c = Some v -> v ∈ uses (c :: l).
Proof. intros H. unfold uses. cbn. rewrite H. left. Qed.

Lemma uses_cons (c : stmt) (l : list stmt) (v : string) :
  v ∈ uses l -> v ∈ uses (c :: l).
Proof. intros H. unfold uses. cbn. destruct (target c); [now right | exact H]. Qed.

Lemma normed_cons (c : stmt) (l : list stmt) (v : string) :
  v ∈ normed (c :: l) <-> c = SNormalise v \/ v ∈ normed l.
Proof.
  unfold normed. cbn. destruct c as [u|u|u|u|u|];
    try (split; [intros H; now right | intros [H|H]; [discriminate | exact H]]).
  rewrite elem_of_cons. split; (intros [H|H]; [left; congruence | now right]).
Qed.

Lemma scaled_cons (c : stmt) (l : list stmt) (v : string) :
  v ∈ scaled (c :: l) <-> c = SScale v \/ v ∈ scaled l.
Proof.
  unfold scaled. cbn. destruct c as [u|u|u|u|u|];
    try (split; [intros H; now right | intros [H|H]; [discriminate | exact H]]).
  rewrite elem_of_cons. split; (intros [H|H]; [left; congruence | now right]).
Qed.

(** With every variable it dereferences pointing to a histogram, a list
    of statements runs to its end, whatever the histograms hold. *)
Lemma run_total (l : list stmt) (s : State) :
  (forall v, v ∈ uses l -> is_Some (ptrs s !! v)) ->
  exists s', run (map denote l) s = Ok s'.
Proof.
  revert s. induction l as [|c l IH]; intros s Hu; [now exists s|].
  cbn [map run].
  destruct (denote_total c s) as [s1 E].
  - intros v Hv. apply Hu. now apply in_uses.
  - rewrite E. destruct (denote_ok c s s1 E) as (H1 & _).
    apply IH. intros v Hv. rewrite H1.
    destruct (Hu v (uses_cons c l v Hv)) as [h ->]. now eexists.
Qed.

(** It ends early only at a call through a variable that points to
    nothing, after the pages printed until then. *)
Lemma run_dead (l : list stmt) (s s' : State) (f : fault) :
  run (map denote l) s = Dead s' f ->
  f = NullDeref /\ exists v, v ∈ uses l /\ ptrs s !! v = None.
Proof.
  revert s. induction l as [|c l IH]; intros s; [discriminate|].
  cbn [map run]. destruct (denote c s) as [s1|s1 f1] eqn:E.
  - intros Hr. destruct (IH s1 Hr) as (-> & v & Hv & Hnone). split; [reflexivity|].
    exists v. split; [now apply uses_cons|].
    destruct (denote_ok c s s1 E) as (H1 & _). rewrite H1 in Hnone.
    now destruct (ptrs s !! v).
  - intros [= <- <-]. destruct (denote_dead c s s1 f1 E) as (_ & -> & v & Hv & Hnone).
    split; [reflexivity|]. exists v. split; [now apply in_uses | exact Hnone].
Qed.

(** *** What the statements leave as it was *)

Lemma effect_frame (c : stmt) (u : string) (h : Histogram double) :
  fName (effect c u h) = fName h /\ fClass (effect c u h) = fClass h
  /\ fYaxis (effect c u h) = fYaxis h
  /\ fNbins (fXaxis (effect c u h)) = fNbins (fXaxis h)
  /\ length (fArray (effect c u h)) = length (fArray h).
Proof.
  destruct c as [v|v|v|v|v|]; cbn [effect]; try (repeat split; reflexivity).
  - destruct (decide (v = u)); repeat split; reflexivity.
  - destruct (decide (v = u)); repeat split; try reflexivity.
    cbn. now rewrite length_map.
Qed.

Lemma transformed_cons (c : stmt) (l : list stmt) (u : string) (h : Histogram double) :
  transformed (c :: l) u h = transformed l u (effect c u h).
Proof. reflexivity. Qed.

Lemma transformed_frame (l : list stmt) (u : string) (h : Histogram double) :
  fName (transformed l u h) = fName h /\ fClass (transformed l u h) = fClass h
  /\ fYaxis (transformed l u h) = fYaxis h
  /\ fNbins (fXaxis (transformed l u h)) = fNbins (fXaxis h)
  /\ length (fArray (transformed l u h)) = length (fArray h).
Proof.
  revert h. induction l as [|c l IH]; intros h; [repeat split|].
  rewrite transformed_cons.
  destruct (IH (effect c u h)) as (A1 & A2 & A3 & A4 & A5).
  destruct (effect_frame c u h) as (B1 & B2 & B3 & B4 & B5).
  repeat split; congruence.
Qed.

Lemma transformed_contents (l : list stmt) (u : string) (h : Histogram double) :
  u ∉ normed l -> fArray (transformed l u h) = fArray h.
Proof.
  revert h. induction l as [|c l IH]; intros h Hn; [reflexivity|].
  rewrite transformed_cons. rewrite IH.
  - destruct c as [v|v|v|v|v|]; cbn [effect]; try reflexivity.
    + now destruct (decide (v = u)).
    + destruct (decide (v = u)) as [->|]; [|reflexivity].
      exfalso. apply Hn. apply normed_cons. now left.
  - intros H. apply Hn. apply normed_cons. now right.
Qed.

Lemma transformed_axis_kept (l : list stmt) (u : string) (h : Histogram double) :
  u ∉ scaled l -> fXaxis (transformed l u h) = fXaxis h.
Proof.
  revert h. induction l as [|c l IH]; intros h Hn; [reflexivity|].
  rewrite transformed_cons. rewrite IH.
  - destruct c as [v|v|v|v|v|]; cbn [effect]; try reflexivity.
    + destruct (decide (v = u)) as [->|]; [|reflexivity].
      exfalso. apply Hn. apply scaled_cons. now left.
    + now destruct (decide (v = u)).
  - intros H. apply Hn. apply scaled_cons. now right.
Qed.

Lemma scaled_head (c : stmt) (l : list stmt) :
  scaled (c :: l) = match c with SScale v => v :: scaled l | _ => scaled l end.
Proof. unfold scaled. cbn. now destruct c. Qed.

Lemma normed_head (c : stmt) (l : list stmt) :
  normed (c :: l) = match c with SNormalise v => v :: normed l | _ => normed l end.
Proof. unfold normed. cbn. now destruct c. Qed.

Lemma transformed_axis_in_GeV (l : list stmt) (u : string) (h : Histogram double) :
  NoDup (scaled l) -> u ∈ scaled l ->
  fXaxis (transformed l u h) = in_GeV (fXaxis h).
Proof.
  revert h. induction l as [|c l IH]; intros h Hd Hu; [inversion Hu|].
  rewrite transformed_cons. rewrite scaled_head in Hd, Hu.
  destruct c as [v|v|v|v|v|]; cbn [effect];
    try (now apply IH).
  - apply NoDup_cons in Hd as [Hv Hd]. destruct (decide (v = u)) as [->|Hne].
    + now rewrite (transformed_axis_kept l u _ Hv).
    + apply IH; [exact Hd|]. apply elem_of_cons in Hu as [->|Hu]; [contradiction|exact Hu].
  - destruct (decide (v = u)); now rewrite IH.
Qed.

(** A variable normalised once points to the histogram it pointed to,
    normalised, whatever else the statements do to it. *)
Lemma transformed_normalised_once (l : list stmt) (u : string) (h : Histogram double) :
  NoDup (normed l) -> u ∈ normed l ->
  fArray (transformed l u h) = fArray (normalise h).
Proof.
  revert h. induction l as [|c l IH]; intros h Hd Hu; [inversion Hu|].
  rewrite transformed_cons. rewrite normed_head in Hd, Hu.
  destruct c as [v|v|v|v|v|]; cbn [effect];
    try (now apply IH).
  - destruct (decide (v = u)); now rewrite IH.
  - apply NoDup_cons in Hd as [Hv Hd]. destruct (decide (v = u)) as [->|Hne].
    + now rewrite (transformed_contents l u _ Hv).
    + apply IH; [exact Hd|]. apply elem_of_cons in Hu as [->|Hu]; [contradiction|exact Hu].
Qed.

(** *** The plotting part of [main] as one list of statements *)

Section Program.
Variable gets : Z -> list (string * TClass * string).
Variable checked : Z -> list string.
Variable plot_stage : Z -> list action.
Variable stmts : Z -> list stmt.
Hypothesis stmts_denote : forall k, plot_stage k = map denote (stmts k).

Lemma plot_program (s : Z) (st : State) :
  Plots.plot plot_stage s stages st = run (map denote (program stmts s)) st.
Proof.
  unfold program, selected_stages. rewrite flat_map_selected.
  generalize stages. intros ks. revert st.
  induction ks as [|k ks IH]; intros st; [reflexivity|].
  cbn [Plots.plot flat_map]. rewrite map_app, run_app.
  destruct (gate s k).
  - rewrite <- stmts_denote. destruct (run (plot_stage k) st); [apply IH | reflexivity].
  - cbn [map run]. apply IH.
Qed.

Lemma in_program (s k : Z) (c : stmt) :
  k ∈ stages -> gate s k = true -> c ∈ stmts k -> c ∈ program stmts s.
Proof.
  intros Hk Hg Hc. apply list_elem_of_In, in_flat_map. exists k.
  split; apply list_elem_of_In; [|exact Hc].
  unfold selected_stages. apply list_elem_of_filter. split; [|exact Hk].
  now apply gate_selected.
Qed.

End Program.

End PlotSyntaxFacts.

(** ** Runs of the plotting programs *)

Module PlotsRuns.
Import Root Prog ProgFacts RecoFacts Plots HistFacts PlotsFacts Samples.
Import Root Prog ProgFacts RecoFacts Plots HistFacts PlotsFacts PlotsClaims.
Import PlotSyntax PlotSyntaxFacts Samples.

(** The input file holds, with the class asked for, every histogram the
    selected stages retrieve. *)
Definition complete_for (gets : Z -> list (string * TClass * string))
    (s : Z) (inFile : gmap string TH1) : Prop :=
  forall k v C key, k ∈ stages -> gate s k = true -> (v, C, key) ∈ gets k ->
    exists h, inFile !! key = Some h /\ fClass h = C.

Lemma getHist_present (C : TClass) (inFile : gmap string TH1) (key : string) (h : TH1) :
  inFile !! key = Some h -> fClass h = C -> getHist C inFile key = (Some h, []).
Proof.
  intros H1 H2. unfold getHist. rewrite H1. now rewrite bool_decide_eq_true_2.
Qed.

Lemma gate_below (s k k' : Z) : 1 <= k' -> k' <= k -> gate s k = true -> gate s k' = true.
Proof.
  unfold gate. intros H1 H2 H. apply orb_true_iff in H as [H|H].
  - now rewrite H.
  - apply orb_true_iff. right. apply Z.geb_le in H. apply Z.geb_le. lia.
Qed.

Lemma stage_positive (k : Z) : k ∈ stages -> 1 <= k.
Proof.
  unfold stages. intros H.
  repeat (apply elem_of_cons in H as [->|H]; [lia|]). inversion H.
Qed.

Section Program.
Variable gets : Z -> list (string * TClass * string).
Variable checked : Z -> list string.
Variable plot_stage : Z -> list action.
Variable stmts : Z -> list stmt.
Hypothesis stmts_denote : forall k, plot_stage k = map denote (stmts k).
Hypothesis one_get : forall k1 k2 v C1 C2 key1 key2, k1 ∈ stages -> k2 ∈ stages ->
  (v, C1, key1) ∈ gets k1 -> (v, C2, key2) ∈ gets k2 -> C1 = C2 /\ key1 = key2.
Hypothesis checked_retrieved : forall k v, k ∈ stages -> v ∈ checked k ->
  exists k' C key, k' ∈ stages /\ k' <= k /\ (v, C, key) ∈ gets k'.
Hypothesis uses_retrieved : forall k v, k ∈ stages -> v ∈ uses (stmts k) ->
  exists k' C key, k' ∈ stages /\ k' <= k /\ (v, C, key) ∈ gets k'.

Local Abbreviation main := (Plots.main gets checked plot_stage).
Local Abbreviation retrieve := (Plots.retrieve gets checked).

Lemma get_stage_some inFile (l : list (string * TClass * string))
    (p : gmap string TH1) (out : list msg) v C key h :
  (v, C, key) ∈ l -> fst (getHist C inFile key) = Some h ->
  is_Some ((foldl (Plots.get_one inFile) (p, out) l).1 !! v).
Proof.
  revert p out. induction l as [|g l IH]; intros p out Hin Hh; [inversion Hin|].
  cbn [foldl]. apply elem_of_cons in Hin as [<-|Hin].
  - set (st := Plots.get_one inFile (p, out) (v, C, key)).
    assert (Hst : is_Some (st.1 !! v)).
    { subst st. unfold Plots.get_one.
      destruct (getHist C inFile key) as [o m]. cbn [fst] in Hh. subst o. cbn [fst].
      rewrite lookup_insert, decide_True by reflexivity. now eexists. }
    destruct st as [p1 out1]. cbn [fst] in Hst.
    destruct (get_stage_spec inFile l p1 out1) as (_ & _ & _ & _ & _ & H6).
    destruct ((foldl (Plots.get_one inFile) (p1, out1) l).1 !! v) eqn:E; [now eexists|].
    apply H6 in E. rewrite E in Hst. now destruct Hst.
  - destruct (Plots.get_one inFile (p, out) g) as [p1 out1]. now apply IH.
Qed.

Lemma retrieve_some s inFile (ks : list Z) p0 out0 p out k v C key h :
  retrieve s inFile ks (p0, out0) = inr (p, out) ->
  k ∈ ks -> gate s k = true -> (v, C, key) ∈ gets k ->
  fst (getHist C inFile key) = Some h -> is_Some (p !! v).
Proof.
  revert p0 out0. induction ks as [|k0 ks IH]; intros p0 out0 Hr Hk Hg Hin Hh;
    [inversion Hk|].
  cbn [Plots.retrieve] in Hr.
  apply elem_of_cons in Hk as [->|Hk].
  - rewrite Hg in Hr. cbv zeta in Hr.
    pose proof (get_stage_some inFile (gets k0) p0 out0 v C key h Hin Hh) as Hs.
    destruct (foldl (Plots.get_one inFile) (p0, out0) (gets k0)) as [p1 out1].
    cbn [fst snd] in Hr, Hs.
    destruct (existsb (Plots.is_null p1) (checked k0)); [discriminate|].
    destruct (retrieve_inr gets checked s inFile ks p1 out1 p out Hr) as (_ & _ & _ & H4).
    now apply H4.
  - destruct (gate s k0).
    + cbv zeta in Hr.
      destruct (foldl (Plots.get_one inFile) (p0, out0) (gets k0)) as [p1 out1].
      cbn [fst snd] in Hr.
      destruct (existsb (Plots.is_null p1) (checked k0)); [discriminate|].
      now apply (IH p1 out1).
    + now apply (IH p0 out0).
Qed.

Lemma retrieve_out s inFile (ks : list Z) p0 out0 p out :
  (forall k, k ∈ ks -> k ∈ stages) ->
  retrieve s inFile ks (p0, out0) = inr (p, out) ->
  forall m, m ∈ out -> m ∈ out0 \/ names_absent gets s inFile m.
Proof.
  revert p0 out0. induction ks as [|k0 ks IH]; intros p0 out0 Hks Hr m Hm.
  - cbn in Hr. injection Hr as <- <-. now left.
  - cbn [Plots.retrieve] in Hr. destruct (gate s k0) eqn:G.
    + cbv zeta in Hr.
      destruct (get_stage_spec inFile (gets k0) p0 out0) as (_ & _ & _ & H4 & _).
      destruct (foldl (Plots.get_one inFile) (p0, out0) (gets k0)) as [p1 out1].
      cbn [fst snd] in Hr, H4.
      destruct (existsb (Plots.is_null p1) (checked k0)); [discriminate|].
      destruct (IH p1 out1 ltac:(intros k Hk; apply Hks; now right) Hr m Hm) as [H|H];
        [|now right].
      destruct (H4 m H) as [H'|(v & C & key & Hin & Ha & ->)]; [now left|].
      right. exists k0, v, C, key. repeat split; try assumption. apply Hks. left.
    + apply (IH p0 out0); [|exact Hr|exact Hm]. intros k Hk. apply Hks. now right.
Qed.

(** From a complete file every retrieval succeeds without a message,
    and each pointer variable of a selected stage points to the
    histogram stored under its key. *)
Lemma retrieve_complete s inFile :
  complete_for gets s inFile ->
  exists p, retrieve s inFile stages (∅, []) = inr (p, [])
    /\ (forall k v C key, k ∈ stages -> gate s k = true -> (v, C, key) ∈ gets k ->
          p !! v = inFile !! key)
    /\ (forall v h, p !! v = Some h ->
          exists k C key, k ∈ stages /\ gate s k = true /\ (v, C, key) ∈ gets k
                          /\ inFile !! key = Some h).
Proof.
  intros Hc.
  assert (Hno : forall m, ~ names_absent gets s inFile m).
  { intros m (k & v & C & key & Hk & Hg & Hin & Ha & _).
    destruct (Hc k v C key Hk Hg Hin) as (h & H1 & H2).
    unfold absent in Ha. now rewrite (getHist_present C inFile key h H1 H2) in Ha. }
  destruct (retrieve s inFile stages (∅, [])) as [out|[p out]] eqn:E.
  - exfalso.
    destruct (retrieve_inl gets checked s inFile [] stages ∅ [] out) as [Hne Hall];
      try assumption.
    + intros k Hk. now right.
    + auto.
    + unfold stages. repeat constructor; lia.
    + intros k v C key Hk. inversion Hk.
    + intros m Hm. inversion Hm.
    + destruct out as [|m out]; [now apply Hne|]. apply (Hno m). apply Hall. left.
  - assert (Hout : out = []).
    { destruct out as [|m out]; [reflexivity|]. exfalso.
      destruct (retrieve_out s inFile stages ∅ [] p (m :: out) ltac:(auto) E m ltac:(left))
        as [H|H]; [inversion H | now apply (Hno m)]. }
    subst out. exists p. split; [reflexivity|].
    destruct (retrieve_inr gets checked s inFile stages ∅ [] p [] E) as (_ & H2 & _).
    assert (Hfrom : forall v h, p !! v = Some h ->
              exists k C key, k ∈ stages /\ gate s k = true /\ (v, C, key) ∈ gets k
                              /\ inFile !! key = Some h).
    { intros v h Hp. destruct (H2 v h Hp) as [H|H]; [|exact H].
      rewrite lookup_empty in H. discriminate. }
    split; [|exact Hfrom].
    intros k v C key Hk Hg Hin.
    destruct (Hc k v C key Hk Hg Hin) as (h & H1 & HC).
    destruct (retrieve_some s inFile stages ∅ [] p [] k v C key h E Hk Hg Hin) as [h' Hp].
    { now rewrite (getHist_present C inFile key h H1 HC). }
    rewrite Hp. destruct (Hfrom v h' Hp) as (k' & C' & key' & Hk' & _ & Hin' & Hk'').
    destruct (one_get k k' v C C' key key' Hk Hk' Hin Hin') as [_ <-]. now rewrite Hk''.
Qed.

Lemma uses_program s v :
  v ∈ uses (program stmts s) ->
  exists k C key, k ∈ stages /\ gate s k = true /\ (v, C, key) ∈ gets k.
Proof.
  intros Hv. unfold uses in Hv.
  apply list_elem_of_omap in Hv as (c & Hc & Ht).
  apply list_elem_of_In, in_flat_map in Hc as (k & Hk & Hc).
  apply list_elem_of_In in Hk, Hc.
  unfold selected_stages in Hk. apply list_elem_of_filter in Hk as [Hsel Hk].
  apply gate_selected in Hsel.
  assert (Hu : v ∈ uses (stmts k)).
  { unfold uses. apply list_elem_of_omap. now exists c. }
  destruct (uses_retrieved k v Hk Hu) as (k' & C & key & Hk' & Hle & Hin).
  exists k', C, key. repeat split; try assumption.
  apply (gate_below s k k'); [now apply stage_positive | exact Hle | exact Hsel].
Qed.

Lemma normed_program s v :
  v ∈ normed (program stmts s) ->
  exists k, k ∈ stages /\ gate s k = true /\ v ∈ normed (stmts k).
Proof.
  intros Hv. unfold normed in Hv.
  apply list_elem_of_omap in Hv as (c & Hc & Ht).
  apply list_elem_of_In, in_flat_map in Hc as (k & Hk & Hc).
  apply list_elem_of_In in Hk, Hc.
  unfold selected_stages in Hk. apply list_elem_of_filter in Hk as [Hsel Hk].
  exists k. repeat split; [exact Hk | now apply gate_selected|].
  unfold normed. apply list_elem_of_omap. now exists c.
Qed.

Lemma program_normed s k v :
  k ∈ stages -> gate s k = true -> v ∈ normed (stmts k) -> v ∈ normed (program stmts s).
Proof.
  intros Hk Hg Hv. unfold normed in Hv |- *.
  apply list_elem_of_omap in Hv as (c & Hc & Ht).
  apply list_elem_of_omap. exists c. split; [|exact Ht].
  now apply (in_program stmts s k).
Qed.

(** A run that gets as far as the retrievals, in terms of the
    statements of its step. *)
Lemma main_program disk argv inFile :
  ready disk argv inFile ->
  let s := Libc.to_int (Libc.atol (arg argv 2)) in
  main disk argv
  = match retrieve s inFile stages (∅, []) with
    | inl out => Plots.stop out
    | inr (p, out) =>
        match run (map denote (program stmts s)) (mkState (in_memory <$> p) [] []) with
        | Ok st => Plots.mkRun (Exit 0) out (Some (pages st)) (ptrs st)
        | Dead st f => Plots.mkRun (Abort f) out (Some (pages st)) (ptrs st)
        end
    end.
Proof.
  intros Hr s. rewrite (main_ready gets checked plot_stage disk argv inFile Hr).
  fold s. destruct (retrieve s inFile stages (∅, [])) as [out|[p out]]; [reflexivity|].
  now rewrite (plot_program plot_stage stmts stmts_denote).
Qed.

(** The histograms a run normalises have a nonzero integral in the
    input file. *)
Definition nonzero_for (s : Z) (inFile : gmap string TH1) : Prop :=
  forall k v C key h, k ∈ stages -> gate s k = true -> (v, C, key) ∈ gets k ->
    v ∈ normed (program stmts s) -> inFile !! key = Some h -> ~ (Integral h == 0)%Q.

(** From a complete file a run goes to its last page, whatever the
    histograms hold. *)
Lemma main_plotted disk argv inFile :
  ready disk argv inFile ->
  let s := Libc.to_int (Libc.atol (arg argv 2)) in
  let run := main disk argv in
  complete_for gets s inFile ->
  Plots.exit_status run = Exit 0 /\ Plots.stdout run = []
  /\ length <$> pdf run = Some (prints (program stmts s)).
Proof.
  intros Hr s run Hc. subst run.
  rewrite (main_program disk argv inFile Hr). fold s.
  destruct (retrieve_complete s inFile Hc) as (p & -> & Hp & Hfrom).
  destruct (run_total (program stmts s) (mkState (in_memory <$> p) [] [])) as [st Hst].
  - intros v Hv. cbn [ptrs]. rewrite lookup_fmap.
    destruct (uses_program s v Hv) as (k & C & key & Hk & Hg & Hin).
    rewrite (Hp k v C key Hk Hg Hin).
    destruct (Hc k v C key Hk Hg Hin) as (h & -> & _). now eexists.
  - rewrite Hst. cbn. repeat split.
    destruct (run_sound _ _ _ Hst) as [_ Hl]. cbn in Hl. now rewrite Hl.
Qed.

Lemma main_complete disk argv inFile :
  ready disk argv inFile ->
  let s := Libc.to_int (Libc.atol (arg argv 2)) in
  let run := main disk argv in
  complete_for gets s inFile -> nonzero_for s inFile ->
  Plots.exit_status run = Exit 0 /\ Plots.stdout run = []
  /\ length <$> pdf run = Some (prints (program stmts s)).
Proof. intros Hr s run Hc _. now apply (main_plotted disk argv inFile). Qed.

(** A run that gets as far as the retrievals ends with code 1, with
    code 0, or at a call through a null pointer. *)
Lemma main_outcome disk argv inFile :
  ready disk argv inFile ->
  let s := Libc.to_int (Libc.atol (arg argv 2)) in
  (exists out, main disk argv = Plots.stop out)
  \/ (exists p out st,
        retrieve s inFile stages (∅, []) = inr (p, out)
        /\ run (map denote (program stmts s)) (mkState (in_memory <$> p) [] []) = Ok st
        /\ main disk argv = Plots.mkRun (Exit 0) out (Some (pages st)) (ptrs st))
  \/ (exists p out v,
        retrieve s inFile stages (∅, []) = inr (p, out)
        /\ v ∈ uses (program stmts s) /\ p !! v = None
        /\ Plots.exit_status (main disk argv) = Abort NullDeref).
Proof.
  intros Hr s. rewrite (main_program disk argv inFile Hr). fold s.
  destruct (retrieve s inFile stages (∅, [])) as [out|[p out]]; [left; now exists out|].
  right.
  destruct (run (map denote (program stmts s)) (mkState (in_memory <$> p) [] []))
    as [st|st f] eqn:E.
  - left. now exists p, out, st.
  - right. destruct (run_dead _ _ _ _ E) as (-> & v & Hv & Hnone).
    cbn [ptrs] in Hnone. rewrite lookup_fmap in Hnone.
    exists p, out, v. repeat split; try assumption.
    now destruct (p !! v).
Qed.

Lemma main_exit0 disk argv inFile :
  ready disk argv inFile ->
  let s := Libc.to_int (Libc.atol (arg argv 2)) in
  Plots.exit_status (main disk argv) = Exit 0 ->
  exists p out st,
    retrieve s inFile stages (∅, []) = inr (p, out)
    /\ run (map denote (program stmts s)) (mkState (in_memory <$> p) [] []) = Ok st
    /\ main disk argv = Plots.mkRun (Exit 0) out (Some (pages st)) (ptrs st).
Proof.
  intros Hr s. rewrite (main_program disk argv inFile Hr). fold s.
  destruct (retrieve s inFile stages (∅, [])) as [out|[p out]]; [discriminate|].
  destruct (run (map denote (program stmts s)) (mkState (in_memory <$> p) [] []))
    as [st|st f] eqn:E;
    [|discriminate].
  intros _. now exists p, out, st.
Qed.

Lemma main_frame disk argv inFile v h :
  ready disk argv inFile ->
  let s := Libc.to_int (Libc.atol (arg argv 2)) in
  Plots.exit_status (main disk argv) = Exit 0 ->
  final (main disk argv) !! v = Some h ->
  exists k C key h0,
    k ∈ stages /\ gate s k = true /\ (v, C, key) ∈ gets k
    /\ inFile !! key = Some h0
    /\ h = transformed (program stmts s) v (in_memory h0).
Proof.
  intros Hr s He Hh.
  destruct (main_exit0 disk argv inFile Hr He) as (p & out & st & Hret & Hrun & Hm).
  rewrite Hm in Hh. cbn [final] in Hh.
  destruct (run_sound _ _ _ Hrun) as [Hp _]. rewrite Hp in Hh. cbn [ptrs] in Hh.
  rewrite lookup_fmap in Hh.
  destruct (p !! v) as [h0|] eqn:E; [|discriminate]. injection Hh as <-.
  destruct (retrieve_inr gets checked s inFile stages ∅ [] p out Hret) as (_ & H2 & _).
  destruct (H2 v h0 E) as [H|(k & C & key & Hk & Hg & Hin & Hf)].
  - rewrite lookup_empty in H. discriminate.
  - now exists k, C, key, h0.
Qed.

End Program.

(** *** The tables of the two programs *)

Lemma uses_retrieved_check (gets : Z -> list (string * TClass * string))
    (stmts : Z -> list stmt) :
  (forall k, k ∈ stages ->
     Forall (fun v => v ∈ map (fun g => g.1.1)
                           (flat_map gets (filter (fun j => j <= k) stages)))
            (uses (stmts k))) ->
  forall k v, k ∈ stages -> v ∈ uses (stmts k) ->
    exists k' C key, k' ∈ stages /\ k' <= k /\ (v, C, key) ∈ gets k'.
Proof.
  intros H k v Hk Hv.
  pose proof (proj1 (Forall_forall _ _) (H k Hk) v Hv) as Hin.
  apply list_elem_of_In, in_map_iff in Hin as ([[v' C] key] & E & Hin). cbn in E. subst v'.
  apply in_flat_map in Hin as (k' & Hk' & Hin).
  apply list_elem_of_In, list_elem_of_filter in Hk' as [Hle Hk'].
  exists k', C, key. repeat split; try assumption. now apply list_elem_of_In.
Qed.

Lemma exp_uses_retrieved k v :
  k ∈ stages -> v ∈ uses (exp_stmts k) ->
  exists k' C key, k' ∈ stages /\ k' <= k /\ (v, C, key) ∈ JetRecoExpPlots.gets k'.
Proof.
  apply uses_retrieved_check. intros k' Hk'.
  each_stage Hk'; apply (bool_decide_unpack _); vm_compute; exact I.
Qed.

Lemma groom_uses_retrieved k v :
  k ∈ stages -> v ∈ uses (groom_stmts k) ->
  exists k' C key, k' ∈ stages /\ k' <= k /\ (v, C, key) ∈ JetRecoGroomPlots.gets k'.
Proof.
  apply uses_retrieved_check. intros k' Hk'.
  each_stage Hk'; apply (bool_decide_unpack _); vm_compute; exact I.
Qed.

Lemma exp_scaled_once (s : Z) : 0 <= s <= 5 -> NoDup (scaled (program exp_stmts s)).
Proof.
  intros Hs. destruct (JetRecoExpFacts.six_steps s Hs) as [->|[->|[->|[->|[->| ->]]]]];
    apply (bool_decide_unpack _); vm_compute; exact I.
Qed.

Lemma groom_scaled_once (s : Z) : 0 <= s <= 5 -> NoDup (scaled (program groom_stmts s)).
Proof.
  intros Hs. destruct (JetRecoExpFacts.six_steps s Hs) as [->|[->|[->|[->|[->| ->]]]]];
    apply (bool_decide_unpack _); vm_compute; exact I.
Qed.

(** No histogram is normalised twice. *)
Lemma exp_normed_once (s : Z) : 0 <= s <= 5 -> NoDup (normed (program exp_stmts s)).
Proof.
  intros Hs. destruct (JetRecoExpFacts.six_steps s Hs) as [->|[->|[->|[->|[->| ->]]]]];
    apply (bool_decide_unpack _); vm_compute; exact I.
Qed.

Lemma groom_normed_once (s : Z) : 0 <= s <= 5 -> NoDup (normed (program groom_stmts s)).
Proof.
  intros Hs. destruct (JetRecoExpFacts.six_steps s Hs) as [->|[->|[->|[->|[->| ->]]]]];
    apply (bool_decide_unpack _); vm_compute; exact I.
Qed.

(** *** Complete input *)

Definition plotted_to_the_end (gets : Z -> list (string * TClass * string))
    (stmts : Z -> list stmt)
    (main : gmap string (gmap string TH1) -> list string -> Plots.Run) : Prop :=
  forall disk argv inFile,
    ready disk argv inFile ->
    let s := Libc.to_int (Libc.atol (arg argv 2)) in
    let run := main disk argv in
    complete_for gets s inFile -> nonzero_for gets stmts s inFile ->
    Plots.exit_status run = Exit 0 /\ Plots.stdout run = []
    /\ length <$> pdf run = Some (prints (program stmts s)).

(** X12. When the input file holds every histogram the selected stages
    retrieve, each with the class asked for, and those the run
    normalises have a nonzero integral, both plotting programs print no
    message, dereference no null pointer, and end with code 0 after
    printing one page for each [canvas.Print] of the selected stages:
    3, 5, 9, 14 and 17 pages at steps 1 to 5 of jetRecoExp_plots, 2, 5,
    8, 10 and 12 of jetRecoGroom_plots, and 17 and 12 at step 0. *)
Theorem complete_input_is_plotted_to_the_end :
  plotted_to_the_end JetRecoExpPlots.gets exp_stmts JetRecoExpPlots.main
  /\ plotted_to_the_end JetRecoGroomPlots.gets groom_stmts JetRecoGroomPlots.main
  /\ map (fun s => prints (program exp_stmts s)) [0; 1; 2; 3; 4; 5]
     = [17; 3; 5; 9; 14; 17]%nat
  /\ map (fun s => prints (program groom_stmts s)) [0; 1; 2; 3; 4; 5]
     = [12; 2; 5; 8; 10; 12]%nat.
Proof.
  split; [|split; [|split; reflexivity]].
  - intros disk argv inFile Hr.
    exact (main_complete JetRecoExpPlots.gets JetRecoExpPlots.checked
             JetRecoExpPlots.plot_stage exp_stmts exp_stmts_denote
             exp_one_get exp_checked_retrieved exp_uses_retrieved disk argv inFile Hr).
  - intros disk argv inFile Hr.
    exact (main_complete JetRecoGroomPlots.gets JetRecoGroomPlots.checked
             JetRecoGroomPlots.plot_stage groom_stmts groom_stmts_denote
             groom_one_get groom_checked_retrieved groom_uses_retrieved disk argv inFile Hr).
Qed.

(** The sample file: the output of the reco program with one more entry
    in every histogram. *)
Definition filled : list TH1 := map fill_centre reco_output.

Lemma filled_ready (step : string) :
  0 <= Libc.to_int (Libc.atol step) <= 5 ->
  ready (hist_file filled) (plots_argv step) (declare filled).
Proof.
  intros Hs. split; [cbn; lia|]. split; [reflexivity|]. split; [reflexivity|].
  split; [exact Hs|]. unfold hist_file. cbn [plots_argv arg nth].
  apply lookup_singleton_Some. split; reflexivity.
Qed.

Lemma filled_complete (s : Z) : complete_for JetRecoExpPlots.gets s (declare filled).
Proof.
  intros k v C key Hk _ Hin.
  assert (H : Forall (fun g => exists h, declare filled !! g.2 = Some h /\ fClass h = g.1.2)
                     (flat_map JetRecoExpPlots.gets stages)).
  { repeat (constructor; [eexists; split; vm_compute; reflexivity|]). constructor. }
  apply (proj1 (Forall_forall _ _) H (v, C, key)).
  apply list_elem_of_In, in_flat_map. exists k. split; now apply list_elem_of_In.
Qed.

Lemma filled_nonzero (s : Z) : nonzero_for JetRecoExpPlots.gets exp_stmts s (declare filled).
Proof.
  intros k v C key h _ _ _ _ Hl. apply declare_lookup in Hl.
  pose proof (proj1 (Forall_forall _ _) centre_fills_nonzero h Hl) as E.
  cbn beta in E. intros Hz. apply Qeq_bool_iff in Hz. congruence.
Qed.

Lemma complete_input_is_plotted_to_the_end_witness :
  ready (hist_file filled) (plots_argv "0") (declare filled)
  /\ complete_for JetRecoExpPlots.gets 0 (declare filled)
  /\ nonzero_for JetRecoExpPlots.gets exp_stmts 0 (declare filled)
  /\ Plots.exit_status (JetRecoExpPlots.main (hist_file filled) (plots_argv "0")) = Exit 0
  /\ length <$> pdf (JetRecoExpPlots.main (hist_file filled) (plots_argv "0")) = Some 17%nat.
Proof.
  assert (Hr : ready (hist_file filled) (plots_argv "0") (declare filled))
    by (apply filled_ready; vm_compute; split; discriminate).
  split; [exact Hr|]. split; [apply filled_complete|]. split; [apply filled_nonzero|].
  destruct (proj1 complete_input_is_plotted_to_the_end (hist_file filled)
              (plots_argv "0") (declare filled) Hr (filled_complete 0) (filled_nonzero 0))
    as (H1 & _ & H3).
  split; [exact H1 | exact H3].
Defined.

(** What a run may have changed in a displayed histogram. *)
Definition displayed_as_stored (gets : Z -> list (string * TClass * string))
    (stmts : Z -> list stmt)
    (main : gmap string (gmap string TH1) -> list string -> Plots.Run) : Prop :=
  forall disk argv inFile v h,
    ready disk argv inFile ->
    let s := Libc.to_int (Libc.atol (arg argv 2)) in
    Plots.exit_status (main disk argv) = Exit 0 ->
    final (main disk argv) !! v = Some h ->
    exists k C key h0,
      k ∈ stages /\ gate s k = true /\ (v, C, key) ∈ gets k /\ inFile !! key = Some h0
      /\ fName h = fName h0 /\ fClass h = fClass h0 /\ fYaxis h = fYaxis h0
      /\ length (fArray h) = length (fArray h0)
      /\ fArray h = (if bool_decide (v ∈ normed (program stmts s))
                     then fArray (normalise (in_memory h0)) else map Num (fArray h0))
      /\ fXaxis h = if bool_decide (v ∈ scaled (program stmts s))
                    then in_GeV (fXaxis h0) else fXaxis h0.

Lemma displayed gets checked plot_stage stmts :
  (forall k, plot_stage k = map denote (stmts k)) ->
  (forall s, 0 <= s <= 5 -> NoDup (scaled (program stmts s))) ->
  (forall s, 0 <= s <= 5 -> NoDup (normed (program stmts s))) ->
  displayed_as_stored gets stmts (Plots.main gets checked plot_stage).
Proof.
  intros Hd Hn Hno disk argv inFile v h Hr s He Hh.
  destruct (main_frame gets checked plot_stage stmts Hd disk argv inFile v h Hr He Hh)
    as (k & C & key & h0 & Hk & Hg & Hin & Hf & ->).
  fold s. exists k, C, key, h0.
  destruct (transformed_frame (program stmts s) v (in_memory h0)) as (A1 & A2 & A3 & A4 & A5).
  assert (Hs : 0 <= s <= 5) by now destruct Hr as (_ & _ & _ & H & _).
  repeat split; try assumption.
  - rewrite A5. unfold in_memory. cbn [fArray]. apply length_map.
  - destruct (decide (v ∈ normed (program stmts s))) as [Hv|Hv].
    + rewrite bool_decide_eq_true_2 by exact Hv.
      apply transformed_normalised_once; [now apply Hno | exact Hv].
    + rewrite bool_decide_eq_false_2 by exact Hv.
      now rewrite transformed_contents.
  - destruct (decide (v ∈ scaled (program stmts s))) as [Hv|Hv].
    + rewrite bool_decide_eq_true_2 by exact Hv.
      rewrite transformed_axis_in_GeV; [reflexivity | now apply Hn | exact Hv].
    + rewrite bool_decide_eq_false_2 by exact Hv. now rewrite transformed_axis_kept.
Qed.

(** X14. A histogram displayed at the end of a run of either plotting
    program that ends with code 0 is the one stored in the input file
    under the key of its pointer variable, with the same name, class,
    y axis and number of cells.  Its cells are those stored, put once
    through [Scale(1./Integral())] if the run normalises it and left as
    they are otherwise; and its x axis is the stored one, with both
    bounds divided by 1000 exactly once if the run has rescaled it. *)
Theorem displayed_histograms_are_the_stored_ones :
  displayed_as_stored JetRecoExpPlots.gets exp_stmts JetRecoExpPlots.main
  /\ displayed_as_stored JetRecoGroomPlots.gets groom_stmts JetRecoGroomPlots.main.
Proof.
  split.
  - exact (displayed JetRecoExpPlots.gets JetRecoExpPlots.checked
             JetRecoExpPlots.plot_stage exp_stmts exp_stmts_denote
             exp_scaled_once exp_normed_once).
  - exact (displayed JetRecoGroomPlots.gets JetRecoGroomPlots.checked
             JetRecoGroomPlots.plot_stage groom_stmts groom_stmts_denote
             groom_scaled_once groom_normed_once).
Qed.

(** On the file the reco program writes, whose stage-3 histograms are
    empty: the run at step 3 returns 0, and the normalised histogram is
    displayed with the stored cells, scaled by [+inf]. *)
Lemma displayed_histograms_are_the_stored_ones_witness :
  let run := JetRecoExpPlots.main (hist_file reco_output) (plots_argv "3") in
  ready (hist_file reco_output) (plots_argv "3") (declare reco_output)
  /\ Plots.exit_status run = Exit 0
  /\ exists h h0, final run !! "hist_reco_njets_lowmu" = Some h
       /\ declare reco_output !! "Step3_RecoJet_njets_lowmu" = Some h0
       /\ fArray h = fArray (normalise (in_memory h0)).
Proof.
  cbn zeta.
  assert (Hr : ready (hist_file reco_output) (plots_argv "3") (declare reco_output)).
  { split; [cbn; lia|]. split; [reflexivity|]. split; [reflexivity|].
    split; [vm_compute; split; discriminate|]. unfold hist_file. cbn [plots_argv arg nth].
    apply lookup_singleton_Some. split; reflexivity. }
  assert (He : Plots.exit_status (JetRecoExpPlots.main (hist_file reco_output)
                                    (plots_argv "3")) = Exit 0)
    by (vm_compute; reflexivity).
  split; [exact Hr|]. split; [exact He|].
  destruct (final (JetRecoExpPlots.main (hist_file reco_output) (plots_argv "3"))
              !! "hist_reco_njets_lowmu") as [h|] eqn:E; [|vm_compute in E; discriminate E].
  destruct (proj1 displayed_histograms_are_the_stored_ones (hist_file reco_output)
              (plots_argv "3") (declare reco_output) "hist_reco_njets_lowmu" h Hr He E)
    as (k & C & key & h0 & Hk & Hg & Hin & Hf & _ & _ & _ & _ & Hc & _).
  destruct (exp_one_get k 3 "hist_reco_njets_lowmu" C TH1F key "Step3_RecoJet_njets_lowmu" Hk
              ltac:(unfold stages; in_list) Hin ltac:(cbn; in_list)) as [_ ->].
  exists h, h0. split; [reflexivity|]. split; [exact Hf|].
  rewrite Hc. rewrite bool_decide_eq_true_2
    by (apply (bool_decide_unpack _); vm_compute; exact I).
  reflexivity.
Defined.

(** *** The start-up checks *)

(** The checks of a plotting program before it opens its document, in
    the order of the source: the number of arguments, the two file
    names, the step number, the input file.  A run that returns 1 has
    opened no document; every other run has passed the five checks and
    has opened one. *)
Definition plots_startup_contract
    (main : gmap string (gmap string TH1) -> list string -> Plots.Run) : Prop :=
  forall disk argv,
    let run := main disk argv in
    let s := Libc.to_int (Libc.atol (arg argv 2)) in
    ((length argv < 4)%nat -> run = Plots.stop [MsgUsage])
    /\ ((4 <= length argv)%nat -> EndsWith (arg argv 1) ".pdf" = false ->
        run = Plots.stop [MsgBadPdfName (arg argv 1)])
    /\ ((4 <= length argv)%nat -> EndsWith (arg argv 1) ".pdf" = true ->
        EndsWith (arg argv 3) ".root" = false ->
        run = Plots.stop [MsgBadRootName (arg argv 3)])
    /\ ((4 <= length argv)%nat -> EndsWith (arg argv 1) ".pdf" = true ->
        EndsWith (arg argv 3) ".root" = true -> ~ (0 <= s <= 5) ->
        run = Plots.stop [MsgInvalidStep s])
    /\ ((4 <= length argv)%nat -> EndsWith (arg argv 1) ".pdf" = true ->
        EndsWith (arg argv 3) ".root" = true -> 0 <= s <= 5 ->
        disk !! arg argv 3 = None ->
        run = Plots.stop [MsgOpenFailed (arg argv 3)])
    /\ (Plots.exit_status run = Exit 1 -> pdf run = None /\ final run = ∅)
    /\ (Plots.exit_status run <> Exit 1 ->
        is_Some (pdf run) /\ exists inFile, ready disk argv inFile).

Ltac startup_case :=
  split; [|split; [|split; [|split; [|split; [|split]]]]];
  try solve [ intros; first [ lia | congruence | contradiction | reflexivity ] ];
  cbn;
  try solve [ now intros _ | intros Hx; exfalso; apply Hx; reflexivity ].

Lemma plots_startup gets checked plot_stage :
  plots_startup_contract (Plots.main gets checked plot_stage).
Proof.
  intros disk argv run s. subst run. unfold Plots.main. fold s.
  destruct (Nat.ltb_spec (length argv) 4) as [Hl|Hl].
  { startup_case. }
  destruct (EndsWith (arg argv 1) ".pdf") eqn:E1; cbn [negb].
  2:{ startup_case. }
  destruct (EndsWith (arg argv 3) ".root") eqn:E3; cbn [negb].
  2:{ startup_case. }
  destruct (invalid_step s) eqn:Ei.
  { assert (Hs : ~ (0 <= s <= 5)).
    { intros Hs. apply invalid_step_spec in Hs. congruence. }
    startup_case. }
  apply invalid_step_spec in Ei.
  destruct (disk !! arg argv 3) as [inFile|] eqn:Ed.
  2:{ startup_case. }
  assert (Hr : ready disk argv inFile) by (repeat split; (assumption || lia)).
  destruct (Plots.retrieve gets checked s inFile stages (∅, [])) as [out|[p out]].
  { startup_case. }
  destruct (Plots.plot plot_stage s stages (mkState (in_memory <$> p) [] []))
    as [st|st f];
    startup_case;
    first [ intros Hx; discriminate Hx
          | intros _; (split; [now eexists | now exists inFile]) ].
Qed.

(** X15. The start-up checks of the two plotting programs: fewer than
    three arguments, an output name that does not end in [.pdf], an
    input name that does not end in [.root], a step number outside
    0..5 and an input file that does not open each end the run with
    code 1 and one message, and they are tested in this order, the file
    names before the step number.  A run that returns 1 has opened no
    document; every other run has passed all five checks. *)
Theorem plots_startup_checks_in_order :
  plots_startup_contract JetRecoExpPlots.main
  /\ plots_startup_contract JetRecoGroomPlots.main.
Proof. split; apply plots_startup. Qed.

Lemma plots_startup_checks_in_order_witness :
  let argv := ["plots"; "out.png"; "9"; "hists.txt"] in
  (4 <= length argv)%nat
  /\ EndsWith (arg argv 1) ".pdf" = false
  /\ JetRecoExpPlots.main (hist_file filled) argv = Plots.stop [MsgBadPdfName "out.png"].
Proof.
  cbn zeta.
  assert (H1 : (4 <= length ["plots"; "out.png"; "9"; "hists.txt"])%nat) by (cbn; lia).
  assert (H2 : EndsWith (arg ["plots"; "out.png"; "9"; "hists.txt"] 1) ".pdf" = false)
    by reflexivity.
  split; [exact H1|]. split; [exact H2|].
  destruct (proj1 plots_startup_checks_in_order (hist_file filled)
              ["plots"; "out.png"; "9"; "hists.txt"]) as (_ & H & _).
  exact (H H1 H2).
Defined.

End PlotsRuns.

Module PlotsSafety.
Import Root Prog ProgFacts RecoFacts Plots HistFacts PlotsFacts Samples.
Import Root Prog ProgFacts Plots HistFacts PlotsFacts PlotsClaims.
Import PlotSyntax PlotSyntaxFacts PlotsRuns Samples.

Lemma uses_head (c : stmt) (l : list stmt) :
  uses (c :: l) = match target c with Some v => v :: uses l | None => uses l end.
Proof. reflexivity. Qed.

(** A list of statements that runs to its end has met no null pointer. *)
Lemma run_ok_present (l : list stmt) (s s' : State) :
  run (map denote l) s = Ok s' -> forall v, v ∈ uses l -> is_Some (ptrs s !! v).
Proof.
  revert s. induction l as [|c l IH]; intros s Hr v Hv; [inversion Hv|].
  cbn [map run] in Hr. destruct (denote c s) as [s1|s1 f] eqn:E; [|discriminate].
  destruct (denote_ok c s s1 E) as (H1 & _ & H3).
  rewrite uses_head in Hv.
  destruct (target c) as [u|] eqn:T.
  - apply elem_of_cons in Hv as [->|Hv]; [now apply H3|].
    specialize (IH s1 Hr v Hv). rewrite H1 in IH.
    destruct (ptrs s !! v); [now eexists | now destruct IH].
  - specialize (IH s1 Hr v Hv). rewrite H1 in IH.
    destruct (ptrs s !! v); [now eexists | now destruct IH].
Qed.

Section Program.
Variable gets : Z -> list (string * TClass * string).
Variable checked : Z -> list string.
Variable plot_stage : Z -> list action.
Variable stmts : Z -> list stmt.
Variable untested : list string.
Hypothesis stmts_denote : forall k, plot_stage k = map denote (stmts k).
Hypothesis uses_tested : forall k v, k ∈ stages -> v ∈ uses (stmts k) ->
  (exists k', k' ∈ stages /\ k' <= k /\ v ∈ checked k') \/ (4 <= k /\ v ∈ untested).

Lemma uses_in_stage (s : Z) (v : string) :
  v ∈ uses (program stmts s) ->
  exists k, k ∈ stages /\ gate s k = true /\ v ∈ uses (stmts k).
Proof.
  intros Hv. unfold uses in Hv.
  apply list_elem_of_omap in Hv as (c & Hc & Ht).
  apply list_elem_of_In, in_flat_map in Hc as (k & Hk & Hc).
  apply list_elem_of_In in Hk, Hc.
  unfold selected_stages in Hk. apply list_elem_of_filter in Hk as [Hsel Hk].
  exists k. repeat split; [exact Hk | now apply gate_selected|].
  unfold uses. apply list_elem_of_omap. now exists c.
Qed.

Lemma main_null_safe disk argv :
  (forall inFile v,
      ready disk argv inFile -> v ∈ untested ->
      gate (Libc.to_int (Libc.atol (arg argv 2))) 4 = true ->
      exists C key h, (v, C, key) ∈ gets 4 /\ fst (getHist C inFile key) = Some h) ->
  let run := Plots.main gets checked plot_stage disk argv in
  Plots.exit_status run = Exit 0 \/ Plots.exit_status run = Exit 1.
Proof.
  intros Hun run.
  destruct (plots_startup gets checked plot_stage disk argv)
    as (_ & _ & _ & _ & _ & _ & H7).
  fold run in H7.
  assert (D : Plots.exit_status run = Exit 1 \/ Plots.exit_status run <> Exit 1).
  { destruct (Plots.exit_status run) as [c|f]; [|right; discriminate].
    destruct (decide (c = 1)) as [->|Hc]; [now left | right; congruence]. }
  destruct D as [E1|E1]; [now right|].
  destruct (H7 E1) as [_ [inFile Hr]]. subst run.
  set (s := Libc.to_int (Libc.atol (arg argv 2))) in *.
  destruct (main_outcome gets checked plot_stage stmts stmts_denote disk argv inFile Hr)
    as [[out Hm]|[(p & out & st & _ & _ & Hm)|(p & out & v & R & Hv & Hnone & _)]].
  - rewrite Hm in E1. now contradiction E1.
  - rewrite Hm. now left.
  - exfalso. fold s in R, Hv.
    assert (Hsome : is_Some (p !! v)); [|rewrite Hnone in Hsome; now destruct Hsome].
    destruct (uses_in_stage s v Hv) as (k & Hk & Hg & Hu).
    destruct (retrieve_inr gets checked s inFile stages ∅ [] p out R) as (H1 & _).
    destruct (uses_tested k v Hk Hu) as [(k' & Hk' & Hle & Hc)|[Hle Hv']].
    + apply (H1 k' v Hk'); [|exact Hc].
      apply (gate_below s k k'); [now apply stage_positive | exact Hle | exact Hg].
    + assert (G4 : gate s 4 = true) by (apply (gate_below s k 4); [lia | exact Hle | exact Hg]).
      destruct (Hun inFile v Hr Hv' G4) as (C & key & h & Hin & Hh).
      apply (retrieve_some gets checked s inFile stages ∅ [] p out 4 v C key h R);
        try assumption.
      unfold stages. repeat first [apply list_elem_of_here | apply list_elem_of_further].
Qed.

(** A run that passes the retrievals and then calls through a variable
    whose histogram is absent ends there. *)
Lemma main_null disk argv inFile k v C key :
  (forall k1 k2 v' C1 C2 key1 key2, k1 ∈ stages -> k2 ∈ stages ->
     (v', C1, key1) ∈ gets k1 -> (v', C2, key2) ∈ gets k2 -> C1 = C2 /\ key1 = key2) ->
  ready disk argv inFile ->
  let s := Libc.to_int (Libc.atol (arg argv 2)) in
  let run := Plots.main gets checked plot_stage disk argv in
  Plots.exit_status run <> Exit 1 ->
  k ∈ stages -> gate s k = true -> (v, C, key) ∈ gets k -> v ∈ uses (stmts k) ->
  absent inFile C key ->
  Plots.exit_status run = Abort NullDeref.
Proof.
  intros Hone Hr s run E1 Hk Hg Hin Hu Ha. subst run.
  assert (Hv : v ∈ uses (program stmts s)).
  { unfold uses in Hu |- *. apply list_elem_of_omap in Hu as (c & Hc & Ht).
    apply list_elem_of_omap. exists c. split; [|exact Ht].
    now apply (in_program stmts s k). }
  destruct (main_outcome gets checked plot_stage stmts stmts_denote disk argv inFile Hr)
    as [[out Hm]|[(p & out & st & R & Hrun & Hm)|(p & out & v' & _ & _ & _ & He)]].
  - rewrite Hm in E1. now contradiction E1.
  - exfalso. fold s in R, Hrun.
    destruct (run_ok_present _ _ _ Hrun v Hv) as [h Hh].
    cbn [ptrs] in Hh. rewrite lookup_fmap in Hh.
    destruct (retrieve_inr gets checked s inFile stages ∅ [] p out R) as (_ & _ & H3 & _).
    rewrite H3 in Hh; [discriminate | apply lookup_empty |].
    intros k' C' key' Hk' Hin'.
    destruct (Hone k k' v C C' key key' Hk Hk' Hin Hin') as [<- <-]. exact Ha.
  - exact He.
Qed.

End Program.

Lemma uses_tested_check (checked : Z -> list string) (stmts : Z -> list stmt)
    (untested : list string) :
  (forall k, k ∈ stages ->
     Forall (fun v => v ∈ flat_map checked (filter (fun j => j <= k) stages)
                      \/ (4 <= k /\ v ∈ untested))
            (uses (stmts k))) ->
  forall k v, k ∈ stages -> v ∈ uses (stmts k) ->
    (exists k', k' ∈ stages /\ k' <= k /\ v ∈ checked k') \/ (4 <= k /\ v ∈ untested).
Proof.
  intros H k v Hk Hv.
  destruct (proj1 (Forall_forall _ _) (H k Hk) v Hv) as [Hin|Hin]; [left|now right].
  apply list_elem_of_In, in_flat_map in Hin as (k' & Hk' & Hin).
  apply list_elem_of_In, list_elem_of_filter in Hk' as [Hle Hk'].
  exists k'. repeat split; try assumption. now apply list_elem_of_In.
Qed.

Lemma exp_uses_tested k v :
  k ∈ stages -> v ∈ uses (exp_stmts k) ->
  (exists k', k' ∈ stages /\ k' <= k /\ v ∈ JetRecoExpPlots.checked k')
  \/ (4 <= k /\ v ∈ ["hist_reco_pt_jvf"; "hist_track_pt"]).
Proof.
  apply uses_tested_check. intros k' Hk'.
  each_stage Hk'; apply (bool_decide_unpack _); vm_compute; exact I.
Qed.

Lemma groom_uses_tested k v :
  k ∈ stages -> v ∈ uses (groom_stmts k) ->
  (exists k', k' ∈ stages /\ k' <= k /\ v ∈ JetRecoGroomPlots.checked k')
  \/ (4 <= k /\ v ∈ []).
Proof.
  apply uses_tested_check. intros k' Hk'.
  each_stage Hk'; apply (bool_decide_unpack _); vm_compute; exact I.
Qed.

(** X17. Null pointers in the plotting programs.  jetRecoGroom_plots
    tests every pointer it later dereferences: whatever its arguments
    and whatever its input file holds, zero integrals included, it ends
    with code 0 or 1 and never in a null dereference.  jetRecoExp_plots
    does so too on every input that, when stage 4 is selected, holds the
    two histograms its stage-4 test leaves out, [Step4_RecoJet_pt_jvf]
    and [Step4_TrackJet_pt], as [TH1F]; when one of the two is missing
    and the tests pass, the run ends at the null pointer. *)
Theorem plots_dereference_no_null_pointer :
  (forall disk argv,
      let run := JetRecoGroomPlots.main disk argv in
      Plots.exit_status run = Exit 0 \/ Plots.exit_status run = Exit 1)
  /\ (forall disk argv,
        (forall inFile, ready disk argv inFile ->
           gate (Libc.to_int (Libc.atol (arg argv 2))) 4 = true ->
           ~ absent inFile TH1F "Step4_RecoJet_pt_jvf"
           /\ ~ absent inFile TH1F "Step4_TrackJet_pt") ->
        let run := JetRecoExpPlots.main disk argv in
        Plots.exit_status run = Exit 0 \/ Plots.exit_status run = Exit 1)
  /\ (forall disk argv inFile,
        ready disk argv inFile ->
        let run := JetRecoExpPlots.main disk argv in
        Plots.exit_status run <> Exit 1 ->
        gate (Libc.to_int (Libc.atol (arg argv 2))) 4 = true ->
        absent inFile TH1F "Step4_RecoJet_pt_jvf"
        \/ absent inFile TH1F "Step4_TrackJet_pt" ->
        Plots.exit_status run = Abort NullDeref).
Proof.
  split; [|split].
  - intros disk argv.
    apply (main_null_safe JetRecoGroomPlots.gets JetRecoGroomPlots.checked
             JetRecoGroomPlots.plot_stage groom_stmts [] groom_stmts_denote
             groom_uses_tested).
    intros inFile v _ Hv. inversion Hv.
  - intros disk argv Hp.
    apply (main_null_safe JetRecoExpPlots.gets JetRecoExpPlots.checked
             JetRecoExpPlots.plot_stage exp_stmts ["hist_reco_pt_jvf"; "hist_track_pt"]
             exp_stmts_denote exp_uses_tested).
    intros inFile v Hr Hv G4. destruct (Hp inFile Hr G4) as [H1 H2].
    unfold absent in H1, H2.
    apply elem_of_cons in Hv as [->|Hv]; [|apply elem_of_cons in Hv as [->|Hv]].
    + destruct (fst (getHist TH1F inFile "Step4_RecoJet_pt_jvf")) as [h|] eqn:E;
        [|contradiction].
      exists TH1F, "Step4_RecoJet_pt_jvf", h. split; [|exact E].
      cbn. repeat first [apply list_elem_of_here | apply list_elem_of_further].
    + destruct (fst (getHist TH1F inFile "Step4_TrackJet_pt")) as [h|] eqn:E;
        [|contradiction].
      exists TH1F, "Step4_TrackJet_pt", h. split; [|exact E].
      cbn. repeat first [apply list_elem_of_here | apply list_elem_of_further].
    + inversion Hv.
  - intros disk argv inFile Hr run E1 G4 [Ha|Ha]; subst run.
    + apply (main_null JetRecoExpPlots.gets JetRecoExpPlots.checked
               JetRecoExpPlots.plot_stage exp_stmts exp_stmts_denote disk argv inFile
               4 "hist_reco_pt_jvf" TH1F "Step4_RecoJet_pt_jvf" exp_one_get Hr E1);
        [unfold stages; in_list | exact G4 | cbn; in_list
        | apply (bool_decide_unpack _); vm_compute; exact I | exact Ha].
    + apply (main_null JetRecoExpPlots.gets JetRecoExpPlots.checked
               JetRecoExpPlots.plot_stage exp_stmts exp_stmts_denote disk argv inFile
               4 "hist_track_pt" TH1F "Step4_TrackJet_pt" exp_one_get Hr E1);
        [unfold stages; in_list | exact G4 | cbn; in_list
        | apply (bool_decide_unpack _); vm_compute; exact I | exact Ha].
Qed.

(** A file whose stage-4 histograms are all there and all empty, at
    step 4: the run normalises them and returns 0. *)
Lemma plots_dereference_no_null_pointer_witness :
  let disk := hist_file reco_output in
  let run := JetRecoExpPlots.main disk (plots_argv "4") in
  (forall inFile, ready disk (plots_argv "4") inFile ->
     ~ absent inFile TH1F "Step4_RecoJet_pt_jvf"
     /\ ~ absent inFile TH1F "Step4_TrackJet_pt")
  /\ (Plots.exit_status run = Exit 0 \/ Plots.exit_status run = Exit 1).
Proof.
  cbn zeta.
  assert (H : forall inFile,
            ready (hist_file reco_output) (plots_argv "4") inFile ->
            ~ absent inFile TH1F "Step4_RecoJet_pt_jvf"
            /\ ~ absent inFile TH1F "Step4_TrackJet_pt").
  { intros inFile (_ & _ & _ & _ & Hd).
    change (arg (plots_argv "4") 3) with "hists.root" in Hd.
    apply hist_file_lookup in Hd. subst inFile. unfold absent.
    split; vm_compute; discriminate. }
  split; [exact H|].
  apply (proj1 (proj2 plots_dereference_no_null_pointer)). intros inFile Hr _. now apply H.
Defined.

End PlotsSafety.

(** ** From the reconstruction to the plots *)

Module Pipeline.
Import Root Prog ProgFacts RecoFacts Plots HistFacts PlotsFacts Samples.
Import Root Prog ProgFacts RecoFacts Plots HistFacts PlotsFacts PlotsClaims FillFacts.
Import PlotSyntax PlotSyntaxFacts PlotsRuns PlotsSafety RecoRuns Samples.

(** The file a run of a reconstruction program leaves: the histograms
    written, each under its name. *)
Definition output_file (run : Prog.Run) : gmap string TH1 := declare (written run).

Lemma declare_find (l : list TH1) (n : string) : declare l !! n = find_hist n l.
Proof.
  unfold declare, find_hist. induction l as [|h l IH]; [reflexivity|].
  cbn [map list_to_map foldr find]. cbn [fst snd].
  destruct (String.eqb_spec (fName h) n) as [->|Hne].
  - now rewrite lookup_insert, decide_True.
  - rewrite lookup_insert, decide_False by exact Hne. exact IH.
Qed.

Lemma Fill_class (a : FillArgs) (h : TH1) : fClass (Fill a h) = fClass h.
Proof. now destruct a. Qed.

Lemma accumulated_class (d : TH1) (run : Prog.Run) : fClass (accumulated d run) = fClass d.
Proof.
  unfold accumulated. generalize (fills_to (fName d) (concat (fills run))).
  intros l. revert d. induction l as [|f l IH]; intros d; [reflexivity|].
  cbn [foldl]. rewrite IH. apply Fill_class.
Qed.

Lemma fills_to_concat (h : string) (ls : list (list fill)) :
  Forall (fun l => fills_to h l = []) ls -> fills_to h (concat ls) = [].
Proof.
  induction 1 as [|l ls Hl _ IH]; [reflexivity|].
  cbn [concat]. unfold fills_to in *. now rewrite filter_app, Hl, IH.
Qed.

Section Reco.
Context {Event Vars : Type}.
Variable vars0 : Vars.
Variable stage_branches : Z -> list string.
Variable GetEntry : Reader -> Event -> Vars -> Vars.
Variable event_body : Z -> Vars -> W unit.
Variable stage_decls : Z -> list TH1.

Local Abbreviation main :=
  (Prog.main vars0 stage_branches GetEntry event_body stage_decls).

Lemma main_fills disk argv t :
  reaches disk argv t ->
  Forall (fun l => exists v,
            l = log (event_body (Libc.to_int (Libc.atol (arg argv 2))) v))
         (fills (main disk argv)).
Proof.
  intros Hr.
  destruct (main_reaches vars0 stage_branches GetEntry event_body stage_decls
              disk argv t Hr) as (hs & out & fl & d & Hloop & Hm).
  pose proof (event_loop_fills GetEntry event_body
                (Libc.to_int (Libc.atol (arg argv 2)))
                (wire_branches stage_branches (Libc.to_int (Libc.atol (arg argv 2))) t)
                (Z.of_nat (length (tEntries t))) 0 (tEntries t) vars0
                (declare (all_decls stage_decls))) as H.
  rewrite Hloop in H. cbn [fst snd] in H. rewrite Hm. now destruct d.
Qed.

(** A histogram no event fills is written as it was constructed. *)
Lemma main_never_filled disk argv t (filled : list string) k d :
  NoDup (flat_map (stage_writes stage_decls) stages) ->
  (forall s v, names (event_body s v) `sublist_of` filled) ->
  reaches disk argv t ->
  let s := Libc.to_int (Libc.atol (arg argv 2)) in
  Prog.exit_status (main disk argv) = Exit 0 ->
  k ∈ stages -> gate s k = true -> d ∈ stage_decls k -> fName d ∉ filled ->
  find_hist (fName d) (written (main disk argv)) = Some d.
Proof.
  intros Hn Hnames Hr s He Hk Hg Hd Hf.
  rewrite (main_accumulates vars0 stage_branches GetEntry event_body stage_decls
             disk argv t Hn Hr He k d Hk Hg Hd).
  unfold accumulated. rewrite fills_to_concat; [reflexivity|].
  eapply Forall_impl; [apply (main_fills disk argv t Hr)|].
  intros l [v ->]. now apply (no_fill_outside _ filled).
Qed.

End Reco.

(** The histograms a stage of the plotting program retrieves are those
    the same stage of the reconstruction program declares, name by name
    and class by class. *)
Definition same_interface (stage_decls : Z -> list TH1)
    (gets : Z -> list (string * TClass * string)) : Prop :=
  forall k, k ∈ stages ->
    forall C key, (exists v, (v, C, key) ∈ gets k)
                  <-> exists d, d ∈ stage_decls k /\ fName d = key /\ fClass d = C.

Lemma same_interface_check (stage_decls : Z -> list TH1)
    (gets : Z -> list (string * TClass * string)) :
  (forall k, k ∈ stages ->
     Forall (fun g => (g.2, g.1.2) ∈ map (fun d => (fName d, fClass d)) (stage_decls k))
            (gets k)
     /\ Forall (fun d => (fName d, fClass d) ∈ map (fun g => (g.2, g.1.2)) (gets k))
               (stage_decls k)) ->
  same_interface stage_decls gets.
Proof.
  intros H k Hk C key. destruct (H k Hk) as [H1 H2]. split.
  - intros [v Hin].
    pose proof (proj1 (Forall_forall _ _) H1 _ Hin) as Hm. cbn in Hm.
    apply list_elem_of_In, in_map_iff in Hm as (d & E & Hd). injection E as <- <-.
    exists d. split; [now apply list_elem_of_In | auto].
  - intros (d & Hd & <- & <-).
    pose proof (proj1 (Forall_forall _ _) H2 _ Hd) as Hm. cbn in Hm.
    apply list_elem_of_In, in_map_iff in Hm as ([[v C] key] & E & Hg). cbn in E.
    injection E as <- <-. exists v. now apply list_elem_of_In.
Qed.

Lemma exp_same_interface : same_interface JetRecoExp.stage_decls JetRecoExpPlots.gets.
Proof.
  apply same_interface_check. intros k Hk.
  each_stage Hk; split; apply (bool_decide_unpack _); vm_compute; exact I.
Qed.

Lemma groom_same_interface : same_interface JetRecoGroom.stage_decls JetRecoGroomPlots.gets.
Proof.
  apply same_interface_check. intros k Hk.
  each_stage Hk; split; apply (bool_decide_unpack _); vm_compute; exact I.
Qed.

(** *** Running the plots on the output of the reconstruction *)

Section Pair.
Context {Event Vars : Type}.
Variable vars0 : Vars.
Variable stage_branches : Z -> list string.
Variable GetEntry : Reader -> Event -> Vars -> Vars.
Variable event_body : Z -> Vars -> W unit.
Variable stage_decls : Z -> list TH1.
Variable gets : Z -> list (string * TClass * string).
Variable checked : Z -> list string.
Variable plot_stage : Z -> list action.
Variable stmts : Z -> list stmt.
Hypothesis stmts_denote : forall k, plot_stage k = map denote (stmts k).
Hypothesis one_get : forall k1 k2 v C1 C2 key1 key2, k1 ∈ stages -> k2 ∈ stages ->
  (v, C1, key1) ∈ gets k1 -> (v, C2, key2) ∈ gets k2 -> C1 = C2 /\ key1 = key2.
Hypothesis checked_retrieved : forall k v, k ∈ stages -> v ∈ checked k ->
  exists k' C key, k' ∈ stages /\ k' <= k /\ (v, C, key) ∈ gets k'.
Hypothesis uses_retrieved : forall k v, k ∈ stages -> v ∈ uses (stmts k) ->
  exists k' C key, k' ∈ stages /\ k' <= k /\ (v, C, key) ∈ gets k'.
Hypothesis names_distinct : NoDup (flat_map (stage_writes stage_decls) stages).
Hypothesis interface : same_interface stage_decls gets.

Local Abbreviation reco := (Prog.main vars0 stage_branches GetEntry event_body stage_decls).
Local Abbreviation plots := (Plots.main gets checked plot_stage).

Lemma output_complete rdisk rargv t (s' : Z) :
  reaches rdisk rargv t ->
  Prog.exit_status (reco rdisk rargv) = Exit 0 ->
  (forall k, k ∈ stages -> gate s' k = true ->
             gate (Libc.to_int (Libc.atol (arg rargv 2))) k = true) ->
  complete_for gets s' (output_file (reco rdisk rargv)).
Proof.
  intros Hr He Hsub k v C key Hk Hg Hin.
  destruct (proj1 (interface k Hk C key) (ex_intro _ v Hin)) as (d & Hd & <- & <-).
  exists (accumulated d (reco rdisk rargv)). split; [|apply accumulated_class].
  unfold output_file. rewrite declare_find.
  apply (main_accumulates vars0 stage_branches GetEntry event_body stage_decls
           rdisk rargv t names_distinct Hr He k d Hk (Hsub k Hk Hg) Hd).
Qed.

Lemma plots_retrieved pdisk pargv inFile :
  ready pdisk pargv inFile ->
  complete_for gets (Libc.to_int (Libc.atol (arg pargv 2))) inFile ->
  Plots.stdout (plots pdisk pargv) = []
  /\ Plots.exit_status (plots pdisk pargv) <> Exit 1
  /\ is_Some (pdf (plots pdisk pargv)).
Proof.
  intros Hr Hc.
  rewrite (main_program gets checked plot_stage stmts stmts_denote pdisk pargv inFile Hr).
  destruct (retrieve_complete gets checked one_get checked_retrieved _ inFile Hc)
    as (p & -> & _).
  destruct (run _ _); cbn; repeat split; try discriminate; now eexists.
Qed.

(** A complete file in which a histogram the run normalises is as it
    was constructed, without an entry: the run goes to its last page,
    and that histogram is displayed with every cell multiplied by
    [1./0.]. *)
Lemma plots_show_unfilled pdisk pargv inFile k v d :
  (forall s, 0 <= s <= 5 -> NoDup (normed (program stmts s))) ->
  ready pdisk pargv inFile ->
  let s' := Libc.to_int (Libc.atol (arg pargv 2)) in
  let prun := plots pdisk pargv in
  complete_for gets s' inFile ->
  k ∈ stages -> gate s' k = true -> (v, fClass d, fName d) ∈ gets k ->
  v ∈ normed (program stmts s') ->
  inFile !! fName d = Some d ->
  Plots.exit_status prun = Exit 0 /\ Plots.stdout prun = []
  /\ length <$> pdf prun = Some (prints (program stmts s'))
  /\ exists h, final prun !! v = Some h /\ fArray h = fArray (normalise (in_memory d)).
Proof.
  intros Hno Hr s' prun Hc Hk Hg Hin Hv Hd. subst prun.
  destruct (main_plotted gets checked plot_stage stmts stmts_denote one_get
              checked_retrieved uses_retrieved pdisk pargv inFile Hr Hc) as (A1 & A2 & A3).
  split; [exact A1|]. split; [exact A2|]. split; [exact A3|].
  destruct (main_exit0 gets checked plot_stage stmts stmts_denote pdisk pargv inFile Hr A1)
    as (p & out & st & R & Hrun & Hm).
  fold s' in R, Hrun.
  destruct (retrieve_complete gets checked one_get checked_retrieved s' inFile Hc)
    as (p' & R' & Hp & _).
  rewrite R' in R. injection R as <- _.
  rewrite Hm. cbn [final].
  destruct (run_sound _ _ _ Hrun) as [Hs _]. rewrite Hs. cbn [ptrs].
  rewrite lookup_fmap, (Hp k v _ _ Hk Hg Hin), Hd.
  eexists. split; [reflexivity|].
  apply transformed_normalised_once; [|exact Hv].
  apply Hno. now destruct Hr as (_ & _ & _ & H & _).
Qed.

Lemma plots_on_output rdisk rargv t pdisk pargv :
  reaches rdisk rargv t ->
  let run := reco rdisk rargv in
  let s := Libc.to_int (Libc.atol (arg rargv 2)) in
  let s' := Libc.to_int (Libc.atol (arg pargv 2)) in
  Prog.exit_status run = Exit 0 ->
  (forall k, k ∈ stages -> gate s' k = true -> gate s k = true) ->
  ready pdisk pargv (output_file run) ->
  let prun := plots pdisk pargv in
  Plots.stdout prun = [] /\ Plots.exit_status prun <> Exit 1
  /\ (normed (program stmts s') = [] ->
      Plots.exit_status prun = Exit 0
      /\ length <$> pdf prun = Some (prints (program stmts s'))).
Proof.
  intros Hr run s s' He Hsub Hrd prun.
  pose proof (output_complete rdisk rargv t s' Hr He Hsub) as Hc.
  destruct (plots_retrieved pdisk pargv _ Hrd Hc) as (H1 & H2 & _).
  split; [exact H1|]. split; [exact H2|]. intros Hn.
  destruct (main_complete gets checked plot_stage stmts stmts_denote one_get
              checked_retrieved uses_retrieved pdisk pargv _ Hrd Hc) as (A1 & _ & A3).
  - intros k v C key h _ _ _ Hv. fold s' in Hv. rewrite Hn in Hv. inversion Hv.
  - split; [exact A1 | exact A3].
Qed.

Lemma plots_on_unfilled rdisk rargv t pdisk pargv (filled : list string) k v d :
  (forall s, 0 <= s <= 5 -> NoDup (normed (program stmts s))) ->
  (forall s u, names (event_body s u) `sublist_of` filled) ->
  reaches rdisk rargv t ->
  let run := reco rdisk rargv in
  let s := Libc.to_int (Libc.atol (arg rargv 2)) in
  let s' := Libc.to_int (Libc.atol (arg pargv 2)) in
  let prun := plots pdisk pargv in
  Prog.exit_status run = Exit 0 ->
  (forall k, k ∈ stages -> gate s' k = true -> gate s k = true) ->
  ready pdisk pargv (output_file run) ->
  k ∈ stages -> gate s' k = true ->
  (v, fClass d, fName d) ∈ gets k -> d ∈ stage_decls k -> fName d ∉ filled ->
  v ∈ normed (stmts k) ->
  Plots.exit_status prun = Exit 0 /\ Plots.stdout prun = []
  /\ length <$> pdf prun = Some (prints (program stmts s'))
  /\ exists h, final prun !! v = Some h /\ fArray h = fArray (normalise (in_memory d)).
Proof.
  intros Hno Hnames Hr run s s' prun He Hsub Hrd Hk Hg Hin Hd Hf Hv.
  pose proof (output_complete rdisk rargv t s' Hr He Hsub) as Hc.
  apply (plots_show_unfilled pdisk pargv _ k v d Hno Hrd Hc Hk Hg Hin).
  - now apply (program_normed stmts s' k).
  - unfold output_file. rewrite declare_find.
    apply (main_never_filled vars0 stage_branches GetEntry event_body stage_decls
             rdisk rargv t filled k d names_distinct Hnames Hr He Hk (Hsub k Hk Hg) Hd Hf).
Qed.

End Pair.

(** What a run of the plots makes of the output of the reconstruction:
    the retrievals of every stage the reconstruction ran pass without a
    message, and a step that normalises nothing is plotted to the end. *)
Definition feeds {Event : Type}
    (reco : gmap string (gmap string (TTree Event)) -> list string -> Prog.Run)
    (plots : gmap string (gmap string TH1) -> list string -> Plots.Run)
    (stmts : Z -> list stmt) : Prop :=
  forall rdisk rargv (t : TTree Event) pdisk pargv,
    reaches rdisk rargv t ->
    let run := reco rdisk rargv in
    let s := Libc.to_int (Libc.atol (arg rargv 2)) in
    let s' := Libc.to_int (Libc.atol (arg pargv 2)) in
    Prog.exit_status run = Exit 0 ->
    (forall k, k ∈ stages -> gate s' k = true -> gate s k = true) ->
    ready pdisk pargv (output_file run) ->
    let prun := plots pdisk pargv in
    Plots.stdout prun = [] /\ Plots.exit_status prun <> Exit 1
    /\ (normed (program stmts s') = [] ->
        Plots.exit_status prun = Exit 0
        /\ length <$> pdf prun = Some (prints (program stmts s'))).

(** ... and a step that reaches stage [k] is plotted to the end all the
    same, with code 0, and shows the histogram of the variable [v],
    which no event fills, with not-a-number in every cell. *)
Definition starves {Event : Type}
    (reco : gmap string (gmap string (TTree Event)) -> list string -> Prog.Run)
    (plots : gmap string (gmap string TH1) -> list string -> Plots.Run)
    (stmts : Z -> list stmt) (k : Z) (v : string) : Prop :=
  forall rdisk rargv (t : TTree Event) pdisk pargv,
    reaches rdisk rargv t ->
    let run := reco rdisk rargv in
    let s := Libc.to_int (Libc.atol (arg rargv 2)) in
    let s' := Libc.to_int (Libc.atol (arg pargv 2)) in
    Prog.exit_status run = Exit 0 ->
    (forall k, k ∈ stages -> gate s' k = true -> gate s k = true) ->
    ready pdisk pargv (output_file run) ->
    gate s' k = true ->
    let prun := plots pdisk pargv in
    Plots.exit_status prun = Exit 0 /\ Plots.stdout prun = []
    /\ length <$> pdf prun = Some (prints (program stmts s'))
    /\ exists h, final prun !! v = Some h
                 /\ fArray h = repeat NaN (length (fArray h)) /\ fArray h <> [].

Lemma hist_file_ready (l : list TH1) (step : string) :
  0 <= Libc.to_int (Libc.atol step) <= 5 ->
  ready (hist_file l) (plots_argv step) (declare l).
Proof.
  intros Hs. split; [cbn; lia|]. split; [reflexivity|]. split; [reflexivity|].
  split; [exact Hs|]. unfold hist_file. cbn [plots_argv arg nth].
  apply lookup_singleton_Some. split; reflexivity.
Qed.

(** X18. The two programs of a pipeline agree on their interface: stage
    by stage, the plotting program retrieves exactly the histograms the
    reconstruction program declares, under the same names and with the
    same classes.  So on the file a reconstruction run has written, a
    plotting run at a step that selects no stage the reconstruction has
    left out passes every retrieval without a message and does not
    return 1; at the steps that normalise nothing (1 and 2 of
    jetRecoExp_plots, 1 to 3 of jetRecoGroom_plots) it ends with code 0
    and all pages of the step. *)
Theorem reconstruction_output_feeds_the_plots :
  same_interface JetRecoExp.stage_decls JetRecoExpPlots.gets
  /\ same_interface JetRecoGroom.stage_decls JetRecoGroomPlots.gets
  /\ feeds JetRecoExp.main JetRecoExpPlots.main exp_stmts
  /\ (forall (PseudoJet : Type) (make_pseudojet : Q -> Q -> Q -> Q -> PseudoJet)
        (akt10_jets : list PseudoJet -> list PseudoJet)
        (trimmer : PseudoJet -> PseudoJet) (pt : PseudoJet -> Q),
      feeds (JetRecoGroom.main make_pseudojet akt10_jets trimmer pt)
            JetRecoGroomPlots.main groom_stmts)
  /\ (forall s, s = 1 \/ s = 2 -> normed (program exp_stmts s) = [])
  /\ (forall s, s = 1 \/ s = 2 \/ s = 3 -> normed (program groom_stmts s) = []).
Proof.
  split; [exact exp_same_interface|]. split; [exact groom_same_interface|].
  split; [|split; [|split]].
  - intros rdisk rargv t pdisk pargv Hr.
    exact (plots_on_output JetRecoExp.vars0 JetRecoExp.stage_branches JetRecoExp.GetEntry
             JetRecoExp.event_body JetRecoExp.stage_decls
             JetRecoExpPlots.gets JetRecoExpPlots.checked JetRecoExpPlots.plot_stage
             exp_stmts exp_stmts_denote exp_one_get exp_checked_retrieved
             exp_uses_retrieved LaterStages.exp_names_distinct exp_same_interface
             rdisk rargv t pdisk pargv Hr).
  - intros PseudoJet make_pseudojet akt10_jets trimmer pt rdisk rargv t pdisk pargv Hr.
    exact (plots_on_output JetRecoGroom.vars0 JetRecoGroom.stage_branches
             JetRecoGroom.GetEntry
             (JetRecoGroom.event_body make_pseudojet akt10_jets trimmer pt)
             JetRecoGroom.stage_decls
             JetRecoGroomPlots.gets JetRecoGroomPlots.checked JetRecoGroomPlots.plot_stage
             groom_stmts groom_stmts_denote groom_one_get groom_checked_retrieved
             groom_uses_retrieved LaterStages.groom_names_distinct groom_same_interface
             rdisk rargv t pdisk pargv Hr).
  - intros s [->| ->]; reflexivity.
  - intros s [->|[->| ->]]; reflexivity.
Qed.

Lemma reconstruction_output_feeds_the_plots_witness :
  let run := JetRecoExp.main exp_disk (reco_argv "0") in
  let prun := JetRecoExpPlots.main (hist_file (written run)) (plots_argv "2") in
  reaches exp_disk (reco_argv "0") exp_tree
  /\ Prog.exit_status run = Exit 0
  /\ ready (hist_file (written run)) (plots_argv "2") (output_file run)
  /\ Plots.stdout prun = [] /\ Plots.exit_status prun = Exit 0
  /\ length <$> pdf prun = Some 5%nat.
Proof.
  cbn zeta.
  assert (Hr : reaches exp_disk (reco_argv "0") exp_tree)
    by (apply LaterStages.exp_sample_reaches; vm_compute; split; discriminate).
  assert (He : Prog.exit_status (JetRecoExp.main exp_disk (reco_argv "0")) = Exit 0)
    by (vm_compute; reflexivity).
  assert (Hrd : ready (hist_file (written (JetRecoExp.main exp_disk (reco_argv "0"))))
                  (plots_argv "2")
                  (output_file (JetRecoExp.main exp_disk (reco_argv "0"))))
    by (apply hist_file_ready; vm_compute; split; discriminate).
  split; [exact Hr|]. split; [exact He|]. split; [exact Hrd|].
  destruct (proj1 (proj2 (proj2 reconstruction_output_feeds_the_plots))
              exp_disk (reco_argv "0") exp_tree _ (plots_argv "2") Hr He
              ltac:(intros k _ _; reflexivity) Hrd) as (H1 & _ & H3).
  split; [exact H1|]. exact (H3 eq_refl).
Defined.

(** X19. As the two reconstruction programs stand, the fill blocks of
    stages 3 to 5 of jetRecoExp and of stages 4 and 5 of jetRecoGroom
    are empty, so their histograms are written without entries whatever
    the input.  On such an output a plotting run that reaches stage 3
    (jetRecoExp_plots) or stage 4 (jetRecoGroom_plots) normalises
    histograms whose integral is zero: it prints no message, prints all
    the pages of its step (nine at step 3 of jetRecoExp_plots, ten at
    step 4 of jetRecoGroom_plots) and returns 0, and it shows such a
    histogram with not-a-number in every cell. *)
Theorem plots_of_unfilled_stages_show_no_numbers :
  starves JetRecoExp.main JetRecoExpPlots.main exp_stmts 3 "hist_reco_njets_highmu"
  /\ (forall (PseudoJet : Type) (make_pseudojet : Q -> Q -> Q -> Q -> PseudoJet)
        (akt10_jets : list PseudoJet -> list PseudoJet)
        (trimmer : PseudoJet -> PseudoJet) (pt : PseudoJet -> Q),
      starves (JetRecoGroom.main make_pseudojet akt10_jets trimmer pt)
              JetRecoGroomPlots.main groom_stmts 4 "hist_mypruned_m")
  /\ prints (program exp_stmts 3) = 9%nat
  /\ prints (program groom_stmts 4) = 10%nat.
Proof.
  split; [|split; [|split; reflexivity]].
  - intros rdisk rargv t pdisk pargv Hr run s s' He Hsub Hrd Hg prun.
    destruct (plots_on_unfilled JetRecoExp.vars0 JetRecoExp.stage_branches
             JetRecoExp.GetEntry JetRecoExp.event_body JetRecoExp.stage_decls
             JetRecoExpPlots.gets JetRecoExpPlots.checked JetRecoExpPlots.plot_stage
             exp_stmts exp_stmts_denote exp_one_get exp_checked_retrieved
             exp_uses_retrieved LaterStages.exp_names_distinct exp_same_interface
             rdisk rargv t pdisk pargv _ 3 "hist_reco_njets_highmu"
             (new1 TH1F "Step3_RecoJet_njets_highmu" 15 0 30)
             exp_normed_once LeadingFills.exp_names Hr He Hsub Hrd)
      as (A1 & A2 & A3 & h & Hh & Hc); try exact Hg;
      try (apply (bool_decide_unpack _); vm_compute; exact I).
    split; [exact A1|]. split; [exact A2|]. split; [exact A3|].
    exists h. split; [exact Hh|]. rewrite Hc. split; [reflexivity | discriminate].
  - intros PseudoJet make_pseudojet akt10_jets trimmer pt
      rdisk rargv t pdisk pargv Hr run s s' He Hsub Hrd Hg prun.
    destruct (plots_on_unfilled JetRecoGroom.vars0 JetRecoGroom.stage_branches
             JetRecoGroom.GetEntry
             (JetRecoGroom.event_body make_pseudojet akt10_jets trimmer pt)
             JetRecoGroom.stage_decls
             JetRecoGroomPlots.gets JetRecoGroomPlots.checked JetRecoGroomPlots.plot_stage
             groom_stmts groom_stmts_denote groom_one_get groom_checked_retrieved
             groom_uses_retrieved LaterStages.groom_names_distinct groom_same_interface
             rdisk rargv t pdisk pargv _ 4 "hist_mypruned_m"
             (new1 TH1F "Step4_MyPrunedMass" 215 10000 1000000)
             groom_normed_once
             (LeadingFills.groom_names make_pseudojet akt10_jets trimmer pt)
             Hr He Hsub Hrd)
      as (A1 & A2 & A3 & h & Hh & Hc); try exact Hg;
      try (apply (bool_decide_unpack _); vm_compute; exact I).
    split; [exact A1|]. split; [exact A2|]. split; [exact A3|].
    exists h. split; [exact Hh|]. rewrite Hc. split; [reflexivity | discriminate].
Qed.

Lemma plots_of_unfilled_stages_show_no_numbers_witness :
  let run := JetRecoExp.main exp_disk (reco_argv "0") in
  let prun := JetRecoExpPlots.main (hist_file (written run)) (plots_argv "3") in
  reaches exp_disk (reco_argv "0") exp_tree
  /\ Prog.exit_status run = Exit 0
  /\ ready (hist_file (written run)) (plots_argv "3") (output_file run)
  /\ gate (Libc.to_int (Libc.atol (arg (plots_argv "3") 2))) 3 = true
  /\ Plots.exit_status prun = Exit 0
  /\ length <$> pdf prun = Some 9%nat.
Proof.
  cbn zeta.
  assert (Hr : reaches exp_disk (reco_argv "0") exp_tree)
    by (apply LaterStages.exp_sample_reaches; vm_compute; split; discriminate).
  assert (He : Prog.exit_status (JetRecoExp.main exp_disk (reco_argv "0")) = Exit 0)
    by (vm_compute; reflexivity).
  assert (Hrd : ready (hist_file (written (JetRecoExp.main exp_disk (reco_argv "0"))))
                  (plots_argv "3")
                  (output_file (JetRecoExp.main exp_disk (reco_argv "0"))))
    by (apply hist_file_ready; vm_compute; split; discriminate).
  split; [exact Hr|]. split; [exact He|]. split; [exact Hrd|]. split; [reflexivity|].
  destruct (proj1 plots_of_unfilled_stages_show_no_numbers
              exp_disk (reco_argv "0") exp_tree _ (plots_argv "3") Hr He
              ltac:(intros k _ _; reflexivity) Hrd eq_refl) as (A1 & _ & A3 & _).
  split; [exact A1 | exact A3].
Defined.

End Pipeline.

(** ** A step argument that is no number *)

Module NonNumericStep.
Import Root Prog ProgFacts RecoFacts Plots HistFacts PlotsFacts Samples.
Import ReaderFacts PlotsClaims StepArgument.
Import PlotSyntax PlotSyntaxFacts PlotsRuns RecoRuns Pipeline.

(** A run of a reconstruction program that executes every stage: with
    the input file and the tree opened it does not return 1, switches
    on the branches of the five stages, runs the five fill blocks, in
    stage order, for each event it enters, and at its normal end has
    entered every event and written the histograms of the five stages. *)
Definition reco_runs_every_stage {Event Vars : Type}
    (stage_branches : Z -> list string) (stage_fill : Z -> Vars -> W unit)
    (stage_decls : Z -> list TH1)
    (main : gmap string (gmap string (TTree Event)) -> list string -> Prog.Run)
    (argv : list string) : Prop :=
  forall disk inFile inTree,
    (5 <= length argv)%nat ->
    disk !! arg argv 4 = Some inFile -> inFile !! arg argv 3 = Some inTree ->
    let run := main disk argv in
    Prog.exit_status run <> Exit 1
    /\ requested <$> reader run = Some (flat_map stage_branches stages)
    /\ Forall (fun l => exists v, l = log (blocks stage_fill stages v)) (fills run)
    /\ (Prog.exit_status run = Exit 0 ->
        length (fills run) = length (tEntries inTree)
        /\ map fName (written run) = flat_map (stage_writes stage_decls) stages).

(** A run of a plotting program that executes every stage: with its
    file names accepted and the input file opened, a tested histogram of
    any of the five stages that is absent ends it with code 1 after
    messages that name absent histograms, and on a file that holds the
    histograms of the five stages it prints no message, prints the pages
    of the five stages and returns 0. *)
Definition plots_runs_every_stage (gets : Z -> list (string * TClass * string))
    (checked : Z -> list string) (stmts : Z -> list stmt)
    (main : gmap string (gmap string TH1) -> list string -> Plots.Run)
    (argv : list string) : Prop :=
  forall disk inFile,
    (4 <= length argv)%nat ->
    EndsWith (arg argv 1) ".pdf" = true -> EndsWith (arg argv 3) ".root" = true ->
    disk !! arg argv 3 = Some inFile ->
    let run := main disk argv in
    (forall k v C key,
        k ∈ stages -> (v, C, key) ∈ gets k -> v ∈ checked k -> absent inFile C key ->
        exists out, run = Plots.stop out /\ out <> []
                    /\ forall m, m ∈ out -> names_absent gets 0 inFile m)
    /\ (complete_for gets 0 inFile ->
        Plots.exit_status run = Exit 0 /\ Plots.stdout run = []
        /\ length <$> pdf run = Some (prints (flat_map stmts stages))).

Section Reco.
Context {Event Vars : Type}.
Variable vars0 : Vars.
Variable stage_branches : Z -> list string.
Variable GetEntry : Reader -> Event -> Vars -> Vars.
Variable event_body : Z -> Vars -> W unit.
Variable stage_decls : Z -> list TH1.
Variable stage_fill : Z -> Vars -> W unit.
Hypothesis body_blocks : forall s v,
  0 <= s <= 5 -> event_body s v = blocks stage_fill (selected_stages s) v.

Lemma reco_every_stage (argv : list string) :
  Libc.to_int (Libc.atol (arg argv 2)) = 0 ->
  reco_runs_every_stage stage_branches stage_fill stage_decls
    (Prog.main vars0 stage_branches GetEntry event_body stage_decls) argv.
Proof.
  intros H0 disk inFile inTree Hl Hd Ht run. subst run.
  assert (Hr : reaches disk argv inTree).
  { split; [exact Hl|]. split; [rewrite H0; lia|]. now exists inFile. }
  destruct (main_effects vars0 stage_branches GetEntry event_body stage_decls
              disk argv inTree Hr) as (Hreq & _ & Hw & Hex).
  rewrite H0 in Hreq, Hw. change (selected_stages 0) with stages in Hreq, Hw.
  split; [destruct Hex as [-> | [f ->]]; discriminate|].
  split; [exact Hreq|]. split.
  - pose proof (main_fills vars0 stage_branches GetEntry event_body stage_decls
                  disk argv inTree Hr) as Hf.
    rewrite H0 in Hf. eapply Forall_impl; [exact Hf|].
    intros l [v ->]. exists v. rewrite body_blocks by lia. reflexivity.
  - intros He. split.
    + now apply (main_progress vars0 stage_branches GetEntry event_body stage_decls
                   disk argv inTree Hr).
    + now rewrite He in Hw.
Qed.

End Reco.

Section Plots.
Variable gets : Z -> list (string * TClass * string).
Variable checked : Z -> list string.
Variable plot_stage : Z -> list action.
Variable stmts : Z -> list stmt.
Hypothesis stmts_denote : forall k, plot_stage k = map denote (stmts k).
Hypothesis one_get : forall k1 k2 v C1 C2 key1 key2, k1 ∈ stages -> k2 ∈ stages ->
  (v, C1, key1) ∈ gets k1 -> (v, C2, key2) ∈ gets k2 -> C1 = C2 /\ key1 = key2.
Hypothesis checked_retrieved : forall k v, k ∈ stages -> v ∈ checked k ->
  exists k' C key, k' ∈ stages /\ k' <= k /\ (v, C, key) ∈ gets k'.
Hypothesis uses_retrieved : forall k v, k ∈ stages -> v ∈ uses (stmts k) ->
  exists k' C key, k' ∈ stages /\ k' <= k /\ (v, C, key) ∈ gets k'.

Lemma plots_every_stage (argv : list string) :
  Libc.to_int (Libc.atol (arg argv 2)) = 0 ->
  plots_runs_every_stage gets checked stmts (Plots.main gets checked plot_stage) argv.
Proof.
  intros H0 disk inFile Hl Hp Hrt Hd run. subst run.
  assert (Hr : ready disk argv inFile).
  { split; [exact Hl|]. split; [exact Hp|]. split; [exact Hrt|].
    split; [rewrite H0; lia | exact Hd]. }
  split.
  - intros k v C key Hk Hin Hc Ha.
    pose proof (main_missing_fatal gets checked plot_stage disk argv inFile k v C key
                  Hr one_get checked_retrieved) as H.
    cbn zeta in H. rewrite H0 in H. now apply H.
  - intros Hc.
    pose proof (main_plotted gets checked plot_stage stmts stmts_denote one_get
                  checked_retrieved uses_retrieved disk argv inFile Hr) as H.
    cbn zeta in H. rewrite H0 in H. now apply H.
Qed.

End Plots.

(** C9. A step argument in which [atol] finds no number (after white
    space and an optional sign no digit follows, as in "abc") is read as
    0, and 0 passes the range test and selects every stage.  Each of the
    four programs then executes every stage instead of returning 1: a
    reconstruction program that opens its file and tree switches on the
    branches of all five stages, runs the five fill blocks for every
    event it enters and writes the histograms of all five stages; a
    plotting program that opens its file retrieves and tests the
    histograms of all five stages and, when they are there, prints the
    pages of all five, 17 for jetRecoExp_plots and 12 for
    jetRecoGroom_plots.  Each run is the run on the argument "0". *)
Theorem non_numeric_step_runs_all_stages (argv : list string) :
  Libc.no_conversion (arg argv 2) = true ->
  Libc.to_int (Libc.atol (arg argv 2)) = 0
  /\ invalid_step (Libc.to_int (Libc.atol (arg argv 2))) = false
  /\ reco_runs_every_stage JetRecoExp.stage_branches JetRecoExp.stage_fill
       JetRecoExp.stage_decls JetRecoExp.main argv
  /\ (forall (PseudoJet : Type) (make_pseudojet : Q -> Q -> Q -> Q -> PseudoJet)
        (akt10_jets : list PseudoJet -> list PseudoJet)
        (trimmer : PseudoJet -> PseudoJet) (pt : PseudoJet -> Q),
        reco_runs_every_stage JetRecoGroom.stage_branches
          (JetRecoGroom.stage_fill make_pseudojet akt10_jets trimmer pt)
          JetRecoGroom.stage_decls
          (JetRecoGroom.main make_pseudojet akt10_jets trimmer pt) argv)
  /\ plots_runs_every_stage JetRecoExpPlots.gets JetRecoExpPlots.checked exp_stmts
       JetRecoExpPlots.main argv
  /\ plots_runs_every_stage JetRecoGroomPlots.gets JetRecoGroomPlots.checked groom_stmts
       JetRecoGroomPlots.main argv
  /\ prints (flat_map exp_stmts stages) = 17%nat
  /\ prints (flat_map groom_stmts stages) = 12%nat
  /\ (forall disk, JetRecoExp.main disk argv = JetRecoExp.main disk (<[2%nat := "0"]> argv))
  /\ (forall (PseudoJet : Type) (make_pseudojet : Q -> Q -> Q -> Q -> PseudoJet)
        (akt10_jets : list PseudoJet -> list PseudoJet)
        (trimmer : PseudoJet -> PseudoJet) (pt : PseudoJet -> Q) disk,
        JetRecoGroom.main make_pseudojet akt10_jets trimmer pt disk argv
        = JetRecoGroom.main make_pseudojet akt10_jets trimmer pt disk
            (<[2%nat := "0"]> argv))
  /\ (forall disk, JetRecoExpPlots.main disk argv
                   = JetRecoExpPlots.main disk (<[2%nat := "0"]> argv))
  /\ (forall disk, JetRecoGroomPlots.main disk argv
                   = JetRecoGroomPlots.main disk (<[2%nat := "0"]> argv)).
Proof.
  intros Hn. pose proof (atol_no_conversion _ Hn) as H0.
  assert (Hs : Libc.to_int (Libc.atol (arg argv 2)) = 0) by now rewrite H0.
  split; [exact Hs|]. split; [now rewrite Hs|].
  split.
  { apply (reco_every_stage JetRecoExp.vars0 JetRecoExp.stage_branches JetRecoExp.GetEntry
             JetRecoExp.event_body JetRecoExp.stage_decls JetRecoExp.stage_fill
             JetRecoExpFacts.event_body_blocks argv Hs). }
  split.
  { intros PseudoJet make_pseudojet akt10_jets trimmer pt.
    apply (reco_every_stage JetRecoGroom.vars0 JetRecoGroom.stage_branches
             JetRecoGroom.GetEntry
             (JetRecoGroom.event_body make_pseudojet akt10_jets trimmer pt)
             JetRecoGroom.stage_decls
             (JetRecoGroom.stage_fill make_pseudojet akt10_jets trimmer pt)
             (JetRecoGroomFacts.groom_event_body_blocks make_pseudojet akt10_jets trimmer pt)
             argv Hs). }
  split.
  { apply (plots_every_stage JetRecoExpPlots.gets JetRecoExpPlots.checked
             JetRecoExpPlots.plot_stage exp_stmts exp_stmts_denote exp_one_get
             exp_checked_retrieved exp_uses_retrieved argv Hs). }
  split.
  { apply (plots_every_stage JetRecoGroomPlots.gets JetRecoGroomPlots.checked
             JetRecoGroomPlots.plot_stage groom_stmts groom_stmts_denote groom_one_get
             groom_checked_retrieved groom_uses_retrieved argv Hs). }
  split; [reflexivity|]. split; [reflexivity|].
  split; [intros disk; now apply reco_main_as_zero|].
  split; [intros; now apply reco_main_as_zero|].
  split; intros disk; now apply plots_main_as_zero.
Qed.

Lemma non_numeric_step_runs_all_stages_witness :
  let argv := reco_argv "abc" in
  let run := JetRecoExp.main exp_disk argv in
  Libc.no_conversion (arg argv 2) = true
  /\ Prog.exit_status run <> Exit 1
  /\ requested <$> reader run = Some (flat_map JetRecoExp.stage_branches stages)
  /\ map fName (written run) = flat_map (stage_writes JetRecoExp.stage_decls) stages.
Proof.
  cbn zeta.
  assert (Hn : Libc.no_conversion (arg (reco_argv "abc") 2) = true) by reflexivity.
  split; [exact Hn|].
  destruct (non_numeric_step_runs_all_stages (reco_argv "abc") Hn)
    as (_ & _ & H & _).
  destruct (H exp_disk {[ "tree" := exp_tree ]} exp_tree) as (H1 & H2 & _ & H4).
  - cbn. lia.
  - vm_compute. reflexivity.
  - vm_compute. reflexivity.
  - split; [exact H1|]. split; [exact H2|].
    apply H4. vm_compute. reflexivity.
Defined.

End NonNumericStep.
